(** * FormatWave: the batch conversion service, embedded and verified

    A shallow embedding of [app.py] and of the [converters] package:
    the converter registry, the image and PDF converters, the batch
    pipeline of [convert_files], the preview / download endpoints, the
    archive builder and the cleanup sweep.  The file system the service
    works on is a finite map from absolute paths to nodes; everything the
    code obtains from outside (uploaded files, random identifiers, sizes
    of encoded outputs, [stat] results seen by the sweeper) is an explicit
    input. *)

From Stdlib Require Import ZArith Lia Ascii.
From Stdlib Require QArith_base.
From stdpp Require Import base option list strings gmap fin_maps pretty.

Local Open Scope Z_scope.
#[local] Set Warnings "-register-all,-clear-no-such-hyp".


(** ** Python strings (ASCII fragment) *)

Module Str.

Definition eqb (a b : string) : bool := bool_decide (a = b).

Definition is_upper (c : ascii) : bool :=
  let n := nat_of_ascii c in ((65 <=? n) && (n <=? 90))%nat.

Definition lower_ascii (c : ascii) : ascii :=
  if is_upper c then ascii_of_nat (nat_of_ascii c + 32) else c.

(** [str.lower()] *)
Fixpoint lower (s : string) : string :=
  match s with
  | EmptyString => EmptyString
  | String c s' => String (lower_ascii c) (lower s')
  end.

(** what [str.strip()] removes: TAB..CR, FS..US and the space *)
Definition is_space (c : ascii) : bool :=
  let n := nat_of_ascii c in
  (((9 <=? n) && (n <=? 13)) || ((28 <=? n) && (n <=? 32)))%nat.

Fixpoint lstrip_with (p : ascii → bool) (s : string) : string :=
  match s with
  | EmptyString => EmptyString
  | String c s' => if p c then lstrip_with p s' else s
  end.

Definition rstrip_with (p : ascii → bool) (s : string) : string :=
  String.rev (lstrip_with p (String.rev s)).

(** [str.strip()] *)
Definition strip (s : string) : string :=
  rstrip_with is_space (lstrip_with is_space s).

(** [str.lstrip(".")] *)
Definition lstrip_dot (s : string) : string :=
  lstrip_with (λ c, bool_decide (c = "."%char)) s.

Fixpoint starts_with (p s : string) : bool :=
  match p, s with
  | EmptyString, _ => true
  | String a p', String b s' => bool_decide (a = b) && starts_with p' s'
  | String _ _, EmptyString => false
  end.

(** [c in s] for a one-character [c] *)
Fixpoint contains (c : ascii) (s : string) : bool :=
  match s with
  | EmptyString => false
  | String a s' => bool_decide (a = c) || contains c s'
  end.

(** [str.split(sep)] for a non-empty separator: the pieces between the
    non-overlapping occurrences of [sep], found left to right.  [skip]
    counts the characters of a separator still to be dropped and [cur]
    holds the current piece, reversed. *)
Fixpoint split_go (sep : string) (skip : nat) (cur : string) (s : string)
  : list string :=
  match s with
  | EmptyString => [String.rev cur]
  | String c s' =>
      match skip with
      | S k => split_go sep k cur s'
      | O =>
          if starts_with sep s
          then String.rev cur :: split_go sep (String.length sep - 1) "" s'
          else split_go sep 0 (String c cur) s'
      end
  end.

Definition split (sep s : string) : list string := split_go sep 0 "" s.

(** [str.split(c, 1)]: at most one cut, at the first [c] *)
Fixpoint split1_go (c : ascii) (cur : string) (s : string) : list string :=
  match s with
  | EmptyString => [String.rev cur]
  | String a s' =>
      if bool_decide (a = c) then [String.rev cur; s']
      else split1_go c (String a cur) s'
  end.

Definition split1 (c : ascii) (s : string) : list string := split1_go c "" s.

(** [str.rfind(c)], [None] standing for [-1] *)
Fixpoint rfind (c : ascii) (s : string) : option nat :=
  match s with
  | EmptyString => None
  | String a s' =>
      match rfind c s' with
      | Some i => Some (S i)
      | None => if bool_decide (a = c) then Some O else None
      end
  end.

(** [sep.join(l)] *)
Definition join (sep : string) (l : list string) : string :=
  String.concat sep l.

(** [s[:n]] and [s[n:]] *)
Definition take (n : nat) (s : string) : string := String.substring 0 n s.
Definition drop (n : nat) (s : string) : string :=
  String.substring n (String.length s - n) s.

(** [f"{n:03d}"] for a natural number: decimal, left-padded with zeros
    to a width of at least three *)
Fixpoint zfill_go (k : nat) (s : string) : string :=
  match k with
  | O => s
  | S k' => String "0" (zfill_go k' s)
  end.

Definition fmt_03d (n : nat) : string :=
  let d := pretty n in zfill_go (3 - String.length d) d.

End Str.

(** ** [pathlib] on POSIX *)

Module PathLib.

(** An absolute path: its components below the root. *)
Abbreviation path := (list string).

(** The components of a path string: empty components and ["."] are
    dropped by [pathlib], [".."] is kept. *)
Definition parts (s : string) : list string :=
  filter (λ p, p ≠ "" ∧ p ≠ ".") (Str.split "/" s).

Definition is_absolute (s : string) : bool := Str.starts_with "/" s.

(** [p / s]: an absolute right operand replaces the left one. *)
Definition joinpath (p : path) (s : string) : path :=
  if is_absolute s then parts s else p ++ parts s.

(** [Path.name] of a component list *)
Definition name_of (p : path) : string := List.last p "".

(** [PurePath(s).name] *)
Definition name (s : string) : string := name_of (parts s).

(** [Path.suffix] and [Path.stem], on the final component [n]:
    [i = n.rfind('.')], a suffix only if [0 < i < len(n) - 1]. *)
Definition suffix_of_name (n : string) : string :=
  match Str.rfind "." n with
  | Some i =>
      if ((0 <? i) && (i <? String.length n - 1))%nat then Str.drop i n
      else ""
  | None => ""
  end.

Definition stem_of_name (n : string) : string :=
  match Str.rfind "." n with
  | Some i =>
      if ((0 <? i) && (i <? String.length n - 1))%nat then Str.take i n
      else n
  | None => n
  end.

Definition suffix (s : string) : string := suffix_of_name (name s).
Definition stem (s : string) : string := stem_of_name (name s).

Definition parent (p : path) : path := removelast p.

End PathLib.


(** ** The file system *)

Module FS.
Export PathLib.

(** The PIL view of a decoded picture: its mode, whether [img.info]
    has a ['transparency'] key, and whether it is the result of pasting
    onto a white background. *)
Record image := Image {
  mode : string;
  transparency : bool;
  on_white : bool;
}.

(** What a file holds, as far as the decoders can tell. *)
Inductive content :=
| Pdf (pages : list bool)
    (** a PDF document; for each page, whether it can be rasterised *)
| Picture (format : string) (img : image)
    (** an encoded picture *)
| Raster (page_num : nat) (zoom : QArith_base.Q)
    (** the PNG written from the pixmap of page [page_num] *)
| Zip (entries : list (string * content))
    (** an archive: its entries, by archive name *)
| Blob.
    (** anything no decoder accepts *)

Inductive node :=
| File (c : content)
| Dir.

Inductive exn :=
| ValueError (msg : string)
| RuntimeError (msg : string)
| UnidentifiedImageError
| FileNotFoundError
| FileExistsError
| IsADirectoryError
| NotADirectoryError
| PermissionError.

(** [str(e)]; the texts of operating-system errors are abbreviated to
    their reason. *)
Definition str_exn (e : exn) : string :=
  match e with
  | ValueError msg => msg
  | RuntimeError msg => msg
  | UnidentifiedImageError => "cannot identify image file"
  | FileNotFoundError => "No such file or directory"
  | FileExistsError => "File exists"
  | IsADirectoryError => "Is a directory"
  | NotADirectoryError => "Not a directory"
  | PermissionError => "Permission denied"
  end.

Abbreviation fs := (gmap (list string) node).

(** The root is a directory; below it a path is what the map says. *)
Definition node_at (m : fs) (p : path) : option node :=
  match p with
  | [] => Some Dir
  | _ => m !! p
  end.

Definition dir_at (m : fs) (p : path) : bool :=
  match node_at m p with Some Dir => true | _ => false end.

(** Resolution of a path by the operating system, component by
    component from [cur]: [".."] steps to the parent, any other
    component must name an entry of the directory reached so far. *)
Fixpoint walk (m : fs) (cur : path) (comps : list string) : option path :=
  match comps with
  | [] => Some cur
  | c :: rest =>
      if dir_at m cur then
        if Str.eqb c ".." then walk m (parent cur) rest
        else match m !! (cur ++ [c]) with
             | Some _ => walk m (cur ++ [c]) rest
             | None => None
             end
      else None
  end.

(** The entry a path denotes, if it denotes one. *)
Definition realpath (m : fs) (p : path) : option path := walk m [] p.

Definition stat (m : fs) (p : path) : option node :=
  r ← realpath m p; node_at m r.

(** [Path.exists()], [Path.is_file()], [Path.is_dir()] *)
Definition exists_ (m : fs) (p : path) : bool := bool_decide (is_Some (stat m p)).
Definition is_file (m : fs) (p : path) : bool :=
  match stat m p with Some (File _) => true | _ => false end.
Definition is_dir (m : fs) (p : path) : bool :=
  match stat m p with Some Dir => true | _ => false end.

(** Where a file opened for writing at [p] lands: its parent must
    resolve to a directory. *)
Definition target (m : fs) (p : path) : option path :=
  match p with
  | [] => None
  | _ =>
      d ← realpath m (parent p);
      if dir_at m d && negb (Str.eqb (name_of p) "..")
      then Some (d ++ [name_of p]) else None
  end.

(** [open(p, "wb")] followed by writing [c]: creates or overwrites. *)
Definition write_file (p : path) (c : content) (m : fs) : exn + fs :=
  match target m p with
  | None => inl FileNotFoundError
  | Some t =>
      match m !! t with
      | Some Dir => inl IsADirectoryError
      | _ => inr (<[t := File c]> m)
      end
  end.

Definition read_file (m : fs) (p : path) : exn + content :=
  match stat m p with
  | None => inl FileNotFoundError
  | Some Dir => inl IsADirectoryError
  | Some (File c) => inr c
  end.

(** [Path.unlink()] *)
Definition unlink (p : path) (m : fs) : exn + fs :=
  match realpath m p with
  | None => inl FileNotFoundError
  | Some r =>
      match node_at m r with
      | Some (File _) => inr (delete r m)
      | Some Dir => inl IsADirectoryError
      | None => inl FileNotFoundError
      end
  end.

(** [shutil.rmtree(p)]: the entry and everything below it. *)
Definition rmtree (p : path) (m : fs) : exn + fs :=
  match realpath m p with
  | None => inl FileNotFoundError
  | Some r =>
      match node_at m r with
      | Some Dir => inr (filter (λ kv, ¬ r `prefix_of` kv.1) m)
      | Some (File _) => inl NotADirectoryError
      | None => inl FileNotFoundError
      end
  end.

(** [Path.mkdir(parents=True, exist_ok=True)] *)
Fixpoint mkdir_go (cur : path) (comps : list string) (m : fs) : exn + fs :=
  match comps with
  | [] => inr m
  | c :: rest =>
      if Str.eqb c ".." then mkdir_go (parent cur) rest m
      else match m !! (cur ++ [c]) with
           | Some Dir => mkdir_go (cur ++ [c]) rest m
           | Some (File _) =>
               inl (match rest with [] => FileExistsError | _ => NotADirectoryError end)
           | None => mkdir_go (cur ++ [c]) rest (<[cur ++ [c] := Dir]> m)
           end
  end.

Definition mkdir_parents (p : path) (m : fs) : exn + fs := mkdir_go [] p m.

(** The name under which [q] is an entry of the directory [d]. *)
Definition child_name (d q : path) : option string :=
  match reverse q with
  | n :: rd => if bool_decide (reverse rd = d) then Some n else None
  | [] => None
  end.

(** The entry names of the directory at the resolved path [d]. *)
Definition listdir (m : fs) (d : path) : list string :=
  omap (λ kv, child_name d kv.1) (map_to_list m).

(** [Path.iterdir()]: the entries as [p / name]. *)
Definition iterdir (m : fs) (p : path) : exn + list path :=
  match realpath m p with
  | None => inl FileNotFoundError
  | Some r =>
      match node_at m r with
      | Some Dir => inr ((λ n, p ++ [n]) <$> listdir m r)
      | Some (File _) => inl NotADirectoryError
      | None => inl FileNotFoundError
      end
  end.

End FS.

(** ** A state-and-exception monad for the request handlers *)

Module Monad.
Export FS.

(** What a handler can change: the file system, and how many random
    identifiers have been drawn. *)
Record world := World {
  files : fs;
  draws : nat;
}.

Definition M (A : Type) : Type := world → (exn + A) * world.

Definition ret {A} (a : A) : M A := λ w, (inr a, w).
Definition raise {A} (e : exn) : M A := λ w, (inl e, w).
Definition bind {A B} (c : M A) (k : A → M B) : M B :=
  λ w, match c w with
       | (inl e, w') => (inl e, w')
       | (inr a, w') => k a w'
       end.

(** [try: c  except Exception as e: h e] *)
Definition try_except {A} (c : M A) (h : exn → M A) : M A :=
  λ w, match c w with
       | (inl e, w') => h e w'
       | (inr a, w') => (inr a, w')
       end.

Definition get_fs : M fs := λ w, (inr (files w), w).

(** A file-system operation run as a step of a handler. *)
Definition on_fs (f : fs → exn + fs) : M unit :=
  λ w, match f (files w) with
       | inl e => (inl e, w)
       | inr m => (inr tt, World m (draws w))
       end.

(** The next random identifier of the stream [gen]. *)
Definition draw (gen : nat → string) : M string :=
  λ w, (inr (gen (draws w)), World (files w) (S (draws w))).

Declare Scope monad_scope.
Delimit Scope monad_scope with M.
Notation "x ← y ; z" := (bind y (λ x, z)) (only parsing) : monad_scope.
Notation "x ;; z" := (bind x (λ _, z)) (only parsing) : monad_scope.

(** [for x in l: acc = body x acc] *)
Fixpoint for_each {A B} (l : list A) (body : A → B → M B) (acc : B) : M B :=
  match l with
  | [] => ret acc
  | x :: rest => bind (body x acc) (for_each rest body)
  end.

End Monad.

(** ** converters/image_converter.py *)

Module image_converter.
Export Monad.
Local Open Scope monad_scope.

(** [Image.open]: PIL recognises a picture by its bytes. *)
Definition Image_open (p : path) : M image :=
  m ← get_fs;
  match read_file m p with
  | inl e => raise e
  | inr (Picture _ img) => ret img
  | inr (Raster _ _) => ret (Image "RGB" false false)
  | inr _ => raise UnidentifiedImageError
  end.

(** [img.convert(m)]: the mode changes, [img.info] is carried over. *)
Definition convert (m : string) (img : image) : image :=
  Image m (transparency img) (on_white img).

(** [background = Image.new('RGB', size, (255, 255, 255))] followed by
    [background.paste(img, mask=img.split()[-1])] *)
Definition paste_on_white (img : image) : image :=
  Image "RGB" false true.

Definition mode_in (img : image) (modes : list string) : bool :=
  bool_decide (mode img ∈ modes).

(** The block of [_convert_image] under [# Handle transparency]. *)
Definition handle_transparency (target_format : string) (img : image) : image :=
  if Str.eqb target_format "JPEG" then
    if mode_in img ["RGBA"; "LA"; "PA"; "P"] then
      let img1 := if Str.eqb (mode img) "P" then convert "RGBA" img else img in
      if mode_in img1 ["RGBA"; "LA"] then paste_on_white img1
      else convert "RGB" img1
    else convert "RGB" img
  else if bool_decide (target_format ∈ ["PNG"; "WEBP"]) then
    if mode_in img ["RGBA"; "LA"; "PA"]
       || (Str.eqb (mode img) "P" && transparency img)
    then convert "RGBA" img
    else convert "RGB" img
  else convert "RGB" img.

(** The number of channels of a mode the converter ends in. *)
Definition channels (m : string) : nat :=
  if Str.eqb m "RGBA" then 4 else if Str.eqb m "RGB" then 3 else 0.

Definition _convert_image (input_path output_dir : path)
    (target_format target_ext : string) : M (list path) :=
  on_fs (mkdir_parents output_dir);;
  let output_filename := stem_of_name (name_of input_path) +:+ target_ext in
  let output_path := joinpath output_dir output_filename in
  try_except
    (img ← Image_open input_path;
     on_fs (write_file output_path
              (Picture target_format (handle_transparency target_format img))))
    (λ e, raise (ValueError ("Failed to convert image: " +:+ str_exn e)));;
  ret [output_path].

Definition convert_webp_to_png (i o : path) := _convert_image i o "PNG" ".png".
Definition convert_png_to_webp (i o : path) := _convert_image i o "WEBP" ".webp".
Definition convert_png_to_jpg (i o : path) := _convert_image i o "JPEG" ".jpg".
Definition convert_jpg_to_png (i o : path) := _convert_image i o "PNG" ".png".
Definition convert_bmp_to_png (i o : path) := _convert_image i o "PNG" ".png".
Definition convert_tiff_to_png (i o : path) := _convert_image i o "PNG" ".png".

End image_converter.

(** ** converters/pdf_converter.py *)

Module pdf_converter.
Export Monad.
Local Open Scope monad_scope.

(** [fitz.open]: the pages of the document. *)
Definition fitz_open (p : path) : M (list bool) :=
  m ← get_fs;
  match read_file m p with
  | inl e => raise e
  | inr (Pdf pages) => ret pages
  | inr _ => raise (RuntimeError "cannot open document")
  end.

(** [doc[page_num].get_pixmap(matrix=fitz.Matrix(zoom, zoom))] *)
Definition get_pixmap (doc : list bool) (page_num : nat) (zoom : QArith_base.Q)
  : M content :=
  match doc !! page_num with
  | Some true => ret (Raster page_num zoom)
  | _ => raise (RuntimeError "cannot render page")
  end.

Definition page_filename (stem : string) (page_num : nat) : string :=
  stem +:+ "_page_" +:+ Str.fmt_03d (page_num + 1) +:+ ".png".

Definition zoom_of (dpi : Z) : QArith_base.Q := QArith_base.Qmake dpi 72.

Definition convert_pdf_to_png_dpi (input_path output_dir : path) (dpi : Z)
  : M (list path) :=
  on_fs (mkdir_parents output_dir);;
  doc ← try_except (fitz_open input_path)
          (λ e, raise (ValueError ("Failed to open PDF: " +:+ str_exn e)));
  let zoom := zoom_of dpi in
  for_each (seq 0 (length doc))
    (λ page_num converted_files,
       pix ← get_pixmap doc page_num zoom;
       let output_filename := page_filename (stem_of_name (name_of input_path)) page_num in
       let output_path := joinpath output_dir output_filename in
       on_fs (write_file output_path pix);;
       ret (converted_files ++ [output_path]))
    [].

(** the default [dpi: int = 200] *)
Definition convert_pdf_to_png (input_path output_dir : path) : M (list path) :=
  convert_pdf_to_png_dpi input_path output_dir 200.

End pdf_converter.

(** ** converters/__init__.py *)

Module converters.
Export Monad.

(** The function objects held by the registry. *)
Inductive converter :=
| Convert_pdf_to_png
| Convert_webp_to_png
| Convert_png_to_webp
| Convert_png_to_jpg
| Convert_jpg_to_png
| Convert_bmp_to_png
| Convert_tiff_to_png.

Definition call (c : converter) : path → path → M (list path) :=
  match c with
  | Convert_pdf_to_png => pdf_converter.convert_pdf_to_png
  | Convert_webp_to_png => image_converter.convert_webp_to_png
  | Convert_png_to_webp => image_converter.convert_png_to_webp
  | Convert_png_to_jpg => image_converter.convert_png_to_jpg
  | Convert_jpg_to_png => image_converter.convert_jpg_to_png
  | Convert_bmp_to_png => image_converter.convert_bmp_to_png
  | Convert_tiff_to_png => image_converter.convert_tiff_to_png
  end.

Definition CONVERTERS : gmap (string * string) converter :=
  list_to_map [
    (("pdf", "png"), Convert_pdf_to_png);
    (("webp", "png"), Convert_webp_to_png);
    (("png", "webp"), Convert_png_to_webp);
    (("png", "jpg"), Convert_png_to_jpg);
    (("jpg", "png"), Convert_jpg_to_png);
    (("jpeg", "png"), Convert_jpg_to_png);
    (("bmp", "png"), Convert_bmp_to_png);
    (("tiff", "png"), Convert_tiff_to_png);
    (("tif", "png"), Convert_tiff_to_png)
  ].

(** An entry of [CONVERSION_OPTIONS]. *)
Record conversion_option := Option_ {
  id : string;
  from : string;
  to : string;
  from_ext : list string;
  to_ext : string;
  icon : string;
  description : string;
}.

Definition CONVERSION_OPTIONS : list conversion_option := [
  Option_ "pdf-to-png" "PDF" "PNG" ["pdf"] "png" "📄" "Convert PDF pages to PNG images";
  Option_ "webp-to-png" "WebP" "PNG" ["webp"] "png" "🖼️" "Convert WebP images to PNG format";
  Option_ "png-to-webp" "PNG" "WebP" ["png"] "webp" "🔄" "Convert PNG images to WebP format";
  Option_ "png-to-jpg" "PNG" "JPG" ["png"] "jpg" "🎨" "Convert PNG images to JPG format";
  Option_ "jpg-to-png" "JPG" "PNG" ["jpg"; "jpeg"] "png" "✨" "Convert JPG images to PNG format";
  Option_ "bmp-to-png" "BMP" "PNG" ["bmp"] "png" "🗺️" "Convert BMP images to PNG format";
  Option_ "tiff-to-png" "TIFF" "PNG" ["tiff"; "tif"] "png" "📷" "Convert TIFF images to PNG format"
].

Definition get_converter (from_format to_format : string) : option converter :=
  CONVERTERS !! (Str.lower from_format, Str.lower to_format).

Definition get_accepted_extensions (conversion_id : string) : list string :=
  match List.find (λ o, Str.eqb (id o) conversion_id) CONVERSION_OPTIONS with
  | Some o => from_ext o
  | None => []
  end.

Definition get_target_extension (conversion_id : string) : string :=
  match List.find (λ o, Str.eqb (id o) conversion_id) CONVERSION_OPTIONS with
  | Some o => to_ext o
  | None => ""
  end.

End converters.

(** ** app.py *)

Module app.
Export converters.
Local Open Scope monad_scope.

(** What the process is given from outside: where it is installed, the
    stream of [uuid.uuid4().hex] values, and the size in bytes of a file
    holding a given content. *)
Record env := Env {
  BASE_DIR : path;
  uuid4_hex : nat → string;
  st_size : content → Z;
}.

Definition UPLOAD_DIR (e : env) : path := joinpath (BASE_DIR e) "uploads".
Definition CONVERTED_DIR (e : env) : path := joinpath (BASE_DIR e) "converted".

Definition MAX_FILE_SIZE : Z := 50 * 1024 * 1024.
Definition MAX_FILES_PER_BATCH : nat := 20.
Definition CLEANUP_AGE_SECONDS : Z := 3600.

(** *** Requests and responses *)

Record upload := Upload {
  filename : string;
  body : content;
}.

Record request := Request {
  form_conversion_id : option string;
  request_files : list upload;
}.

Record result_entry := Result {
  original_name : string;
  converted_name : string;
  file_id : string;
  size : Z;
  size_human : string;
  previewable : bool;
  preview_url : option string;
  download_url : string;
}.

Record error_entry := Error {
  err_filename : string;
  err_error : string;
}.

Record BatchResult := Batch {
  session_id : string;
  results : list result_entry;
  errors : list error_entry;
  total_converted : nat;
  total_errors : nat;
  download_all_url : option string;
}.

Inductive response :=
| JsonError (status : nat) (error : string)
| JsonBatch (r : BatchResult)
| FileResponse (file : path) (c : content) (as_attachment : bool)
    (download_name : option string)
| InternalServerError (e : exn).

(** A view run by the framework: an exception that escapes the view
    becomes a 500 response. *)
Definition serve (view : M response) (w : world) : response * world :=
  match view w with
  | (inr r, w') => (r, w')
  | (inl e, w') => (InternalServerError e, w')
  end.

(** [send_file]: the file served is the one the path resolves to. *)
Definition send_file (m : fs) (p : path) (as_attachment : bool)
    (download_name : option string) : M response :=
  match read_file m p, realpath m p with
  | inr c, Some r => ret (FileResponse r c as_attachment download_name)
  | inl e, _ => raise e
  | _, None => raise FileNotFoundError
  end.

(** *** Helpers *)

(** [f"{x:.1f}"] for the exact value [num / den], [0 <= num], [0 < den]:
    dividing a size by 1024 is exact in binary floating point, and the
    format rounds the exact value to the nearest tenth, ties to even. *)
Definition fmt_1f (num den : Z) : string :=
  let q := (10 * num) / den in
  let r := (10 * num) mod den in
  let t := if (den <? 2 * r) || ((den =? 2 * r) && Z.odd q) then q + 1 else q in
  pretty (t / 10) +:+ "." +:+ pretty (t mod 10).

Fixpoint human_size_go (units : list string) (num den : Z) : string :=
  match units with
  | [] => fmt_1f num den +:+ " TB"
  | unit :: rest =>
      if Z.abs num <? 1024 * den then fmt_1f num den +:+ " " +:+ unit
      else human_size_go rest num (den * 1024)
  end.

Definition _human_size (num_bytes : Z) : string :=
  human_size_go ["B"; "KB"; "MB"; "GB"] num_bytes 1.

(** [stat().st_size] of a node (a directory has the size of its table). *)
Definition size_of (e : env) (n : node) : Z :=
  match n with
  | File c => st_size e c
  | Dir => 4096
  end.

(** [str(uuid.uuid4())[:12]]: eight hexadecimal digits, a hyphen, three more *)
Definition session_id_of (hex : string) : string :=
  Str.take 8 hex +:+ "-" +:+ String.substring 8 3 hex.

(** *** The registry lookup of [convert_files], with its fallback *)

Definition lookup_converter (from_format to_format : string) : option converter :=
  match CONVERTERS !! (from_format, to_format) with
  | Some c => Some c
  | None =>
      if Str.eqb from_format "jpg" then CONVERTERS !! ("jpeg", to_format)
      else if Str.eqb from_format "tiff" then CONVERTERS !! ("tif", to_format)
      else None
  end.

(** *** The per-file part of [convert_files] *)

(** The user-facing name of an output file. *)
Definition display_name_of (file_name : string) (output_path : path) : string :=
  let original_stem := stem file_name in
  let out_name := name_of output_path in
  let out_stem := stem_of_name out_name in
  let out_suffix := suffix_of_name out_name in
  if Str.contains "_" out_stem then
    match Str.split1 "_" out_stem with
    | _ :: rest :: _ => rest +:+ out_suffix
    | _ => original_stem +:+ out_suffix
    end
  else out_name.

Definition is_previewable_path (output_path : path) : bool :=
  bool_decide (Str.lower (suffix_of_name (name_of output_path))
               ∈ [".png"; ".jpg"; ".jpeg"; ".webp"; ".bmp"]).

Definition result_of (e : env) (sid : string) (file : upload)
    (output_path : path) (n : node) : result_entry :=
  let file_size := size_of e n in
  let is_previewable := is_previewable_path output_path in
  {| original_name := filename file;
     converted_name := display_name_of (filename file) output_path;
     file_id := name_of output_path;
     size := file_size;
     size_human := _human_size file_size;
     previewable := is_previewable;
     preview_url :=
       if is_previewable
       then Some ("/api/preview/" +:+ sid +:+ "/" +:+ name_of output_path)
       else None;
     download_url := "/api/download/" +:+ sid +:+ "/" +:+ name_of output_path |}.

(** [for output_path in output_paths: ... results.append(...)]: the
    entries appended so far stay in [results] when a [stat] raises. *)
Fixpoint append_results (e : env) (sid : string) (file : upload) (m : fs)
    (output_paths : list path) (results : list result_entry)
  : list result_entry * option exn :=
  match output_paths with
  | [] => (results, None)
  | output_path :: rest =>
      match stat m output_path with
      | None => (results, Some FileNotFoundError)
      | Some n =>
          append_results e sid file m rest
            (results ++ [result_of e sid file output_path n])
      end
  end.

Definition file_ext_of (file : upload) : string :=
  Str.lstrip_dot (Str.lower (suffix (filename file))).

Definition invalid_type_error (file : upload) (accepted_exts : list string)
  : error_entry :=
  Error (filename file)
    ("Invalid file type '." +:+ file_ext_of file +:+ "'. Expected: "
       +:+ Str.join ", " accepted_exts).

Definition too_large_error (file : upload) : error_entry :=
  Error (filename file)
    ("File too large. Maximum size: "
       +:+ pretty (MAX_FILE_SIZE / (1024 * 1024)) +:+ "MB").

Definition is_empty {A} (l : list A) : bool :=
  match l with [] => true | _ => false end.

(** The extension test: an empty allow-list accepts everything. *)
Definition rejected_extension (accepted_exts : list string) (file : upload) : bool :=
  negb (is_empty accepted_exts) && negb (bool_decide (file_ext_of file ∈ accepted_exts)).

Definition stat_size (e : env) (p : path) : M Z :=
  m ← get_fs;
  match stat m p with
  | Some n => ret (size_of e n)
  | None => raise FileNotFoundError
  end.

(** The [try: ... except Exception as e: errors.append(...)] block. *)
Definition convert_one (e : env) (converter_ : converter) (sid : string)
    (session_output_dir upload_path : path) (file : upload)
    (acc : list result_entry * list error_entry)
  : M (list result_entry * list error_entry) :=
  r ← try_except
        (output_paths ← call converter_ upload_path session_output_dir;
         ret (inr output_paths))
        (λ ex, ret (inl ex));
  match r with
  | inl ex => ret (acc.1, acc.2 ++ [Error (filename file) (str_exn ex)])
  | inr output_paths =>
      m ← get_fs;
      match append_results e sid file m output_paths acc.1 with
      | (results', None) => ret (results', acc.2)
      | (results', Some ex) =>
          ret (results', acc.2 ++ [Error (filename file) (str_exn ex)])
      end
  end.

(** The body of [for file in files:]. *)
Definition process_file (e : env) (converter_ : converter)
    (accepted_exts : list string) (sid : string)
    (session_upload_dir session_output_dir : path)
    (file : upload) (acc : list result_entry * list error_entry)
  : M (list result_entry * list error_entry) :=
  if Str.eqb (filename file) "" then ret acc
  else if rejected_extension accepted_exts file then
    ret (acc.1, acc.2 ++ [invalid_type_error file accepted_exts])
  else
    hex ← draw (uuid4_hex e);
    let safe_filename := Str.take 8 hex +:+ "_" +:+ filename file in
    let upload_path := joinpath session_upload_dir safe_filename in
    on_fs (write_file upload_path (body file));;
    sz ← stat_size e upload_path;
    if MAX_FILE_SIZE <? sz then
      on_fs (unlink upload_path);;
      ret (acc.1, acc.2 ++ [too_large_error file])
    else
      convert_one e converter_ sid session_output_dir upload_path file acc.

(** *** [POST /api/convert] *)

Definition requested_conversion (req : request) : string :=
  Str.strip (default "" (form_conversion_id req)).

(** The checks of the conversion identifier: the converter it selects, or
    the 400 response. *)
Definition resolve_conversion (conversion_id : string) : response + converter :=
  if Str.eqb conversion_id "" then
    inl (JsonError 400 "Missing conversion_id parameter")
  else
  match Str.split "-to-" conversion_id with
  | [part0; part1] =>
      let from_format := Str.lower part0 in
      let to_format := Str.lower part1 in
      match lookup_converter from_format to_format with
      | None =>
          inl (JsonError 400
                 ("Unsupported conversion: " +:+ from_format +:+ " → " +:+ to_format))
      | Some converter_ => inr converter_
      end
  | _ => inl (JsonError 400 ("Invalid conversion_id: " +:+ conversion_id))
  end.

Definition no_files_uploaded : response := JsonError 400 "No files uploaded".

Definition too_many_files : response :=
  JsonError 400
    ("Too many files. Maximum " +:+ pretty MAX_FILES_PER_BATCH +:+ " files per batch.").

Definition batch_of (sid : string)
    (acc : list result_entry * list error_entry) : BatchResult :=
  {| session_id := sid;
     results := acc.1;
     errors := acc.2;
     total_converted := length acc.1;
     total_errors := length acc.2;
     download_all_url :=
       if is_empty acc.1 then None else Some ("/api/download-all/" +:+ sid) |}.

Definition convert_files_view (e : env) (req : request) : M response :=
  let conversion_id := requested_conversion req in
  match resolve_conversion conversion_id with
  | inl bad_request => ret bad_request
  | inr converter_ =>
      let files := request_files req in
      if is_empty files || forallb (λ f, Str.eqb (filename f) "") files then
        ret no_files_uploaded
      else if (MAX_FILES_PER_BATCH <? length files)%nat then
        ret too_many_files
      else
        let accepted_exts := get_accepted_extensions conversion_id in
        hex ← draw (uuid4_hex e);
        let sid := session_id_of hex in
        let session_upload_dir := joinpath (UPLOAD_DIR e) sid in
        let session_output_dir := joinpath (CONVERTED_DIR e) sid in
        on_fs (mkdir_parents session_upload_dir);;
        on_fs (mkdir_parents session_output_dir);;
        acc ← for_each files
                (process_file e converter_ accepted_exts sid
                   session_upload_dir session_output_dir)
                ([], []);
        ret (JsonBatch (batch_of sid acc))
  end.

Definition convert_files (e : env) (req : request) (w : world) : response * world :=
  serve (convert_files_view e req) w.

(** *** [GET /api/preview/<session_id>/<filename>] and
        [GET /api/download/<session_id>/<filename>] *)

Definition preview_file_view (e : env) (sid file_name : string) : M response :=
  let file_path := joinpath (joinpath (CONVERTED_DIR e) sid) file_name in
  m ← get_fs;
  if negb (exists_ m file_path) then ret (JsonError 404 "File not found")
  else send_file m file_path false None.

Definition preview_file (e : env) (sid file_name : string) (w : world) :=
  serve (preview_file_view e sid file_name) w.

Definition download_file_view (e : env) (sid file_name : string) : M response :=
  let file_path := joinpath (joinpath (CONVERTED_DIR e) sid) file_name in
  m ← get_fs;
  if negb (exists_ m file_path) then ret (JsonError 404 "File not found")
  else send_file m file_path true (Some file_name).

Definition download_file (e : env) (sid file_name : string) (w : world) :=
  serve (download_file_view e sid file_name) w.

(** *** [GET /api/download-all/<session_id>] *)

Definition lift {A} (r : exn + A) : M A :=
  match r with inl ex => raise ex | inr a => ret a end.

(** [zf.write(str(file_path), file_path.name)] for every regular file
    of the listing. *)
Definition zip_entries (m : fs) (items : list path) : M (list (string * content)) :=
  for_each items
    (λ file_path entries,
       if is_file m file_path then
         c ← lift (read_file m file_path);
         ret (entries ++ [(name_of file_path, c)])
       else ret entries)
    [].

Definition download_all_view (e : env) (sid : string) : M response :=
  let session_dir := joinpath (CONVERTED_DIR e) sid in
  m0 ← get_fs;
  if negb (exists_ m0 session_dir) then ret (JsonError 404 "Session not found")
  else
    let zip_filename := "FormatWave_" +:+ sid +:+ ".zip" in
    let zip_path := joinpath (CONVERTED_DIR e) zip_filename in
    try_except
      (on_fs (write_file zip_path (Zip []));;
       m ← get_fs;
       items ← lift (iterdir m session_dir);
       entries ← zip_entries m items;
       on_fs (write_file zip_path (Zip entries));;
       m' ← get_fs;
       send_file m' zip_path true (Some zip_filename))
      (λ ex, ret (JsonError 500 ("Failed to create ZIP: " +:+ str_exn ex))).

Definition download_all (e : env) (sid : string) (w : world) :=
  serve (download_all_view e sid) w.

(** *** The cleanup thread *)

(** What one sweep sees from outside: the clock, the modification time
    [stat] reports for an entry ([None] when [stat] raises), and whether
    the operating system refuses to delete an entry. *)
Record sweep_env := Sweep {
  now : Z;
  st_mtime : path → option Z;
  rm_refused : path → bool;
}.

(** The body of the [try:] for one entry. *)
Definition cleanup_item (s : sweep_env) (item : path) (m : fs) : exn + fs :=
  match st_mtime s item with
  | None => inl FileNotFoundError
  | Some mtime =>
      let age := now s - mtime in
      if CLEANUP_AGE_SECONDS <? age then
        if rm_refused s item then inl PermissionError
        else if is_dir m item then rmtree item m
        else unlink item m
      else inr m
  end.

(** [try: ... except Exception: pass] *)
Definition cleanup_item_guarded (s : sweep_env) (m : fs) (item : path) : fs :=
  match cleanup_item s item m with
  | inl _ => m
  | inr m' => m'
  end.

(** The body of [for directory in [UPLOAD_DIR, CONVERTED_DIR]:]. *)
Definition cleanup_directory (s : sweep_env) (directory : path) (m : fs) : exn + fs :=
  if negb (exists_ m directory) then inr m
  else
    match iterdir m directory with
    | inl ex => inl ex
    | inr items => inr (foldl (cleanup_item_guarded s) m items)
    end.

(** One turn of [while True:], after the sleep. *)
Definition cleanup_cycle (e : env) (s : sweep_env) (m : fs) : exn + fs :=
  match cleanup_directory s (UPLOAD_DIR e) m with
  | inl ex => inl ex
  | inr m1 => cleanup_directory s (CONVERTED_DIR e) m1
  end.

(** The first [n] turns of [cleanup_old_files]; turn [k] runs in the
    surroundings [s k].  An exception ends the thread. *)
Fixpoint cleanup_old_files (e : env) (n : nat) (s : nat → sweep_env) (m : fs)
  : exn + fs :=
  match n with
  | O => inr m
  | S k =>
      match cleanup_old_files e k s m with
      | inl ex => inl ex
      | inr m' => cleanup_cycle e (s k) m'
      end
  end.

End app.

(** ** Notions used to state the properties *)

Module spec.
Export app.

(** The synonyms of a source extension. *)
Definition synonym (s : string) : option string :=
  if Str.eqb s "jpg" then Some "jpeg"
  else if Str.eqb s "jpeg" then Some "jpg"
  else if Str.eqb s "tiff" then Some "tif"
  else if Str.eqb s "tif" then Some "tiff"
  else None.

(** A registry lookup that, as the specification words it, tries the
    synonym of the source in both directions before it gives up. *)
Definition lookup_both_ways (from_format to_format : string) : option converter :=
  match CONVERTERS !! (from_format, to_format) with
  | Some c => Some c
  | None => s ← synonym from_format; CONVERTERS !! (s, to_format)
  end.

(** The number of uploaded entries with a non-empty filename. *)
Definition non_empty_count (files : list upload) : nat :=
  length (filter (λ f, filename f ≠ "") files).

(** What an uploaded entry counts for: entries without a filename are
    skipped. *)
Definition one_if_named (file : upload) : nat :=
  if decide (filename file = "") then 0%nat else 1%nat.

(** Where [process_file] persists the copy of [file], drawn in [w]. *)
Definition upload_path_of (e : env) (session_upload_dir : path)
    (file : upload) (w : world) : path :=
  joinpath session_upload_dir
    (Str.take 8 (uuid4_hex e (draws w)) +:+ "_" +:+ filename file).

(** An error recorded for [file] after the files before it: the loop
    goes on with the files after it from the world [w2], and the error is
    in the list of any result the loop ends with. *)
Definition recorded_and_continued (e : env) (converter_ : converter)
    (accepted_exts : list string) (sid : string)
    (session_upload_dir session_output_dir : path)
    (pre : list upload) (file : upload) (post : list upload)
    (acc acc1 : list result_entry * list error_entry)
    (w w2 : world) (err : error_entry) : Prop :=
  let step := process_file e converter_ accepted_exts sid
                session_upload_dir session_output_dir in
  for_each (pre ++ file :: post) step acc w
  = for_each post step (acc1.1, acc1.2 ++ [err]) w2
  ∧ ∀ accF wF,
      for_each (pre ++ file :: post) step acc w = (inr accF, wF) → err ∈ accF.2.

(** The batch result a response carries, if it carries one. *)
Definition batch_result (x : response * world) : option BatchResult :=
  match x.1 with
  | JsonBatch r => Some r
  | _ => None
  end.

(** The output directory of a session, and the archive [download_all]
    builds for it. *)
Definition session_dir_of (e : env) (sid : string) : path := CONVERTED_DIR e ++ [sid].
Definition archive_name (sid : string) : string := "FormatWave_" +:+ sid +:+ ".zip".
Definition archive_path (e : env) (sid : string) : path :=
  CONVERTED_DIR e ++ [archive_name sid].

(** The regular files directly in [d], by name. *)
Definition files_in (m : fs) (d : path) (names : list string)
  : list (string * content) :=
  omap (λ n, match m !! (d ++ [n]) with
             | Some (File c) => Some (n, c)
             | _ => None
             end) names.

(** Whether the sweep goes through with deleting [item]: [stat]
    answers, the entry is older than the threshold, and the deletion is
    not refused. *)
Definition swept (s : sweep_env) (item : path) : bool :=
  match st_mtime s item with
  | Some mtime => (CLEANUP_AGE_SECONDS <? now s - mtime) && negb (rm_refused s item)
  | None => false
  end.

Definition is_zero_char (c : ascii) : bool := bool_decide (c = "0"%char).

(** A file system lists no entry called [".."]. *)
Definition no_dotdot_entries (m : fs) : Prop :=
  ∀ p, is_Some (m !! p) → ".." ∉ p.

(** A single path component that is neither empty nor a dot name nor
    contains a separator: joined to a directory it names an entry of
    that directory. *)
Definition plain_name (s : string) : Prop :=
  Str.contains "/" s = false ∧ s ≠ "" ∧ s ≠ "." ∧ s ≠ "..".

End spec.

(** ** A small installation to run the service on *)

Module example.
Export spec.

Definition base : path := ["srv"; "formatwave"].

Definition hex_of (n : nat) : string :=
  "0000000" +:+ pretty n +:+ "9abc4def8123456789abcdef".

Definition size_of_content (c : content) : Z :=
  match c with
  | Blob => 60 * 1024 * 1024
  | Pdf pages => 1000 * Z.of_nat (length pages)
  | _ => 2048
  end.

Definition e0 : env := Env base hex_of size_of_content.

Definition m0 : fs :=
  list_to_map [
    (["srv"], Dir);
    (["srv"; "formatwave"], Dir);
    (["srv"; "formatwave"; "app.py"], File Blob);
    (["srv"; "formatwave"; "uploads"], Dir);
    (["srv"; "formatwave"; "converted"], Dir)
  ].

Definition w0 : world := World m0 0.

(** The same installation with the directories of session
    ["00000000-9ab"] in place, and the first identifier drawn. *)
Definition m1 : fs :=
  <[["srv"; "formatwave"; "uploads"; "00000000-9ab"] := Dir]>
    (<[["srv"; "formatwave"; "converted"; "00000000-9ab"] := Dir]> m0).

Definition w1 : world := World m1 1.

Definition rgba_png : content := Picture "PNG" (Image "RGBA" false false).

Definition big_png : upload := Upload "big.png" Blob.
Definition small_png : upload := Upload "a.png" rgba_png.
Definition renamed_exe : upload := Upload "a.exe" rgba_png.

Definition session : string := "00000000-9ab".
Definition session_uploads : path := ["srv"; "formatwave"; "uploads"; "00000000-9ab"].
Definition session_outputs : path := ["srv"; "formatwave"; "converted"; "00000000-9ab"].

Definition a_jpg : content := Picture "JPEG" (Image "RGB" false true).
Definition b_jpg : content := Picture "JPEG" (Image "RGB" false false).

(** The session after two conversions. *)
Definition m2 : fs :=
  <[session_outputs ++ ["00000001_a.jpg"] := File a_jpg]>
    (<[session_outputs ++ ["00000002_b.jpg"] := File b_jpg]> m1).

Definition w2 : world := World m2 3.

(** The session's upload directory with one more persisted copy. *)
Definition m1_with (name : string) (c : content) : fs :=
  <[session_uploads ++ [name] := File c]> m1.

(** The batch result of a response ([default] when it has none). *)
Definition batch_in (x : response * world) : BatchResult :=
  default (batch_of "" ([], [])) (batch_result x).

(** The paths a converter returned ([[]] when it raised). *)
Definition outputs_of (x : (exn + list path) * world) : list path :=
  match x.1 with
  | inr l => l
  | inl _ => []
  end.

Definition doc_pdf_path : path := session_uploads ++ ["00000001_doc.pdf"].

(** An installation with an old upload session, a fresh converted
    session, a stale archive and an old session that cannot be deleted. *)
Definition old_session : path := ["srv"; "formatwave"; "uploads"; "11111111-aaa"].
Definition fresh_session : path := ["srv"; "formatwave"; "converted"; "22222222-bbb"].
Definition stuck_session : path := ["srv"; "formatwave"; "converted"; "33333333-ccc"].
Definition stale_archive : path :=
  ["srv"; "formatwave"; "converted"; "FormatWave_11111111-aaa.zip"].

Definition m3 : fs :=
  <[old_session := Dir]>
    (<[old_session ++ ["0a0a0a0a_a.png"] := File rgba_png]>
       (<[fresh_session := Dir]>
          (<[fresh_session ++ ["0b0b0b0b_b.jpg"] := File b_jpg]>
             (<[stuck_session := Dir]>
                (<[stale_archive := File (Zip [])]> m0))))).

Definition s0 : sweep_env :=
  {| now := 10000;
     st_mtime p :=
       if decide (p = old_session) then Some 1000
       else if decide (p = fresh_session) then Some 9000
       else if decide (p = stuck_session) then Some 0
       else if decide (p = stale_archive) then Some 6399
       else None;
     rm_refused p := bool_decide (p = stuck_session) |}.


Definition unnamed_batch : request :=
  Request (Some "pdf-to-png") (replicate 21 (Upload "" Blob)).

Definition named_batch : request :=
  Request (Some "pdf-to-png") (replicate 21 (Upload "doc.pdf" (Pdf [true]))).

Definition mixed_batch : request :=
  Request (Some "png-to-jpg")
    [Upload "a.png" rgba_png; Upload "" Blob; Upload "b.gif" rgba_png;
     Upload "big.png" Blob; Upload "junk.png" (Pdf [])].


(** The entry of [CONVERSION_OPTIONS] for JPG sources. *)
Definition jpg_option : conversion_option :=
  Option_ "jpg-to-png" "JPG" "PNG" ["jpg"; "jpeg"] "png" "✨"
    "Convert JPG images to PNG format".

(** The entry of [CONVERSION_OPTIONS] for PNG sources sent to JPG. *)
Definition png_option : conversion_option :=
  Option_ "png-to-jpg" "PNG" "JPG" ["png"] "jpg" "🎨"
    "Convert PNG images to JPG format".


(** A persisted PNG upload about to be converted. *)
Definition a_png_path : path := session_uploads ++ ["00000001_a.png"].
Definition w_png : world := World (m1_with "00000001_a.png" rgba_png) 2.

End example.

Import spec image_converter pdf_converter.
Local Open Scope monad_scope.

(** Closed equations are settled by evaluation, keeping the proof term
    as small as the statement. *)
Ltac by_evaluation :=
  lazymatch goal with
  | |- ?x = ?y => exact (@eq_refl _ y <: x = y)
  | |- _ => vm_compute; reflexivity
  end.


(** ** Strings and path components *)

Section strings.
Implicit Types (s t : string) (c : ascii).

Lemma string_length_app s t :
  String.length (s +:+ t) = (String.length s + String.length t)%nat.
Proof. induction s as [|a s IH]; simpl; [done|]. by rewrite IH. Qed.

Lemma string_app_inj_r s1 s2 t : s1 +:+ t = s2 +:+ t → s1 = s2.
Proof.
  revert s2. induction s1 as [|a s1 IH]; intros [|b s2] H.
  - done.
  - apply (f_equal String.length) in H. rewrite !string_length_app in H.
    simpl in H. lia.
  - apply (f_equal String.length) in H. rewrite !string_length_app in H.
    simpl in H. lia.
  - change (String a (s1 +:+ t) = String b (s2 +:+ t)) in H.
    injection H as -> H. f_equal. by apply IH.
Qed.

Lemma contains_app c s t :
  Str.contains c (s +:+ t) = Str.contains c s || Str.contains c t.
Proof.
  induction s as [|a s IH]; simpl; [done|]. rewrite IH. by rewrite orb_assoc.
Qed.

Lemma contains_take c i s :
  Str.contains c s = false → Str.contains c (Str.take i s) = false.
Proof.
  unfold Str.take. revert i. induction s as [|a s IH]; intros [|i]; simpl; try done.
  intros [Ha Hs]%orb_false_iff. rewrite Ha. simpl. by apply IH.
Qed.

Lemma split_go_plain cur s :
  Str.contains "/" s = false → Str.split_go "/" 0 cur s = [String.rev_app cur s].
Proof.
  revert cur. induction s as [|a s IH]; intros cur; simpl; [done|].
  intros [Ha Hs]%orb_false_iff. apply bool_decide_eq_false in Ha.
  rewrite bool_decide_eq_false_2 by congruence. simpl. by rewrite IH.
Qed.

(** A string without separator that is neither empty nor a dot is one
    path component. *)
Lemma parts_plain s :
  Str.contains "/" s = false → s ≠ "" → s ≠ "." → parts s = [s].
Proof.
  intros Hs H1 H2. unfold parts, Str.split. rewrite split_go_plain by done. simpl.
  rewrite filter_cons. rewrite decide_True by done. by rewrite filter_nil.
Qed.

Lemma is_absolute_plain s : Str.contains "/" s = false → is_absolute s = false.
Proof.
  destruct s as [|a s]; simpl; [done|]. intros [Ha _]%orb_false_iff.
  unfold is_absolute. simpl. apply bool_decide_eq_false in Ha.
  rewrite bool_decide_eq_false_2 by congruence. done.
Qed.

Lemma joinpath_plain (p : path) s :
  Str.contains "/" s = false → s ≠ "" → s ≠ "." → joinpath p s = p ++ [s].
Proof.
  intros Hs H1 H2. unfold joinpath. rewrite is_absolute_plain by done.
  by rewrite parts_plain.
Qed.

Lemma stem_of_name_plain s :
  Str.contains "/" s = false → Str.contains "/" (stem_of_name s) = false.
Proof.
  intros Hs. unfold stem_of_name. destruct (Str.rfind "." s) as [i|]; [|done].
  destruct (_ && _); [by apply contains_take|done].
Qed.

(** Decimal numerals *)

Lemma pretty_N_char_digit x :
  pretty_N_char x ≠ "/"%char.
Proof. unfold pretty_N_char. by repeat case_match. Qed.

Lemma pretty_N_go_plain x s :
  Str.contains "/" s = false → Str.contains "/" (pretty_N_go x s) = false.
Proof.
  revert s. induction (N.lt_wf_0 x) as [x _ IH]; intros s Hs.
  assert (x = 0 ∨ 0 < x)%N as [->|?] by lia; [by rewrite pretty_N_go_0|].
  rewrite pretty_N_go_step by done. apply IH; [by apply N.div_lt|].
  simpl. rewrite Hs. rewrite bool_decide_eq_false_2; [done|].
  apply pretty_N_char_digit.
Qed.

Lemma pretty_nat_plain (n : nat) : Str.contains "/" (pretty n) = false.
Proof.
  unfold pretty, pretty_nat, pretty, pretty_N. case_decide; [done|].
  by apply pretty_N_go_plain.
Qed.

Lemma pretty_N_go_head x s :
  (0 < x)%N → ∃ c s', pretty_N_go x s = String c s' ∧ c ≠ "0"%char.
Proof.
  revert s. induction (N.lt_wf_0 x) as [x _ IH]; intros s Hx.
  rewrite pretty_N_go_step by done.
  destruct (N.eq_0_gt_0_cases (x `div` 10)) as [Hd|Hd].
  - rewrite Hd, pretty_N_go_0. eexists _, _. split; [done|].
    apply N.div_small_iff in Hd; [|done]. rewrite N.mod_small by done.
    assert (x = 1 ∨ x = 2 ∨ x = 3 ∨ x = 4 ∨ x = 5 ∨ x = 6
          ∨ x = 7 ∨ x = 8 ∨ x = 9)%N by lia; naive_solver.
  - apply IH; [by apply N.div_lt|done].
Qed.

Lemma pretty_nat_head (n : nat) :
  (0 < n)%nat → ∃ c s', pretty n = String c s' ∧ c ≠ "0"%char.
Proof.
  intros Hn. unfold pretty, pretty_nat, pretty, pretty_N.
  rewrite decide_False by lia. apply pretty_N_go_head. lia.
Qed.

Lemma lstrip_zfill k s :
  Str.lstrip_with is_zero_char (Str.zfill_go k s) = Str.lstrip_with is_zero_char s.
Proof. induction k as [|k IH]; simpl; [done|]. by rewrite IH. Qed.

Lemma zfill_go_plain k s :
  Str.contains "/" s = false → Str.contains "/" (Str.zfill_go k s) = false.
Proof. intros Hs. induction k as [|k IH]; simpl; done. Qed.

Lemma fmt_03d_plain n : Str.contains "/" (Str.fmt_03d n) = false.
Proof. unfold Str.fmt_03d. apply zfill_go_plain, pretty_nat_plain. Qed.

(** Distinct positive numbers have distinct zero-padded numerals. *)
Lemma fmt_03d_inj j k :
  (0 < j)%nat → (0 < k)%nat → Str.fmt_03d j = Str.fmt_03d k → j = k.
Proof.
  intros Hj Hk H. apply (f_equal (Str.lstrip_with is_zero_char)) in H.
  unfold Str.fmt_03d in H. rewrite !lstrip_zfill in H.
  destruct (pretty_nat_head j Hj) as (cj & sj & Ej & Hcj).
  destruct (pretty_nat_head k Hk) as (ck & sk & Ek & Hck).
  apply (inj pretty). rewrite Ej, Ek in *. simpl in H. unfold is_zero_char in H.
  by rewrite !bool_decide_eq_false_2 in H by done.
Qed.

Lemma fmt_03d_width n : (n < 1000)%nat → String.length (Str.fmt_03d n) = 3%nat.
Proof.
  intros Hn.
  assert (forallb (λ n, Nat.eqb (String.length (Str.fmt_03d n)) 3) (seq 0 1000) = true)
    as Hall by (vm_compute; reflexivity).
  rewrite forallb_forall in Hall. apply Nat.eqb_eq, Hall, in_seq. lia.
Qed.

End strings.

(** ** Path resolution *)

Section resolution.
Implicit Types (m : fs) (p cur r t : path) (comps : list string).

Lemma walk_app m cur comps1 comps2 :
  walk m cur (comps1 ++ comps2) = walk m cur comps1 ≫= λ r, walk m r comps2.
Proof.
  revert cur. induction comps1 as [|c comps1 IH]; intros cur; simpl; [done|].
  destruct (dir_at m cur); [|done].
  destruct (Str.eqb c ".."); [apply IH|].
  destruct (m !! (cur ++ [c])); [apply IH|done].
Qed.

Lemma walk_no_dotdot m cur comps r :
  ".." ∉ comps → walk m cur comps = Some r → r = cur ++ comps.
Proof.
  revert cur. induction comps as [|c comps IH]; intros cur Hdd; simpl.
  - intros [= <-]. by rewrite app_nil_r.
  - apply not_elem_of_cons in Hdd as [Hc Hdd].
    destruct (dir_at m cur); [|done].
    unfold Str.eqb. rewrite bool_decide_eq_false_2 by done.
    destruct (m !! (cur ++ [c])); [|done].
    intros ->%IH; [|done]. by rewrite <- app_assoc.
Qed.

Lemma path_split p : p ≠ [] → p = parent p ++ [name_of p].
Proof.
  intros Hp. unfold parent, name_of. by apply app_removelast_last.
Qed.

Lemma realpath_split m p :
  p ≠ [] → realpath m p = realpath m (parent p) ≫= λ d, walk m d [name_of p].
Proof.
  intros Hp. unfold realpath. rewrite <- walk_app. by rewrite <- path_split.
Qed.

Lemma dir_at_insert_file m t c cur :
  m !! t ≠ Some Dir → dir_at m cur = true → dir_at (<[t := File c]> m) cur = true.
Proof.
  unfold dir_at, node_at. intros Ht. destruct cur as [|a cur]; [done|].
  destruct (m !! (a :: cur)) as [[]|] eqn:Hcur; try done.
  intros _. rewrite lookup_insert_ne; [by rewrite Hcur|]. congruence.
Qed.

(** Writing a file where no directory was does not change what the
    paths that resolved before resolve to. *)
Lemma walk_insert_file m t c cur comps r :
  m !! t ≠ Some Dir →
  walk m cur comps = Some r → walk (<[t := File c]> m) cur comps = Some r.
Proof.
  intros Ht. revert cur. induction comps as [|a comps IH]; intros cur; simpl; [done|].
  destruct (dir_at m cur) eqn:Hdir; [|done].
  rewrite (dir_at_insert_file _ _ _ _ Ht Hdir).
  destruct (Str.eqb a ".."); [apply IH|].
  destruct (m !! (cur ++ [a])) eqn:Hnext; [|done].
  intros Hw. destruct (decide (t = cur ++ [a])) as [->|Hne].
  - rewrite lookup_insert_eq. by apply IH.
  - rewrite lookup_insert_ne by done. rewrite Hnext. by apply IH.
Qed.

Lemma write_file_inv p c m m' :
  write_file p c m = inr m' →
  ∃ d, p ≠ [] ∧ realpath m (parent p) = Some d ∧ dir_at m d = true
       ∧ name_of p ≠ ".." ∧ m !! (d ++ [name_of p]) ≠ Some Dir
       ∧ m' = <[d ++ [name_of p] := File c]> m.
Proof.
  unfold write_file, target. destruct p as [|a p]; [done|].
  destruct (realpath m (parent (a :: p))) as [d|] eqn:Hd; simpl; [|done].
  destruct (dir_at m d) eqn:Hdir; simpl; [|done].
  unfold Str.eqb. case_bool_decide as Hname; simpl; [done|].
  destruct (m !! (d ++ [name_of (a :: p)])) as [[]|] eqn:Ht; intros [= <-];
    exists d; repeat split; try done; congruence.
Qed.

Lemma realpath_after_write p c m m' :
  write_file p c m = inr m' →
  ∃ t, realpath m' p = Some t ∧ t ≠ [] ∧ m' !! t = Some (File c)
       ∧ m' = <[t := File c]> m ∧ m !! t ≠ Some Dir.
Proof.
  intros (d & Hp & Hd & Hdir & Hname & Ht & ->)%write_file_inv.
  exists (d ++ [name_of p]). repeat split; try done.
  - rewrite (realpath_split _ p Hp). unfold realpath in *.
    rewrite (walk_insert_file _ _ _ _ _ _ Ht Hd). simpl.
    rewrite (dir_at_insert_file _ _ _ _ Ht Hdir).
    unfold Str.eqb. rewrite bool_decide_eq_false_2 by done.
    by rewrite lookup_insert_eq.
  - by destruct d.
  - by rewrite lookup_insert_eq.
Qed.

(** What was written can be read back under the same path. *)
Lemma stat_after_write p c m m' :
  write_file p c m = inr m' → stat m' p = Some (File c).
Proof.
  intros (t & Hr & Ht & Hlook & _)%realpath_after_write.
  unfold stat. rewrite Hr. simpl. unfold node_at. by destruct t.
Qed.

Lemma walk_delete_file m t c cur comps r :
  m !! t = Some (File c) → r ≠ t →
  walk m cur comps = Some r → walk (delete t m) cur comps = Some r.
Proof.
  intros Ht Hr. revert cur. induction comps as [|a comps IH]; intros cur; simpl; [done|].
  destruct (dir_at m cur) eqn:Hdir; [|done].
  assert (dir_at (delete t m) cur = true) as ->.
  { unfold dir_at, node_at in *. destruct cur as [|b cur]; [done|].
    destruct (m !! (b :: cur)) as [[]|] eqn:Hcur; try done.
    rewrite lookup_delete_ne; [by rewrite Hcur|]. congruence. }
  destruct (Str.eqb a ".."); [apply IH|].
  destruct (m !! (cur ++ [a])) eqn:Hnext; [|done].
  intros Hw. destruct (decide (t = cur ++ [a])) as [->|Hne].
  - exfalso. destruct comps as [|b comps]; simpl in Hw; [congruence|].
    unfold dir_at, node_at in Hw. destruct (cur ++ [a]) eqn:E; [by destruct cur|].
    by rewrite Ht in Hw.
  - rewrite lookup_delete_ne by done. rewrite Hnext. by apply IH.
Qed.

(** Unlinking the file just written succeeds and leaves nothing under
    its path. *)
Lemma unlink_after_write p c m m' :
  write_file p c m = inr m' →
  ∃ m'', unlink p m' = inr m'' ∧ exists_ m'' p = false.
Proof.
  intros Hw. pose proof Hw as (d & Hp & Hd & Hdir & Hname & Ht & Hm')%write_file_inv.
  destruct (realpath_after_write _ _ _ _ Hw) as (t & Hr & Htne & Hlook & _ & _).
  assert (t = d ++ [name_of p]) as Heq.
  { rewrite Hm' in Hr. rewrite (realpath_split _ p Hp) in Hr. unfold realpath in *.
    rewrite (walk_insert_file _ _ _ _ _ _ Ht Hd) in Hr. simpl in Hr.
    rewrite (dir_at_insert_file _ _ _ _ Ht Hdir) in Hr.
    unfold Str.eqb in Hr. rewrite bool_decide_eq_false_2 in Hr by done.
    rewrite lookup_insert_eq in Hr. congruence. }
  exists (delete t m'). split.
  - unfold unlink. rewrite Hr. unfold node_at. destruct t; [done|]. by rewrite Hlook.
  - unfold exists_, stat. apply bool_decide_eq_false_2. intros [n Hn].
    rewrite (realpath_split _ p Hp) in Hn. unfold realpath in *.
    assert (walk (delete t m') [] (parent p) = Some d) as Hd'.
    { apply (walk_delete_file _ _ c); [done| |].
      - rewrite Heq. intros E. apply (f_equal length) in E. rewrite length_app in E.
        simpl in E. lia.
      - rewrite Hm'. by apply walk_insert_file. }
    rewrite Hd' in Hn. simpl in Hn.
    destruct (dir_at (delete t m') d); [|done].
    unfold Str.eqb in Hn. rewrite bool_decide_eq_false_2 in Hn by done.
    rewrite <- Heq in Hn. by rewrite lookup_delete_eq in Hn.
Qed.

End resolution.

(** ** The registry and the conversion identifier *)

Section registry.

Lemma CONVERTERS_lookup_Some from_format to_format c :
  CONVERTERS !! (from_format, to_format) = Some c →
  to_format = "png" ∨ (from_format = "png" ∧ to_format ∈ ["webp"; "jpg"]).
Proof.
  unfold CONVERTERS. intros H%elem_of_list_to_map_2.
  repeat (apply elem_of_cons in H as [H | H]; [injection H as -> -> ->|]);
    try (left; reflexivity); try (right; set_solver).
Qed.

Lemma lookup_converter_both_ways from_format to_format :
  lookup_converter from_format to_format = lookup_both_ways from_format to_format.
Proof.
  unfold lookup_converter, lookup_both_ways, synonym, Str.eqb.
  destruct (CONVERTERS !! (from_format, to_format)) as [c|] eqn:Hexact; [done|].
  repeat case_bool_decide; subst; simpl; try done.
  - (* jpeg: the reverse fallback finds nothing the exact lookup missed *)
    destruct (CONVERTERS !! ("jpg", to_format)) as [c|] eqn:Hsyn; [|done].
    apply CONVERTERS_lookup_Some in Hsyn as [-> | [? _]]; [|done].
    vm_compute in Hexact. discriminate.
  - (* tif *)
    destruct (CONVERTERS !! ("tiff", to_format)) as [c|] eqn:Hsyn; [|done].
    apply CONVERTERS_lookup_Some in Hsyn as [-> | [? _]]; [|done].
    vm_compute in Hexact. discriminate.
Qed.

(** C4: the lookup of [convert_files] agrees, for every pair of formats,
    with a lookup that resolves the synonyms jpg/jpeg and tiff/tif in both
    directions before it reports not-found; every identifier of the
    options table and every pair of the registry resolves to a converter,
    and "jpg-to-png" and "jpeg-to-png" resolve to the same function. *)
Theorem lookup_resolves_synonyms :
  (∀ from_format to_format,
     lookup_converter from_format to_format
     = lookup_both_ways from_format to_format)
  ∧ (∀ o, o ∈ CONVERSION_OPTIONS → ∃ c, resolve_conversion (id o) = inr c)
  ∧ (∀ from_format to_format c,
       CONVERTERS !! (from_format, to_format) = Some c →
       resolve_conversion (from_format +:+ "-to-" +:+ to_format) = inr c)
  ∧ resolve_conversion "jpg-to-png" = inr Convert_jpg_to_png
  ∧ resolve_conversion "jpeg-to-png" = inr Convert_jpg_to_png
  ∧ resolve_conversion "tiff-to-png" = inr Convert_tiff_to_png
  ∧ resolve_conversion "tif-to-png" = inr Convert_tiff_to_png.
Proof.
  split; [exact lookup_converter_both_ways|].
  split.
  { intros o Ho. unfold CONVERSION_OPTIONS in Ho.
    repeat (apply elem_of_cons in Ho as [-> | Ho]; [eexists; vm_compute; reflexivity|]).
    by apply elem_of_nil in Ho. }
  split.
  { intros f t c H. unfold CONVERTERS in H. apply elem_of_list_to_map_2 in H.
    repeat (apply elem_of_cons in H as [H | H];
            [injection H as -> -> ->; vm_compute; reflexivity|]).
    by apply elem_of_nil in H. }
  repeat split; vm_compute; reflexivity.
Qed.

(** [lookup_resolves_synonyms] on the "jpg-to-png" entry of the options
    table and on the registry pair (tif, png). *)
Lemma lookup_resolves_synonyms_witness :
  (∃ c, resolve_conversion "jpg-to-png" = inr c)
  ∧ resolve_conversion ("tif" +:+ "-to-" +:+ "png") = inr Convert_tiff_to_png
  ∧ lookup_converter "jpeg" "webp" = lookup_both_ways "jpeg" "webp".
Proof.
  destruct lookup_resolves_synonyms as (Hboth & Hoptions & Hpairs & _).
  split; [|split].
  - apply (Hoptions (Option_ "jpg-to-png" "JPG" "PNG" ["jpg"; "jpeg"] "png" "✨"
                       "Convert JPG images to PNG format")).
    unfold CONVERSION_OPTIONS. do 4 right. left.
  - apply Hpairs. by_evaluation.
  - apply Hboth.
Defined.

End registry.

(** ** The transparency policy of the image converter *)

Section transparency.

(** C8, at the input where the code departs from it: a palette image
    with an alpha channel (mode PA) sent to JPEG enters the branch that
    prepares the white background, but is converted directly; it is not
    pasted onto the background, although the PNG / WebP branch treats the
    same mode as transparent. *)
Theorem jpeg_from_palette_alpha_not_composited (tr : bool) :
  handle_transparency "JPEG" (Image "PA" tr false) = Image "RGB" tr false
  ∧ on_white (handle_transparency "JPEG" (Image "PA" tr false)) = false
  ∧ on_white (handle_transparency "JPEG" (Image "RGBA" tr false)) = true
  ∧ on_white (handle_transparency "JPEG" (Image "LA" tr false)) = true
  ∧ image_converter.channels
      (mode (handle_transparency "PNG" (Image "PA" tr false))) = 4%nat.
Proof. repeat split; vm_compute; reflexivity. Qed.

(** What the JPEG branch does, mode by mode. *)
Lemma jpeg_policy (img : image) :
  mode (handle_transparency "JPEG" img) = "RGB"
  ∧ (on_white (handle_transparency "JPEG" img) = true
     ↔ on_white img = true ∨ mode img ∈ ["RGBA"; "LA"; "P"]).
Proof.
  destruct img as [md tr ow].
  unfold handle_transparency, mode_in, Str.eqb, convert, paste_on_white; simpl.
  repeat (case_bool_decide; simpl); subst; (split; [done|]);
    split; intros; try done; try tauto; set_solver.
Qed.

(** The PNG / WebP branch: four channels exactly for the modes with an
    alpha channel and for a palette with a transparency index. *)
Lemma alpha_policy (target_format : string) (img : image) :
  target_format ∈ ["PNG"; "WEBP"] →
  let out := handle_transparency target_format img in
  (image_converter.channels (mode out) = 4%nat
   ↔ mode img ∈ ["RGBA"; "LA"; "PA"] ∨ (mode img = "P" ∧ transparency img = true))
  ∧ (image_converter.channels (mode out) = 3%nat
     ↔ ¬ (mode img ∈ ["RGBA"; "LA"; "PA"] ∨ (mode img = "P" ∧ transparency img = true))).
Proof.
  intros Ht. destruct img as [md tr ow].
  assert (Hfmt : handle_transparency target_format (Image md tr ow)
                 = if mode_in (Image md tr ow) ["RGBA"; "LA"; "PA"]
                      || (Str.eqb md "P" && tr)
                   then convert "RGBA" (Image md tr ow)
                   else convert "RGB" (Image md tr ow)).
  { unfold handle_transparency.
    apply elem_of_cons in Ht as [-> | Ht]; [reflexivity|].
    apply elem_of_cons in Ht as [-> | Ht]; [reflexivity|].
    by apply elem_of_nil in Ht. }
  simpl. rewrite Hfmt. unfold mode_in, Str.eqb; simpl.
  destruct tr; repeat (case_bool_decide; simpl); subst;
    (split; split; intros; try done; try tauto; try set_solver).
Qed.

End transparency.

(** ** The batch pipeline *)

Section pipeline.
Context (e : env) (converter_ : converter) (accepted_exts : list string)
  (sid : string) (session_upload_dir session_output_dir : path).

Abbreviation acc_t := (list result_entry * list error_entry)%type.
Abbreviation body_ := (process_file e converter_ accepted_exts sid
                     session_upload_dir session_output_dir).

Abbreviation upath := (upload_path_of e session_upload_dir).

Lemma for_each_app {A B} (l1 l2 : list A) (body : A → B → M B) acc w :
  for_each (l1 ++ l2) body acc w
  = match for_each l1 body acc w with
    | (inr acc1, w1) => for_each l2 body acc1 w1
    | (inl ex, w1) => (inl ex, w1)
    end.
Proof.
  revert acc w. induction l1 as [|x l1 IH]; intros acc w; cbn [for_each app]; [done|].
  unfold bind. destruct (body x acc w) as [[ex|acc'] w']; [done|apply IH].
Qed.

Lemma process_file_empty file (acc : acc_t) w :
  filename file = "" → body_ file acc w = (inr acc, w).
Proof. intros H. unfold process_file, Str.eqb. by rewrite bool_decide_eq_true_2. Qed.

Lemma process_file_rejected file (acc : acc_t) w :
  filename file ≠ "" → rejected_extension accepted_exts file = true →
  body_ file acc w
  = (inr (acc.1, acc.2 ++ [invalid_type_error file accepted_exts]), w).
Proof.
  intros H Hrej. unfold process_file, Str.eqb.
  rewrite bool_decide_eq_false_2 by done. by rewrite Hrej.
Qed.

(** Past the extension check, with the copy persisted. *)
Lemma process_file_saved file (acc : acc_t) w m' :
  filename file ≠ "" → rejected_extension accepted_exts file = false →
  write_file (upath file w) (body file) (files w) = inr m' →
  body_ file acc w
  = if MAX_FILE_SIZE <? st_size e (body file) then
      match unlink (upath file w) m' with
      | inr m'' =>
          (inr (acc.1, acc.2 ++ [too_large_error file]), World m'' (S (draws w)))
      | inl ex => (inl ex, World m' (S (draws w)))
      end
    else convert_one e converter_ sid session_output_dir (upath file w)
           file acc (World m' (S (draws w))).
Proof.
  intros H Hrej Hw. unfold process_file, Str.eqb.
  rewrite bool_decide_eq_false_2 by done. rewrite Hrej.
  unfold bind at 1. unfold draw at 1. cbn beta iota.
  fold (upath file w).
  unfold bind at 1. unfold on_fs at 1. cbn [files draws]. rewrite Hw.
  unfold bind at 1. unfold stat_size, bind at 1, get_fs. cbn [files].
  rewrite (stat_after_write _ _ _ _ Hw). unfold ret at 1. cbn [size_of].
  destruct (MAX_FILE_SIZE <? st_size e (body file)); [|done].
  unfold bind, on_fs. cbn [files draws].
  by destruct (unlink (upath file w) m').
Qed.


Lemma process_file_save_failed file (acc : acc_t) w ex :
  filename file ≠ "" → rejected_extension accepted_exts file = false →
  write_file (upath file w) (body file) (files w) = inl ex →
  body_ file acc w = (inl ex, World (files w) (S (draws w))).
Proof.
  intros H Hrej Hw. unfold process_file, Str.eqb.
  rewrite bool_decide_eq_false_2 by done. rewrite Hrej.
  unfold bind at 1. unfold draw at 1. cbn beta iota.
  fold (upath file w).
  unfold bind at 1. unfold on_fs at 1. cbn [files draws]. by rewrite Hw.
Qed.

Lemma append_results_spec file m outs results results' failure :
  append_results e sid file m outs results = (results', failure) →
  results `prefix_of` results'
  ∧ match failure with
    | None => length results' = (length results + length outs)%nat
    | Some _ => (length results' < length results + length outs)%nat
    end.
Proof.
  revert results. induction outs as [|o outs IH]; intros results; simpl.
  - intros [= <- <-]. split; [done|lia].
  - destruct (stat m o) as [n|].
    + intros [Hpre Hlen]%IH. split; [by eapply prefix_app_l|].
      rewrite length_app in Hlen. simpl in Hlen. destruct failure; lia.
    + intros [= <- <-]. split; [done|lia].
Qed.

(** The [try] block catches everything: conversion never raises into the
    loop, it appends results and at most one error. *)
Lemma convert_one_total upload_path file (acc : acc_t) w :
  ∃ acc' w',
    convert_one e converter_ sid session_output_dir upload_path file acc w
    = (inr acc', w')
    ∧ acc.1 `prefix_of` acc'.1
    ∧ (acc'.2 = acc.2 ∨ ∃ ex, acc'.2 = acc.2 ++ [Error (filename file) (str_exn ex)]).
Proof.
  unfold convert_one, bind, try_except, ret, get_fs.
  destruct (call converter_ upload_path session_output_dir w) as [[ex|outs] w1].
  - eexists _, _. split; [done|]. simpl. split; [done|]. right. by exists ex.
  - destruct (append_results e sid file (files w1) outs acc.1) as [results' failure] eqn:Happ.
    apply append_results_spec in Happ as [Hpre _].
    destruct failure as [ex|]; eexists _, _; (split; [done|]); simpl; (split; [done|]).
    + right. by exists ex.
    + by left.
Qed.

Lemma convert_one_failed upload_path file (acc : acc_t) w ex w' :
  call converter_ upload_path session_output_dir w = (inl ex, w') →
  convert_one e converter_ sid session_output_dir upload_path file acc w
  = (inr (acc.1, acc.2 ++ [Error (filename file) (str_exn ex)]), w').
Proof. intros H. unfold convert_one, bind, try_except, ret. by rewrite H. Qed.

Lemma image_converter_single input_path output_dir tf ext w outs w' :
  _convert_image input_path output_dir tf ext w = (inr outs, w') → length outs = 1%nat.
Proof.
  unfold _convert_image, bind, try_except, ret, raise.
  destruct (on_fs (mkdir_parents output_dir) w) as [[?|[]] w1]; [done|].
  destruct (Image_open input_path w1) as [[?|img] w2]; [done|].
  destruct (on_fs _ w2) as [[?|[]] w3]; [done|].
  by intros [= <- <-].
Qed.

Lemma call_single upload_path w outs w' :
  converter_ ≠ Convert_pdf_to_png →
  call converter_ upload_path session_output_dir w = (inr outs, w') →
  length outs = 1%nat.
Proof.
  intros Hc. destruct converter_; try done; simpl;
    unfold convert_webp_to_png, convert_png_to_webp, convert_png_to_jpg,
      convert_jpg_to_png, convert_bmp_to_png, convert_tiff_to_png;
    apply image_converter_single.
Qed.

(** With a converter that writes one file per input, a conversion adds
    exactly one entry: a result, or an error. *)
Lemma convert_one_single upload_path file (acc acc' : acc_t) w w' :
  converter_ ≠ Convert_pdf_to_png →
  convert_one e converter_ sid session_output_dir upload_path file acc w
  = (inr acc', w') →
  (length acc'.1 + length acc'.2 = length acc.1 + length acc.2 + 1)%nat.
Proof.
  intros Hc. unfold convert_one, bind, try_except, ret, get_fs.
  destruct (call converter_ upload_path session_output_dir w) as [[ex|outs] w1] eqn:Hcall.
  - intros [= <- <-]. simpl. rewrite length_app. simpl. lia.
  - apply call_single in Hcall; [|done].
    destruct (append_results e sid file (files w1) outs acc.1) as [results' failure] eqn:Happ.
    apply append_results_spec in Happ as [Hpre%prefix_length Hlen].
    destruct failure; simpl in Hlen; intros [= <- <-]; simpl;
      rewrite ?length_app; simpl; lia.
Qed.

Lemma process_file_step file (acc acc' : acc_t) w w' :
  body_ file acc w = (inr acc', w') →
  acc.2 `prefix_of` acc'.2
  ∧ (length acc'.2 ≤ length acc.2 + one_if_named file)%nat
  ∧ (converter_ ≠ Convert_pdf_to_png →
     (length acc'.1 + length acc'.2
      = length acc.1 + length acc.2 + one_if_named file)%nat).
Proof.
  unfold one_if_named. destruct (decide (filename file = "")) as [Hname|Hname].
  { rewrite process_file_empty by done. intros [= <- <-].
    split; [done|]. split; [lia|intros; lia]. }
  destruct (rejected_extension accepted_exts file) eqn:Hrej.
  { rewrite process_file_rejected by done. intros [= <- <-]. simpl.
    split; [by apply prefix_app_r|]. rewrite length_app. simpl.
    split; [lia|intros; lia]. }
  destruct (write_file (upath file w) (body file) (files w)) as [ex|m'] eqn:Hw.
  { by rewrite (process_file_save_failed _ _ _ ex). }
  rewrite (process_file_saved _ _ _ m') by done.
  destruct (MAX_FILE_SIZE <? st_size e (body file)).
  - destruct (unlink (upath file w) m'); [done|]. intros [= <- <-]. simpl.
    split; [by apply prefix_app_r|]. rewrite length_app. simpl.
    split; [lia|intros; lia].
  - intros Hconv. split; [|split].
    + destruct (convert_one_total (upath file w) file acc (World m' (S (draws w))))
        as (a & w1 & Heq & _ & [H2 | [ex H2]]);
        rewrite Heq in Hconv; injection Hconv as <- <-; rewrite H2; [done|].
      by apply prefix_app_r.
    + destruct (convert_one_total (upath file w) file acc (World m' (S (draws w))))
        as (a & w1 & Heq & _ & [H2 | [ex H2]]);
        rewrite Heq in Hconv; injection Hconv as <- <-; rewrite H2;
        rewrite ?length_app; simpl; lia.
    + intros Hc. by apply (convert_one_single _ _ _ _ _ _ Hc Hconv).
Qed.

Lemma for_each_process_file files_ (acc acc' : acc_t) w w' :
  for_each files_ body_ acc w = (inr acc', w') →
  acc.2 `prefix_of` acc'.2
  ∧ (length acc'.2 ≤ length acc.2 + non_empty_count files_)%nat
  ∧ (converter_ ≠ Convert_pdf_to_png →
     (length acc'.1 + length acc'.2
      = length acc.1 + length acc.2 + non_empty_count files_)%nat).
Proof.
  revert acc w. induction files_ as [|file files_ IH]; intros acc w; cbn [for_each].
  - intros [= <- <-]. unfold non_empty_count. simpl.
    split; [done|]. split; [lia|intros; lia].
  - unfold bind. destruct (body_ file acc w) as [[ex|acc1] w1] eqn:Hstep; [done|].
    intros (Hpre & Hle & Heq)%IH.
    apply process_file_step in Hstep as (Hpre1 & Hle1 & Heq1).
    assert (non_empty_count (file :: files_)
            = (one_if_named file + non_empty_count files_)%nat) as ->.
    { unfold non_empty_count, one_if_named. rewrite filter_cons.
      destruct (decide (filename file = "")); destruct (decide (filename file ≠ ""));
        simpl; try done; lia. }
    split; [by etrans|]. split; [lia|].
    intros Hc. specialize (Heq Hc). specialize (Heq1 Hc). lia.
Qed.

End pipeline.

Section batch.
Context (e : env).

Lemma resolve_conversion_bad cid r :
  resolve_conversion cid = inl r → ∃ msg, r = JsonError 400 msg.
Proof.
  unfold resolve_conversion. destruct (Str.eqb cid ""); [intros [= <-]; eauto|].
  destruct (Str.split "-to-" cid) as [|p0 [|p1 [|p2 l]]]; try (intros [= <-]; eauto).
  destruct (lookup_converter _ _); [done|]. intros [= <-]; eauto.
Qed.

(** The shape of a request that is answered with a batch result. *)
Lemma convert_files_batch req w r w' :
  convert_files e req w = (JsonBatch r, w') →
  ∃ c acc w1,
    let sid := session_id_of (uuid4_hex e (draws w)) in
    resolve_conversion (requested_conversion req) = inr c
    ∧ for_each (request_files req)
        (process_file e c (get_accepted_extensions (requested_conversion req)) sid
           (joinpath (UPLOAD_DIR e) sid) (joinpath (CONVERTED_DIR e) sid))
        ([], []) w1 = (inr acc, w')
    ∧ r = batch_of sid acc.
Proof.
  unfold convert_files, serve, convert_files_view.
  destruct (resolve_conversion (requested_conversion req)) as [bad|c] eqn:Hres.
  { apply resolve_conversion_bad in Hres as [msg ->]. done. }
  destruct (is_empty (request_files req) || forallb _ (request_files req)); [done|].
  destruct (MAX_FILES_PER_BATCH <? length (request_files req))%nat; [done|].
  unfold bind at 1. unfold draw at 1. cbn beta iota.
  unfold bind at 1. destruct (on_fs _ _) as [[?|[]] w1]; [done|].
  unfold bind at 1. destruct (on_fs _ w1) as [[?|[]] w2]; [done|].
  unfold bind at 1.
  destruct (for_each _ _ _ w2) as [[?|acc] w3] eqn:Hloop; [done|].
  unfold ret. intros [= <- <-]. by exists c, acc, w2.
Qed.

Lemma all_unnamed_forallb (files_ : list upload) :
  Forall (λ f, filename f = "") files_
  ↔ is_empty files_ || forallb (λ f, Str.eqb (filename f) "") files_ = true.
Proof.
  rewrite orb_true_iff. split.
  - intros H. right. induction H as [|f l Hf _ IH]; simpl; [done|].
    unfold Str.eqb at 1. by rewrite bool_decide_eq_true_2.
  - intros [H|H]; [by destruct files_|].
    induction files_ as [|f l IH]; [constructor|]. simpl in H.
    apply andb_true_iff in H as [Hf Hl]. constructor; [|by apply IH].
    by apply bool_decide_eq_true in Hf.
Qed.


(** C3, as the code has it: once the conversion identifier is accepted,
    a batch whose entries all lack a filename (an empty list included) is
    answered "No files uploaded" whatever its length; only a batch with a
    named entry is then checked against the maximum of 20 and answered
    "Too many files"; either rejection leaves the file system and the
    identifier stream untouched, so no file has been processed. *)
Theorem batch_checks_in_order req w c :
  resolve_conversion (requested_conversion req) = inr c →
  (Forall (λ f, filename f = "") (request_files req) →
   convert_files e req w = (no_files_uploaded, w))
  ∧ (¬ Forall (λ f, filename f = "") (request_files req) →
     (MAX_FILES_PER_BATCH < length (request_files req))%nat →
     convert_files e req w = (too_many_files, w)).
Proof.
  intros Hres. unfold convert_files, serve, convert_files_view. rewrite Hres.
  split.
  - intros Hall%all_unnamed_forallb. by rewrite Hall.
  - intros Hsome Hmany.
    destruct (is_empty (request_files req) || forallb _ (request_files req)) eqn:Hall.
    { by apply all_unnamed_forallb in Hall. }
    apply Nat.ltb_lt in Hmany. by rewrite Hmany.
Qed.


End batch.

Section per_file.
Context (e : env) (converter_ : converter) (accepted_exts : list string)
  (sid : string) (session_upload_dir session_output_dir : path).

Abbreviation step_ := (process_file e converter_ accepted_exts sid
                         session_upload_dir session_output_dir).
Abbreviation upath_ := (upload_path_of e session_upload_dir).

Abbreviation recorded_ := (recorded_and_continued e converter_ accepted_exts sid
                             session_upload_dir session_output_dir).

Lemma record_and_continue pre file post acc acc1 w w1 w2 err :
  for_each pre step_ acc w = (inr acc1, w1) →
  step_ file acc1 w1 = (inr (acc1.1, acc1.2 ++ [err]), w2) →
  recorded_ pre file post acc acc1 w w2 err.
Proof.
  intros Hpre Hstep. unfold recorded_and_continued. cbv zeta.
  assert (for_each (pre ++ file :: post) step_ acc w
          = for_each post step_ (acc1.1, acc1.2 ++ [err]) w2) as Heq.
  { rewrite for_each_app, Hpre. cbn [for_each]. unfold bind at 1. by rewrite Hstep. }
  split; [done|]. intros accF wF. rewrite Heq.
  intros (Hprefix & _)%for_each_process_file. simpl in Hprefix.
  destruct Hprefix as [k ->]. set_solver.
Qed.

(** C5: a file whose persisted copy exceeds 50 MB has the copy deleted
    and a "File too large" error recorded; like an invalid extension and
    a failed conversion, this ends the turn of the loop normally, so the
    files after it are processed from there and the error is part of the
    errors list of the batch. *)
Theorem per_file_errors_recorded_not_fatal pre file post acc acc1 w w1 :
  for_each pre step_ acc w = (inr acc1, w1) →
  filename file ≠ "" →
  (rejected_extension accepted_exts file = true →
   recorded_ pre file post acc acc1 w w1
     (invalid_type_error file accepted_exts))
  ∧ (∀ m', rejected_extension accepted_exts file = false →
       write_file (upath_ file w1) (body file) (files w1) = inr m' →
       MAX_FILE_SIZE < st_size e (body file) →
       ∃ m'', unlink (upath_ file w1) m' = inr m''
         ∧ exists_ m'' (upath_ file w1) = false
         ∧ recorded_ pre file post acc acc1 w
             (World m'' (S (draws w1))) (too_large_error file))
  ∧ (∀ m' ex w2, rejected_extension accepted_exts file = false →
       write_file (upath_ file w1) (body file) (files w1) = inr m' →
       st_size e (body file) ≤ MAX_FILE_SIZE →
       call converter_ (upath_ file w1) session_output_dir (World m' (S (draws w1)))
       = (inl ex, w2) →
       recorded_ pre file post acc acc1 w w2
         (Error (filename file) (str_exn ex))).
Proof.
  intros Hpre Hname. split; [|split].
  - intros Hrej. eapply record_and_continue; [done|].
    by apply process_file_rejected.
  - intros m' Hrej Hw Hbig.
    destruct (unlink_after_write _ _ _ _ Hw) as (m'' & Hun & Hgone).
    exists m''. split; [done|]. split; [done|].
    eapply record_and_continue; [done|].
    rewrite (process_file_saved _ _ _ _ _ _ _ _ _ m') by done.
    apply Z.ltb_lt in Hbig. by rewrite Hbig, Hun.
  - intros m' ex w2 Hrej Hw Hsmall Hcall.
    eapply record_and_continue; [done|].
    rewrite (process_file_saved _ _ _ _ _ _ _ _ _ m') by done.
    apply Z.ltb_ge in Hsmall. rewrite Hsmall.
    by apply convert_one_failed.
Qed.

End per_file.

Section unlisted.

Lemma find_none_Forall {A} (f : A → bool) (l : list A) :
  Forall (λ x, f x = false) l → List.find f l = None.
Proof. induction 1 as [|x l Hx _ IH]; simpl; [done|]. by rewrite Hx. Qed.

(** C10: a conversion identifier that selects a converter but is the
    [id] of no entry of [CONVERSION_OPTIONS] gets the empty list of
    accepted extensions; with the empty list no file is rejected for its
    extension, and a named file whose copy is persisted and is not too
    large goes to the converter. *)
Theorem unlisted_conversion_skips_extension_check cid c :
  resolve_conversion cid = inr c →
  Forall (λ o, id o ≠ cid) CONVERSION_OPTIONS →
  get_accepted_extensions cid = []
  ∧ (∀ file, rejected_extension (get_accepted_extensions cid) file = false)
  ∧ (∀ e sid up out file acc w m',
       filename file ≠ "" →
       write_file (upload_path_of e up file w) (body file) (files w) = inr m' →
       st_size e (body file) ≤ MAX_FILE_SIZE →
       process_file e c (get_accepted_extensions cid) sid up out file acc w
       = convert_one e c sid out (upload_path_of e up file w) file acc
           (World m' (S (draws w)))).
Proof.
  intros _ Hunlisted.
  assert (get_accepted_extensions cid = []) as Hnone.
  { unfold get_accepted_extensions. rewrite find_none_Forall; [done|].
    eapply Forall_impl; [exact Hunlisted|]. intros o Ho. unfold Str.eqb.
    by apply bool_decide_eq_false_2. }
  rewrite Hnone. split; [done|]. split; [done|].
  intros e sid up out file acc w m' Hname Hw Hsmall.
  rewrite (process_file_saved _ _ _ _ _ _ _ _ _ m') by done.
  apply Z.ltb_ge in Hsmall. by rewrite Hsmall.
Qed.

End unlisted.

Section on_the_example.
Import example.

(** C3 fails as stated: 21 uploaded entries, none with a filename, are
    answered "No files uploaded", not "Too many files". *)
Lemma unnamed_batch_counterexample :
  (MAX_FILES_PER_BATCH < length (request_files unnamed_batch))%nat
  ∧ Forall (λ f, filename f = "") (request_files unnamed_batch)
  ∧ convert_files e0 unnamed_batch w0 = (no_files_uploaded, w0)
  ∧ convert_files e0 unnamed_batch w0 ≠ (too_many_files, w0).
Proof.
  assert (convert_files e0 unnamed_batch w0 = (no_files_uploaded, w0)) as Heq
    by (by_evaluation).
  split; [vm_compute; lia|]. split; [by apply Forall_replicate|].
  split; [exact Heq|]. rewrite Heq. intros H. apply (f_equal fst) in H.
  vm_compute in H. discriminate.
Qed.

(** [batch_checks_in_order] on two batches of 21 entries, one without and
    one with filenames. *)
Lemma batch_checks_in_order_witness :
  convert_files e0 unnamed_batch w0 = (no_files_uploaded, w0)
  ∧ convert_files e0 named_batch w0 = (too_many_files, w0).
Proof.
  split.
  - apply (batch_checks_in_order e0 unnamed_batch w0 Convert_pdf_to_png).
    + by_evaluation.
    + by apply Forall_replicate.
  - apply (batch_checks_in_order e0 named_batch w0 Convert_pdf_to_png).
    + by_evaluation.
    + intros H. apply Forall_inv in H. vm_compute in H. discriminate.
    + vm_compute. lia.
Defined.



(** [per_file_errors_recorded_not_fatal] on a file of 60 MB followed by
    a small one. *)
Lemma per_file_errors_witness :
  ∃ m'',
    exists_ m'' (upload_path_of e0 session_uploads big_png w1) = false
    ∧ recorded_and_continued e0 Convert_png_to_jpg ["png"] session
        session_uploads session_outputs [] big_png [small_png] ([], []) ([], [])
        w1 (World m'' 2) (too_large_error big_png).
Proof.
  destruct (per_file_errors_recorded_not_fatal e0 Convert_png_to_jpg ["png"] session
              session_uploads session_outputs [] big_png [small_png] ([], []) ([], [])
              w1 w1 eq_refl ltac:(discriminate)) as (_ & Hbig & _).
  destruct (Hbig (m1_with "00000001_big.png" Blob)
              ltac:(by_evaluation) ltac:(by_evaluation)
              ltac:(by_evaluation))
    as (m'' & _ & Hgone & Hrec).
  exists m''. split; [exact Hgone|exact Hrec].
Defined.

(** [unlisted_conversion_skips_extension_check] on "jpeg-to-png" and a
    file called a.exe. *)
Lemma unlisted_conversion_witness :
  get_accepted_extensions "jpeg-to-png" = []
  ∧ rejected_extension (get_accepted_extensions "jpeg-to-png") renamed_exe = false
  ∧ process_file e0 Convert_jpg_to_png (get_accepted_extensions "jpeg-to-png")
      session session_uploads session_outputs renamed_exe ([], []) w1
    = convert_one e0 Convert_jpg_to_png session session_outputs
        (upload_path_of e0 session_uploads renamed_exe w1) renamed_exe ([], [])
        (World (m1_with "00000001_a.exe" rgba_png) 2).
Proof.
  destruct (unlisted_conversion_skips_extension_check "jpeg-to-png" Convert_jpg_to_png
              ltac:(by_evaluation)
              ltac:(repeat constructor; discriminate))
    as (Hnone & Hacc & Hconv).
  split; [exact Hnone|]. split; [apply Hacc|].
  apply (Hconv e0 session session_uploads session_outputs renamed_exe ([], []) w1
           (m1_with "00000001_a.exe" rgba_png));
    [discriminate | by_evaluation | vm_compute; discriminate].
Defined.

End on_the_example.

(** ** Preview and download *)

Section serving.
Context (e : env).

Lemma CONVERTED_DIR_eq : CONVERTED_DIR e = BASE_DIR e ++ ["converted"].
Proof. reflexivity. Qed.

Lemma UPLOAD_DIR_eq : UPLOAD_DIR e = BASE_DIR e ++ ["uploads"].
Proof. reflexivity. Qed.






End serving.

Section serving_example.
Import example.



End serving_example.

(** ** The PDF converter *)

Section page_names.
Context (stem : string) (Hstem : Str.contains "/" stem = false).

Lemma page_filename_length k :
  (10 ≤ String.length (page_filename stem k))%nat.
Proof.
  unfold page_filename. rewrite !string_length_app. simpl. lia.
Qed.

Lemma page_filename_plain k : Str.contains "/" (page_filename stem k) = false.
Proof.
  unfold page_filename. rewrite !contains_app, Hstem, fmt_03d_plain. done.
Qed.

Lemma page_filename_proper k :
  page_filename stem k ≠ "" ∧ page_filename stem k ≠ "." ∧ page_filename stem k ≠ "..".
Proof.
  pose proof (page_filename_length k) as Hlen.
  repeat split; intros E; rewrite E in Hlen; simpl in Hlen; lia.
Qed.

Lemma page_filename_inj j k : page_filename stem j = page_filename stem k → j = k.
Proof.
  unfold page_filename. intros H.
  apply (inj (String.app stem)), (inj (String.app "_page_")) in H.
  apply string_app_inj_r, fmt_03d_inj in H; lia.
Qed.

Lemma joinpath_page (output_dir : path) k :
  joinpath output_dir (page_filename stem k) = output_dir ++ [page_filename stem k].
Proof.
  destruct (page_filename_proper k) as (? & ? & ?).
  apply joinpath_plain; [apply page_filename_plain|done..].
Qed.

End page_names.

Section other_files.
Implicit Types (m : fs) (p q r : path).

Lemma name_of_snoc p (x : string) : name_of (p ++ [x]) = x.
Proof. unfold name_of. apply last_last. Qed.

Lemma walk_last m cur (l : list string) c r :
  c ≠ ".." → walk m cur (l ++ [c]) = Some r → ∃ r', r = r' ++ [c].
Proof.
  intros Hc. rewrite walk_app. destruct (walk m cur l) as [r'|]; simpl; [|done].
  destruct (dir_at m r'); [|done].
  unfold Str.eqb. rewrite bool_decide_eq_false_2 by done.
  destruct (m !! (r' ++ [c])); [|done]. intros [= <-]. by exists r'.
Qed.

(** Writing a file leaves what is known under another name as it was. *)
Lemma stat_write_other q c m m' p n :
  write_file q c m = inr m' →
  p ≠ [] → name_of p ≠ ".." → name_of p ≠ name_of q →
  stat m p = Some n → stat m' p = Some n.
Proof.
  intros (d & Hq & Hd & Hdir & Hname & Ht & ->)%write_file_inv Hp Hdd Hne.
  unfold stat. destruct (realpath m p) as [r|] eqn:Hr; simpl; [|done].
  unfold realpath in *. rewrite (walk_insert_file _ _ _ _ _ _ Ht Hr). simpl.
  rewrite (path_split p Hp) in Hr. apply walk_last in Hr as [r' ->]; [|done].
  unfold node_at. destruct (r' ++ [name_of p]) eqn:E; [by destruct r'|].
  rewrite <- E. rewrite lookup_insert_ne; [done|].
  intros E'. apply (f_equal name_of) in E'. rewrite !name_of_snoc in E'. done.
Qed.

End other_files.

Section rendering.
Context (doc : list bool) (stem : string) (output_dir : path) (zoom : QArith_base.Q).
Context (Hstem : Str.contains "/" stem = false).

Abbreviation page_path k := (output_dir ++ [page_filename stem k]).

Abbreviation render_page :=
  (λ (page_num : nat) (converted_files : list path),
     pix ← get_pixmap doc page_num zoom;
     let output_filename := page_filename stem page_num in
     let output_path := joinpath output_dir output_filename in
     on_fs (write_file output_path pix);;
     ret (converted_files ++ [output_path])).

Lemma render_page_inv page_num acc w outs w' :
  render_page page_num acc w = (inr outs, w') →
  doc !! page_num = Some true
  ∧ outs = acc ++ [page_path page_num]
  ∧ write_file (page_path page_num) (Raster page_num zoom) (files w)
    = inr (files w')
  ∧ draws w' = draws w.
Proof.
  unfold bind, get_pixmap, on_fs, ret, raise. rewrite joinpath_page by done.
  destruct (doc !! page_num) as [[]|]; try done.
  destruct (write_file _ _ (files w)) as [ex|m'] eqn:Hw; [done|].
  intros [= <- <-]. done.
Qed.

Lemma render_loop n : ∀ a acc w outs w',
  for_each (seq a n) render_page acc w = (inr outs, w') →
  outs = acc ++ ((λ k, page_path k) <$> seq a n)
  ∧ (∀ k, (a ≤ k < a + n)%nat →
       doc !! k = Some true
       ∧ stat (files w') (page_path k) = Some (File (Raster k zoom)))
  ∧ (∀ p nd, p ≠ [] → name_of p ≠ ".." →
       (∀ k, (a ≤ k < a + n)%nat → name_of p ≠ page_filename stem k) →
       stat (files w) p = Some nd → stat (files w') p = Some nd)
  ∧ draws w' = draws w.
Proof.
  induction n as [|n IH]; intros a acc w outs w'.
  - simpl. intros [= <- <-]. rewrite app_nil_r. repeat split; try done; lia.
  - cbn [seq for_each]. unfold bind at 1.
    destruct (render_page a acc w) as [[ex|acc1] w1] eqn:Hpage; [done|].
    apply render_page_inv in Hpage as (Hdoc & -> & Hw & Hdraws).
    intros (-> & Hpages & Hframe & Hdraws')%IH.
    split; [by rewrite <- app_assoc|]. split; [|split; [|congruence]].
    + intros k Hk. destruct (decide (k = a)) as [->|Hne].
      * split; [done|]. apply Hframe.
        -- by destruct output_dir.
        -- rewrite name_of_snoc. by apply page_filename_proper.
        -- intros k Hk' E. rewrite name_of_snoc in E.
           apply page_filename_inj in E. lia.
        -- by apply (stat_after_write _ _ (files w)).
      * apply Hpages. lia.
    + intros p nd Hp Hdd Hnames Hstat. apply Hframe; [done..| |].
      * intros k Hk. apply Hnames. lia.
      * eapply stat_write_other; [exact Hw|done..| |done].
        rewrite name_of_snoc. apply Hnames. lia.
Qed.

End rendering.

Section pdf.

(** C6: a successful conversion of a document of D pages returns D
    paths, in page order; the file for page index k (0-based) is named
    [{stem}_page_{k+1:03d}.png] in the output directory and holds the
    pixmap of that page rendered with zoom dpi/72; the names are pairwise
    distinct, their numerals have three digits up to page 999 and start
    at 001; the converter as registered uses dpi 200. *)
Theorem pdf_converter_one_png_per_page input_path output_dir dpi w outs w' :
  Str.contains "/" (name_of input_path) = false →
  convert_pdf_to_png_dpi input_path output_dir dpi w = (inr outs, w') →
  let stem := stem_of_name (name_of input_path) in
  ∃ doc m1,
    mkdir_parents output_dir (files w) = inr m1
    ∧ read_file m1 input_path = inr (Pdf doc)
    ∧ length outs = length doc
    ∧ outs = (λ page_num, output_dir ++ [page_filename stem page_num])
             <$> seq 0 (length doc)
    ∧ NoDup outs
    ∧ (∀ page_num output_path,
         outs !! page_num = Some output_path →
         name_of output_path
         = stem +:+ "_page_" +:+ Str.fmt_03d (page_num + 1) +:+ ".png"
         ∧ stat (files w') output_path
           = Some (File (Raster page_num (QArith_base.Qmake dpi 72))))
    ∧ (∀ page_num, (page_num + 1 < 1000)%nat →
         String.length (Str.fmt_03d (page_num + 1)) = 3%nat)
    ∧ Str.fmt_03d (0 + 1) = "001"
    ∧ convert_pdf_to_png input_path output_dir
      = convert_pdf_to_png_dpi input_path output_dir 200.
Proof.
  intros Hname Hconv stem.
  assert (Str.contains "/" stem = false) as Hstem by (by apply stem_of_name_plain).
  unfold convert_pdf_to_png_dpi in Hconv. unfold bind at 1 in Hconv.
  unfold on_fs at 1 in Hconv.
  destruct (mkdir_parents output_dir (files w)) as [ex|m1] eqn:Hmk; [done|].
  unfold bind at 1, try_except, fitz_open, bind at 1, get_fs in Hconv.
  cbn [files] in Hconv.
  destruct (read_file m1 input_path) as [ex|[doc| | | |]] eqn:Hread; try done.
  unfold ret at 1 in Hconv. fold stem in Hconv.
  apply (render_loop doc stem output_dir (zoom_of dpi) Hstem) in Hconv
    as (Houts & Hpages & _ & _).
  simpl in Houts.
  exists doc, m1. split; [done|]. split; [done|].
  split; [by rewrite Houts, length_fmap, length_seq|]. split; [done|].
  split; [|split; [|split; [|split]]].
  - rewrite Houts. apply NoDup_fmap_2; [|apply NoDup_seq].
    intros j k E. apply app_inv_head in E. injection E as E.
    by apply (page_filename_inj stem) in E.
  - intros k p Hk. rewrite Houts, list_lookup_fmap in Hk.
    destruct (seq 0 (length doc) !! k) as [k'|] eqn:Hseq; [|done].
    apply lookup_seq in Hseq as [-> Hlt]. injection Hk as <-.
    split; [by rewrite name_of_snoc|]. apply Hpages. lia.
  - intros k Hk. by apply fmt_03d_width.
  - by_evaluation.
  - done.
Qed.

End pdf.

Section pdf_example.
Import example.

(** [pdf_converter_one_png_per_page] on a document of two pages. *)
Lemma pdf_converter_witness :
  let run := convert_pdf_to_png_dpi doc_pdf_path session_outputs 200
               (World (m1_with "00000001_doc.pdf" (Pdf [true; true])) 2) in
  outputs_of run
  = [session_outputs ++ ["00000001_doc_page_001.png"];
     session_outputs ++ ["00000001_doc_page_002.png"]]
  ∧ length (outputs_of run) = 2%nat
  ∧ NoDup (outputs_of run)
  ∧ stat (files run.2) (session_outputs ++ ["00000001_doc_page_002.png"])
    = Some (File (Raster 1 (QArith_base.Qmake 200 72))).
Proof.
  intros run.
  assert (run = (inr (outputs_of run), run.2)) as Hrun by by_evaluation.
  assert (outputs_of run
          = [session_outputs ++ ["00000001_doc_page_001.png"];
             session_outputs ++ ["00000001_doc_page_002.png"]]) as Houts
    by by_evaluation.
  destruct (pdf_converter_one_png_per_page doc_pdf_path session_outputs 200
              _ _ _ ltac:(by_evaluation) Hrun)
    as (doc & m & _ & _ & _ & _ & Hnodup & Hfiles & _).
  split; [exact Houts|]. split; [by rewrite Houts|]. split; [exact Hnodup|].
  apply (Hfiles 1%nat). by rewrite Houts.
Defined.

End pdf_example.

(** ** Directory listings *)

Section listing.
Implicit Types (m : fs) (d p q : path) (n : string).

Lemma child_name_Some d q n : child_name d q = Some n ↔ q = d ++ [n].
Proof.
  unfold child_name. split.
  - destruct (reverse q) as [|n' rd] eqn:Hq; [done|].
    case_bool_decide as Hd; [|done]. intros [= <-].
    rewrite <- (reverse_involutive q), Hq, reverse_cons. by rewrite Hd.
  - intros ->. rewrite reverse_snoc. by rewrite bool_decide_eq_true_2, ?reverse_involutive
      by apply reverse_involutive.
Qed.

Lemma elem_of_listdir m d n : n ∈ listdir m d ↔ is_Some (m !! (d ++ [n])).
Proof.
  unfold listdir. rewrite list_elem_of_omap. split.
  - intros ([q x] & Hin & Hq). apply elem_of_map_to_list in Hin.
    apply child_name_Some in Hq. simpl in Hq. subst q. by exists x.
  - intros [x Hx]. exists (d ++ [n], x). split; [by apply elem_of_map_to_list|].
    by apply child_name_Some.
Qed.

Lemma NoDup_omap_on {A B} (f : A → option B) (l : list A) :
  NoDup l →
  (∀ x y z, x ∈ l → y ∈ l → f x = Some z → f y = Some z → x = y) →
  NoDup (omap f l).
Proof.
  induction 1 as [|x l Hx Hl IH]; intros Hinj; simpl; [constructor|].
  destruct (f x) as [z|] eqn:Hfx.
  - constructor.
    + intros (y & Hy & Hfy)%list_elem_of_omap.
      assert (x = y) as -> by (eapply Hinj; [left| by right|done..]). done.
    + apply IH. intros a b c Ha Hb. apply Hinj; by right.
  - apply IH. intros a b c Ha Hb. apply Hinj; by right.
Qed.

Lemma NoDup_listdir m d : NoDup (listdir m d).
Proof.
  unfold listdir. apply NoDup_omap_on; [apply NoDup_map_to_list|].
  intros [q1 x1] [q2 x2] n Hin1 Hin2 H1%child_name_Some H2%child_name_Some.
  simpl in *. subst. apply elem_of_map_to_list in Hin1, Hin2. congruence.
Qed.

(** A directory reached without [".."] resolves to itself. *)
Lemma is_dir_plain m p :
  ".." ∉ p → is_dir m p = true → realpath m p = Some p ∧ dir_at m p = true.
Proof.
  intros Hp. unfold is_dir, stat.
  destruct (realpath m p) as [r|] eqn:Hr; simpl; [|done].
  pose proof (walk_no_dotdot _ _ _ _ Hp Hr) as ->. simpl.
  unfold dir_at. by destruct (node_at m p) as [[]|].
Qed.

Lemma realpath_child m d n :
  realpath m d = Some d → dir_at m d = true → n ≠ ".." →
  realpath m (d ++ [n]) = (m !! (d ++ [n])) ≫= λ _, Some (d ++ [n]).
Proof.
  intros Hd Hdir Hn. unfold realpath in *. rewrite walk_app, Hd. simpl.
  rewrite Hdir. unfold Str.eqb. rewrite bool_decide_eq_false_2 by done.
  by destruct (m !! (d ++ [n])).
Qed.

Lemma stat_child m d n :
  realpath m d = Some d → dir_at m d = true → n ≠ ".." →
  stat m (d ++ [n]) = m !! (d ++ [n]).
Proof.
  intros Hd Hdir Hn. unfold stat. rewrite realpath_child by done.
  destruct (m !! (d ++ [n])) eqn:E; simpl; [|done].
  unfold node_at. by destruct (d ++ [n]) eqn:E'; [destruct d|].
Qed.

Lemma iterdir_plain m d :
  realpath m d = Some d → dir_at m d = true →
  iterdir m d = inr ((λ n, d ++ [n]) <$> listdir m d).
Proof.
  intros Hd Hdir. unfold iterdir. rewrite Hd. unfold dir_at in Hdir.
  by destruct (node_at m d) as [[]|].
Qed.

Lemma parent_snoc p n : parent (p ++ [n]) = p.
Proof. apply removelast_last. Qed.

End listing.

(** ** The archive of a session *)

Section archive.
Context (e : env) (sid : string).
Context (Hbase : ".." ∉ BASE_DIR e) (Hsid : plain_name sid).

Abbreviation conv := (CONVERTED_DIR e).
Abbreviation sdir := (session_dir_of e sid).
Abbreviation zname := (archive_name sid).
Abbreviation zpath := (archive_path e sid).

Lemma conv_no_dotdot : ".." ∉ conv.
Proof.
  rewrite CONVERTED_DIR_eq, elem_of_app, list_elem_of_singleton.
  intros [?|?]; [done|discriminate].
Qed.

Lemma sdir_no_dotdot : ".." ∉ sdir.
Proof.
  destruct Hsid as (_ & _ & _ & Hdd). unfold session_dir_of.
  rewrite elem_of_app, list_elem_of_singleton.
  intros [?|?]; [by apply conv_no_dotdot|done].
Qed.

Lemma joinpath_session : joinpath conv sid = sdir.
Proof. destruct Hsid as (? & ? & ? & _). by apply joinpath_plain. Qed.

Lemma archive_name_plain : plain_name zname.
Proof.
  destruct Hsid as (Hs & _). unfold plain_name, archive_name.
  split; [by rewrite !contains_app, Hs|].
  assert (15 ≤ String.length ("FormatWave_" +:+ sid +:+ ".zip"))%nat as Hlen
    by (rewrite !string_length_app; simpl; lia).
  repeat split; intros E; rewrite E in Hlen; simpl in Hlen; lia.
Qed.

Lemma joinpath_archive : joinpath conv zname = zpath.
Proof. destruct archive_name_plain as (? & ? & ? & _). by apply joinpath_plain. Qed.

Lemma child_not_archive n : sdir ++ [n] ≠ zpath.
Proof.
  unfold session_dir_of, archive_path. intros E.
  apply (f_equal length) in E. rewrite !length_app in E. simpl in E. lia.
Qed.

Lemma write_file_child m (d : path) n c :
  realpath m d = Some d → dir_at m d = true → n ≠ ".." →
  m !! (d ++ [n]) ≠ Some Dir →
  write_file (d ++ [n]) c m = inr (<[d ++ [n] := File c]> m).
Proof.
  intros Hd Hdir Hn Ht. unfold write_file, target.
  destruct (d ++ [n]) eqn:E; [by destruct d|]. rewrite <- E in Ht |- *.
  rewrite parent_snoc, Hd. simpl. rewrite Hdir, name_of_snoc.
  unfold Str.eqb. rewrite bool_decide_eq_false_2 by done. simpl.
  by destruct (m !! (d ++ [n])) as [[]|].
Qed.

Lemma session_root m :
  is_dir m sdir = true →
  realpath m conv = Some conv ∧ dir_at m conv = true
  ∧ realpath m sdir = Some sdir ∧ dir_at m sdir = true.
Proof.
  intros Hd. apply is_dir_plain in Hd as [Hr Hdir]; [|apply sdir_no_dotdot].
  assert (realpath m conv = Some conv ∧ dir_at m conv = true) as [H1 H2].
  { unfold realpath, session_dir_of in *. rewrite walk_app in Hr.
    destruct (walk m [] conv) as [d|] eqn:Hd; [|done].
    pose proof (walk_no_dotdot _ _ _ _ conv_no_dotdot Hd) as ->. simpl in *.
    by destruct (dir_at m conv). }
  done.
Qed.

Lemma omap_cons {A B} (f : A → option B) x (l : list A) :
  omap f (x :: l) = match f x with Some y => y :: omap f l | None => omap f l end.
Proof. done. Qed.

Lemma zip_entries_run m items acc w :
  for_each items
    (λ file_path entries,
       if is_file m file_path then
         c ← lift (read_file m file_path);
         ret (entries ++ [(name_of file_path, c)])
       else ret entries) acc w
  = (inr (acc ++ omap (λ fp, match stat m fp with
                             | Some (File c) => Some (name_of fp, c)
                             | _ => None
                             end) items), w).
Proof.
  revert acc. induction items as [|fp items IH]; intros acc.
  { simpl. by rewrite app_nil_r. }
  cbn [for_each]. rewrite omap_cons. unfold bind at 1. unfold is_file, read_file.
  destruct (stat m fp) as [[c|]|]; cbn [lift]; unfold bind, ret; rewrite IH; try done.
  by rewrite <- app_assoc.
Qed.

Lemma omap_fmap_on {A B C} (f : B → option C) (g : A → B) (h : A → option C)
    (l : list A) :
  (∀ x, x ∈ l → f (g x) = h x) → omap f (g <$> l) = omap h l.
Proof.
  induction l as [|x l IH]; intros H; [done|].
  rewrite fmap_cons, !omap_cons, H by left.
  rewrite IH; [done|]. intros y Hy. apply H. by right.
Qed.

(** What one call does, on a file system where the session directory
    exists and nothing but a file can be in the archive's place. *)
Lemma download_all_run m k :
  no_dotdot_entries m → is_dir m sdir = true → is_dir m zpath = false →
  let entries := files_in m sdir (listdir (<[zpath := File (Zip [])]> m) sdir) in
  download_all e sid (World m k)
  = (FileResponse zpath (Zip entries) true (Some zname),
     World (<[zpath := File (Zip entries)]> m) k).
Proof.
  intros Hok Hdir Hzip entries.
  destruct (session_root m Hdir) as (Hconv & Hconvdir & Hs & Hsdir).
  destruct archive_name_plain as (_ & _ & _ & Hzdd).
  assert (m !! zpath ≠ Some Dir) as Hz.
  { intros Hz. unfold is_dir, archive_path in Hzip.
    rewrite stat_child in Hzip by done. unfold archive_path in Hz. by rewrite Hz in Hzip. }
  set (m1 := <[zpath := File (Zip [])]> m).
  assert (realpath m1 sdir = Some sdir) as Hs1 by (by apply walk_insert_file).
  assert (dir_at m1 sdir = true) as Hsdir1 by (by apply dir_at_insert_file).
  assert (realpath m1 conv = Some conv) as Hconv1 by (by apply walk_insert_file).
  assert (dir_at m1 conv = true) as Hconvdir1 by (by apply dir_at_insert_file).
  assert (m1 !! zpath ≠ Some Dir) as Hz1 by (unfold m1; by rewrite lookup_insert_eq).
  unfold download_all, serve, download_all_view. cbv zeta.
  fold (archive_name sid). rewrite joinpath_session, joinpath_archive.
  unfold bind at 1, get_fs at 1. cbn [files].
  assert (exists_ m sdir = true) as ->.
  { unfold exists_, is_dir in *. apply bool_decide_eq_true_2.
    by destruct (stat m sdir) as [[]|]. }
  cbn [negb]. unfold try_except.
  unfold bind at 1, on_fs at 1. cbn [files draws].
  unfold archive_path at 1. rewrite write_file_child by done.
  fold (archive_path e sid). fold m1.
  unfold bind at 1, get_fs at 1. cbn [files].
  unfold bind at 1, lift at 1. rewrite (iterdir_plain m1 sdir) by done.
  unfold ret at 1. unfold bind at 1, zip_entries. rewrite zip_entries_run.
  cbn [app].
  rewrite (omap_fmap_on _ _
             (λ n, match m !! (sdir ++ [n]) with
                   | Some (File c) => Some (n, c)
                   | _ => None
                   end)).
  2:{ intros n Hn. rewrite name_of_snoc.
      apply elem_of_listdir in Hn. unfold m1 in Hn.
      rewrite lookup_insert_ne in Hn by (apply not_eq_sym, child_not_archive).
      assert (n ≠ "..") as Hndd.
      { intros ->. apply Hok in Hn. apply Hn. rewrite elem_of_app. right. by left. }
      rewrite stat_child by done. unfold m1.
      by rewrite lookup_insert_ne by (apply not_eq_sym, child_not_archive). }
  fold (files_in m sdir (listdir m1 sdir)). fold entries.
  unfold bind at 1, on_fs at 1. cbn [files draws].
  unfold archive_path at 1. rewrite write_file_child by done.
  fold (archive_path e sid).
  replace (<[zpath := File (Zip entries)]> m1)
    with (<[zpath := File (Zip entries)]> m)
    by (unfold m1; by rewrite insert_insert_eq).
  set (m2 := <[zpath := File (Zip entries)]> m).
  unfold bind at 1, get_fs at 1. cbn [files].
  assert (realpath m2 conv = Some conv) as Hconv2 by (by apply walk_insert_file).
  assert (dir_at m2 conv = true) as Hconvdir2 by (by apply dir_at_insert_file).
  unfold send_file, read_file. unfold archive_path at 1 2.
  rewrite stat_child, realpath_child by done. fold (archive_path e sid).
  unfold m2. rewrite lookup_insert_eq. done.
Qed.

End archive.

Section archive_contents.
Implicit Types (m : fs) (d : path) (names : list string).

Lemma elem_of_files_in m d names n c :
  (n, c) ∈ files_in m d names ↔ n ∈ names ∧ m !! (d ++ [n]) = Some (File c).
Proof.
  unfold files_in. rewrite list_elem_of_omap. split.
  - intros (n' & Hin & H). destruct (m !! (d ++ [n'])) as [[c'|]|] eqn:E; try done.
    by injection H as -> ->.
  - intros [Hin H]. exists n. by rewrite H.
Qed.

Lemma NoDup_files_in m d names : NoDup names → NoDup (files_in m d names).*1.
Proof.
  unfold files_in. induction 1 as [|n names Hn Hnames IH]; [constructor|].
  rewrite omap_cons. destruct (m !! (d ++ [n])) as [[c|]|]; try done.
  rewrite fmap_cons. constructor; [|done]. simpl.
  intros ([n' c'] & -> & [Hin _]%elem_of_files_in)%list_elem_of_fmap. done.
Qed.

Lemma contains_substring c i k s :
  Str.contains c s = false → Str.contains c (String.substring i k s) = false.
Proof.
  revert i k. induction s as [|a s IH]; intros [|i] [|k]; simpl; try done.
  - intros [Ha Hs]%orb_false_iff. rewrite Ha. simpl. by apply (IH 0%nat).
  - intros [_ Hs]%orb_false_iff. by apply IH.
  - intros [_ Hs]%orb_false_iff. by apply IH.
Qed.

(** The identifiers [convert_files] makes are plain names. *)
Lemma session_id_plain hex :
  Str.contains "/" hex = false → plain_name (session_id_of hex).
Proof.
  intros Hhex. unfold plain_name, session_id_of.
  split.
  { rewrite !contains_app, contains_take, contains_substring by done. done. }
  assert (Str.contains "-" (Str.take 8 hex +:+ "-" +:+ String.substring 8 3 hex) = true)
    as Hdash.
  { rewrite !contains_app. simpl. by rewrite orb_true_r. }
  repeat split; intros E; rewrite E in Hdash; discriminate.
Qed.

End archive_contents.

(** C7: for a session (an identifier that is a plain name, as the ones
    [convert_files] makes) whose output directory exists, [download_all]
    answers with an archive holding exactly the regular files directly in
    that directory, each once and under its bare name, and stores it
    beside the session directories under a name fixed by the identifier;
    a second call finds the same files, none of them the first archive,
    and overwrites that archive in place.  When the session directory
    does not resolve the answer is 404 "Session not found". *)
Theorem download_all_archive :
  (∀ e sid w,
     ".." ∉ BASE_DIR e → plain_name sid → no_dotdot_entries (files w) →
     is_dir (files w) (session_dir_of e sid) = true →
     is_dir (files w) (archive_path e sid) = false →
     ∃ entries entries2 m',
       download_all e sid w
       = (FileResponse (archive_path e sid) (Zip entries) true
            (Some (archive_name sid)), World m' (draws w))
       ∧ m' = <[archive_path e sid := File (Zip entries)]> (files w)
       ∧ NoDup entries.*1
       ∧ (∀ n c, (n, c) ∈ entries
                 ↔ files w !! (session_dir_of e sid ++ [n]) = Some (File c))
       ∧ download_all e sid (World m' (draws w))
         = (FileResponse (archive_path e sid) (Zip entries2) true
              (Some (archive_name sid)),
            World (<[archive_path e sid := File (Zip entries2)]> (files w)) (draws w))
       ∧ entries2 ≡ₚ entries)
  ∧ (∀ e sid w,
       exists_ (files w) (joinpath (CONVERTED_DIR e) sid) = false →
       download_all e sid w = (JsonError 404 "Session not found", w))
  ∧ (∀ hex, Str.contains "/" hex = false → plain_name (session_id_of hex)).
Proof.
  split; [|split; [|exact session_id_plain]].
  - intros e sid [m k] Hbase Hsid Hok Hdir Hzip. simpl in *.
    pose proof (download_all_run e sid Hbase Hsid m k Hok Hdir Hzip) as Hrun1.
    simpl in Hrun1.
    set (z := archive_path e sid) in *. set (d := session_dir_of e sid) in *.
    set (entries := files_in m d (listdir (<[z := File (Zip [])]> m) d)) in *.
    set (m' := <[z := File (Zip entries)]> m).
    destruct (session_root e sid Hbase Hsid m Hdir) as (Hconv & Hconvdir & Hs & Hsdir).
    destruct (archive_name_plain sid Hsid) as (_ & _ & _ & Hzdd).
    assert (m !! z ≠ Some Dir) as Hz.
    { intros Hz. unfold is_dir, z, archive_path in Hzip.
      rewrite stat_child in Hzip by done. unfold z, archive_path in Hz.
      by rewrite Hz in Hzip. }
    assert (∀ n, m' !! (d ++ [n]) = m !! (d ++ [n])) as Hsame.
    { intros n. unfold m'. apply lookup_insert_ne, not_eq_sym, child_not_archive. }
    assert (no_dotdot_entries m') as Hok'.
    { intros p [x Hp]. unfold m' in Hp. apply lookup_insert_Some in Hp as [[<- _]|[_ Hp]].
      - unfold z, archive_path. rewrite elem_of_app, list_elem_of_singleton.
        intros [?|?]; [by eapply conv_no_dotdot|done].
      - apply Hok. by exists x. }
    assert (is_dir m' d = true) as Hdir'.
    { unfold is_dir, stat. unfold realpath in *. unfold m'.
      rewrite (walk_insert_file _ _ _ _ _ _ Hz Hs). simpl.
      pose proof (dir_at_insert_file m z (Zip entries) d Hz Hsdir) as Hd'.
      exact Hd'. }
    assert (is_dir m' z = false) as Hzip'.
    { unfold is_dir.
      assert (stat m' z = m' !! z) as ->.
      { apply (stat_child m' (CONVERTED_DIR e) (archive_name sid));
          [by apply walk_insert_file|by apply dir_at_insert_file|done]. }
      unfold m'. by rewrite lookup_insert_eq. }
    pose proof (download_all_run e sid Hbase Hsid m' k Hok' Hdir' Hzip') as Hrun2.
    simpl in Hrun2. fold z d in Hrun2.
    set (entries2 := files_in m' d (listdir (<[z := File (Zip [])]> m') d)) in *.
    assert (∀ n c, (n, c) ∈ entries ↔ m !! (d ++ [n]) = Some (File c)) as Hin1.
    { intros n c. unfold entries. rewrite elem_of_files_in, elem_of_listdir.
      rewrite lookup_insert_ne by (apply not_eq_sym, child_not_archive).
      split; [tauto|]. intros H. split; [by eexists|done]. }
    assert (∀ n c, (n, c) ∈ entries2 ↔ m !! (d ++ [n]) = Some (File c)) as Hin2.
    { intros n c. unfold entries2. rewrite elem_of_files_in, elem_of_listdir.
      rewrite lookup_insert_ne by (apply not_eq_sym, child_not_archive).
      rewrite Hsame. split; [tauto|]. intros H. split; [by eexists|done]. }
    exists entries, entries2, m'. split; [exact Hrun1|]. split; [done|].
    split; [apply NoDup_files_in, NoDup_listdir|]. split; [exact Hin1|].
    split.
    + rewrite Hrun2. unfold m'. by rewrite insert_insert_eq.
    + apply NoDup_Permutation.
      * eapply NoDup_fmap_1, NoDup_files_in, NoDup_listdir.
      * eapply NoDup_fmap_1, NoDup_files_in, NoDup_listdir.
      * intros [n c]. by rewrite Hin1, Hin2.
  - intros e sid w Hgone. unfold download_all, serve, download_all_view, bind, get_fs.
    by rewrite Hgone.
Qed.

Lemma no_dotdot_entries_checked (m : fs) :
  map_Forall (λ p _, ".." ∉ p) m → no_dotdot_entries m.
Proof. intros H p [x Hp]. by apply (H p x). Qed.

Section archive_example.
Import example.

(** [download_all_archive] on the example session with two converted files. *)
Lemma download_all_witness :
  ∃ entries entries2 m',
    download_all e0 session w2
    = (FileResponse (archive_path e0 session) (Zip entries) true
         (Some (archive_name session)), World m' (draws w2))
    ∧ m' = <[archive_path e0 session := File (Zip entries)]> (files w2)
    ∧ NoDup entries.*1
    ∧ (∀ n c, (n, c) ∈ entries
              ↔ files w2 !! (session_dir_of e0 session ++ [n]) = Some (File c))
    ∧ download_all e0 session (World m' (draws w2))
      = (FileResponse (archive_path e0 session) (Zip entries2) true
           (Some (archive_name session)),
         World (<[archive_path e0 session := File (Zip entries2)]> (files w2))
           (draws w2))
    ∧ entries2 ≡ₚ entries.
Proof.
  apply (proj1 download_all_archive e0 session w2).
  - refine (bool_decide_unpack _ _). vm_compute. exact I.
  - unfold plain_name, session. split; [by_evaluation|]. by repeat split.
  - apply no_dotdot_entries_checked. refine (bool_decide_unpack _ _).
    vm_compute. exact I.
  - by_evaluation.
  - by_evaluation.
Defined.

Lemma download_all_example :
  (download_all e0 session w2).1
  = FileResponse (archive_path e0 session)
      (Zip [("00000002_b.jpg", b_jpg); ("00000001_a.jpg", a_jpg)]) true
      (Some "FormatWave_00000000-9ab.zip")
  ∨ (download_all e0 session w2).1
    = FileResponse (archive_path e0 session)
        (Zip [("00000001_a.jpg", a_jpg); ("00000002_b.jpg", b_jpg)]) true
        (Some "FormatWave_00000000-9ab.zip").
Proof. first [left; by_evaluation | right; by_evaluation]. Qed.

(** Outside the sessions: the identifier ["."] names the converted root
    itself, and the archive built for it contains the archive file being
    written. *)
Example download_all_of_the_root :
  (download_all e0 "." w0).1
  = FileResponse (CONVERTED_DIR e0 ++ ["FormatWave_..zip"])
      (Zip [("FormatWave_..zip", Zip [])]) true (Some "FormatWave_..zip").
Proof. by_evaluation. Qed.

End archive_example.

(** ** The cleanup sweep *)

Section sweep_item.
Context (s : sweep_env).
Implicit Types (m : fs) (item q : path).

Lemma cleanup_item_not_swept m item :
  swept s item = false → cleanup_item_guarded s m item = m.
Proof.
  unfold swept, cleanup_item_guarded, cleanup_item.
  destruct (st_mtime s item) as [t|]; [|done].
  destruct (CLEANUP_AGE_SECONDS <? now s - t); [|done].
  destruct (rm_refused s item); done.
Qed.

Lemma rmtree_lookup m item m' q :
  rmtree item m = inr m' →
  ∃ r, realpath m item = Some r
       ∧ m' !! q = if decide (r `prefix_of` q) then None else m !! q.
Proof.
  unfold rmtree. destruct (realpath m item) as [r|]; [|done].
  destruct (node_at m r) as [[]|]; try done. intros [= <-]. exists r. split; [done|].
  case_decide as Hp.
  - apply map_lookup_filter_None. right. intros x _. simpl. tauto.
  - destruct (m !! q) as [x|] eqn:Hq.
    + apply map_lookup_filter_Some. done.
    + apply map_lookup_filter_None. by left.
Qed.

Lemma unlink_lookup m item m' q :
  unlink item m = inr m' →
  ∃ r, realpath m item = Some r
       ∧ m' !! q = if decide (r = q) then None else m !! q.
Proof.
  unfold unlink. destruct (realpath m item) as [r|]; [|done].
  destruct (node_at m r) as [[]|]; try done. intros [= <-]. exists r. split; [done|].
  case_decide as Hp; [subst; apply lookup_delete_eq|by apply lookup_delete_ne].
Qed.

(** One guarded deletion changes nothing outside the entry, and inside
    it only removes. *)
Lemma cleanup_item_lookup m item q :
  ".." ∉ item →
  cleanup_item_guarded s m item !! q = m !! q
  ∨ (cleanup_item_guarded s m item !! q = None ∧ item `prefix_of` q
     ∧ swept s item = true).
Proof.
  intros Hdd. destruct (swept s item) eqn:Hswept.
  2:{ left. by rewrite cleanup_item_not_swept. }
  unfold cleanup_item_guarded, cleanup_item.
  destruct (st_mtime s item) as [t|]; [|by left].
  destruct (CLEANUP_AGE_SECONDS <? now s - t); [|by left].
  destruct (rm_refused s item); [by left|].
  destruct (is_dir m item).
  - destruct (rmtree item m) as [ex|m'] eqn:Hrm; [by left|].
    apply (rmtree_lookup _ _ _ q) in Hrm as (r & Hr & ->).
    apply walk_no_dotdot in Hr as ->; [|done]. simpl.
    case_decide; [by right|by left].
  - destruct (unlink item m) as [ex|m'] eqn:Hun; [by left|].
    apply (unlink_lookup _ _ _ q) in Hun as (r & Hr & ->).
    apply walk_no_dotdot in Hr as ->; [|done]. simpl.
    case_decide; [subst; by right|by left].
Qed.

Lemma cleanup_item_subseteq m item : cleanup_item_guarded s m item ⊆ m.
Proof.
  unfold cleanup_item_guarded, cleanup_item.
  destruct (st_mtime s item) as [t|]; [|done].
  destruct (CLEANUP_AGE_SECONDS <? now s - t); [|done].
  destruct (rm_refused s item); [done|].
  destruct (is_dir m item).
  - unfold rmtree. destruct (realpath m item) as [r|]; [|done].
    destruct (node_at m r) as [[]|]; try done. apply map_filter_subseteq.
  - unfold unlink. destruct (realpath m item) as [r|]; [|done].
    destruct (node_at m r) as [[]|]; try done. apply delete_subseteq.
Qed.

(** An entry that resolves to itself and is swept is gone afterwards,
    with everything below it if it is a directory. *)
Lemma cleanup_item_deletes m item :
  swept s item = true → realpath m item = Some item → item ≠ [] →
  is_Some (m !! item) →
  cleanup_item_guarded s m item !! item = None
  ∧ (m !! item = Some Dir →
     ∀ q, item `prefix_of` q → cleanup_item_guarded s m item !! q = None).
Proof.
  intros Hswept Hr Hne [x Hx]. unfold swept in Hswept.
  unfold cleanup_item_guarded, cleanup_item.
  destruct (st_mtime s item) as [t|]; [|done].
  destruct (CLEANUP_AGE_SECONDS <? now s - t); [|done].
  destruct (rm_refused s item); [done|].
  assert (stat m item = Some x) as Hstat.
  { unfold stat. rewrite Hr. simpl. unfold node_at. by destruct item. }
  unfold is_dir. rewrite Hstat. destruct x as [c|].
  - assert (unlink item m = inr (delete item m)) as ->.
    { unfold unlink. rewrite Hr. unfold node_at. destruct item; [done|]. by rewrite Hx. }
    split; [apply lookup_delete_eq|]. by rewrite Hx.
  - assert (rmtree item m = inr (filter (λ kv, ¬ item `prefix_of` kv.1) m)) as ->.
    { unfold rmtree. rewrite Hr. unfold node_at. destruct item; [done|]. by rewrite Hx. }
    assert (∀ q, item `prefix_of` q →
              filter (λ kv, ¬ item `prefix_of` kv.1) m !! q = None) as Hgone.
    { intros q Hq. apply map_lookup_filter_None. right. intros y _. simpl. tauto. }
    split; [by apply Hgone|]. intros _. exact Hgone.
Qed.

End sweep_item.

Section sweep_directory.
Context (s : sweep_env).
Implicit Types (m : fs) (item q root : path) (L : list path).

Lemma sweep_fold_subseteq L m : foldl (cleanup_item_guarded s) m L ⊆ m.
Proof.
  revert m. induction L as [|item L IH]; intros m; simpl; [done|].
  etrans; [apply IH|]. apply cleanup_item_subseteq.
Qed.

(** What lies under no swept entry is as it was. *)
Lemma sweep_fold_keeps L m q :
  Forall (λ item, ".." ∉ item) L →
  (∀ item, item ∈ L → item `prefix_of` q → swept s item = false) →
  foldl (cleanup_item_guarded s) m L !! q = m !! q.
Proof.
  intros HL. revert m. induction HL as [|item L Hitem _ IH]; intros m Hq; simpl; [done|].
  rewrite IH by (intros i Hi; apply Hq; by right).
  destruct (cleanup_item_lookup s m item q Hitem) as [H|(_ & Hpre & Hswept)]; [done|].
  rewrite Hq in Hswept; [done|by left|done].
Qed.

Lemma walk_agree m1 m2 cur (comps : list string) :
  ".." ∉ comps →
  (∀ l, l `prefix_of` comps → m1 !! (cur ++ l) = m2 !! (cur ++ l)) →
  walk m1 cur comps = walk m2 cur comps.
Proof.
  revert cur. induction comps as [|c comps IH]; intros cur Hdd Hsame; simpl; [done|].
  apply not_elem_of_cons in Hdd as [Hc Hdd].
  assert (dir_at m1 cur = dir_at m2 cur) as ->.
  { unfold dir_at, node_at. destruct cur as [|a cur]; [done|].
    specialize (Hsame [] (prefix_nil _)). rewrite app_nil_r in Hsame.
    by rewrite Hsame. }
  destruct (dir_at m2 cur); [|done].
  unfold Str.eqb. rewrite bool_decide_eq_false_2 by done.
  rewrite (Hsame [c]) by (by apply prefix_cons, prefix_nil).
  destruct (m2 !! (cur ++ [c])); [|done].
  apply IH; [done|]. intros l Hl. rewrite <- !app_assoc. apply Hsame.
  by apply prefix_cons.
Qed.

Lemma prefix_same_length {A} (l1 l2 l3 : list A) :
  l1 `prefix_of` l2 → l2 `prefix_of` l3 → length l1 = length l3 → l1 = l3.
Proof.
  intros H12 H23 Hlen. apply prefix_length_eq; [by etrans|lia].
Qed.

(** A swept entry of a list of distinct sibling entries is gone after
    the sweep, wherever in the list it comes. *)
Lemma sweep_fold_deletes L m item (k : nat) :
  NoDup L → Forall (λ i, (".." ∉ i) ∧ (length i = k)) L →
  item ∈ L → swept s item = true → item ≠ [] →
  realpath m item = Some item → is_Some (m !! item) →
  let m' := foldl (cleanup_item_guarded s) m L in
  m' !! item = None
  ∧ (m !! item = Some Dir → ∀ q, item `prefix_of` q → m' !! q = None).
Proof.
  intros Hnodup HL Hin Hswept Hne Hr Hx m'.
  assert (Forall (λ i, ".." ∉ i) L) as HL' by (eapply Forall_impl; [done|]; by intros ? []).
  assert ((".." ∉ item) ∧ (length item = k)) as [Hdd Hlen]
    by (by eapply (proj1 (Forall_forall _ _)) in HL).
  apply list_elem_of_split in Hin as (L1 & L2 & ->).
  apply NoDup_app in Hnodup as (_ & Hout & _).
  apply Forall_app in HL as [HL1 HL2]. apply Forall_app in HL' as [HL1' HL2'].
  apply Forall_cons in HL2' as [_ HL2'].
  unfold m'. rewrite foldl_app. cbn [foldl].
  set (m1 := foldl (cleanup_item_guarded s) m L1).
  assert (∀ q, q `prefix_of` item → m1 !! q = m !! q) as Hsame.
  { intros q Hq. apply sweep_fold_keeps; [done|]. intros i Hi Hpre. exfalso.
    apply (Hout i Hi). assert (i = item) as ->; [|by left].
    eapply prefix_same_length; [done..|].
    rewrite Hlen. by eapply (proj1 (Forall_forall _ _)) in HL1 as [_ ?]. }
  assert (realpath m1 item = Some item) as Hr1.
  { unfold realpath in *. rewrite <- Hr. apply walk_agree; [done|].
    intros l Hl. by apply Hsame. }
  destruct (cleanup_item_deletes s m1 item Hswept Hr1 Hne) as [Hgone Hbelow].
  { by rewrite Hsame. }
  split.
  - eapply lookup_weaken_None; [exact Hgone|]. apply sweep_fold_subseteq.
  - intros Hdir q Hq. eapply lookup_weaken_None; [|apply sweep_fold_subseteq].
    apply Hbelow; [|done]. by rewrite Hsame.
Qed.

(** The sweep of one root that is a directory. *)
Lemma cleanup_directory_spec root m :
  ".." ∉ root → no_dotdot_entries m → is_dir m root = true →
  ∃ m', cleanup_directory s root m = inr m' ∧ m' ⊆ m
    ∧ (∀ q, (∀ n, root ++ [n] `prefix_of` q → swept s (root ++ [n]) = false) →
            m' !! q = m !! q)
    ∧ (∀ n, is_Some (m !! (root ++ [n])) → swept s (root ++ [n]) = true →
            m' !! (root ++ [n]) = None
            ∧ (m !! (root ++ [n]) = Some Dir →
               ∀ q, root ++ [n] `prefix_of` q → m' !! q = None)).
Proof.
  intros Hroot Hok Hdir.
  destruct (is_dir_plain m root Hroot Hdir) as [Hr Hd].
  set (items := (λ n, root ++ [n]) <$> listdir m root).
  assert (Forall (λ i, (".." ∉ i) ∧ (length i = S (length root))) items) as Hitems.
  { apply Forall_forall. intros i (n & -> & Hn)%list_elem_of_fmap.
    apply elem_of_listdir in Hn. split; [by apply Hok|].
    rewrite length_app. simpl. lia. }
  assert (Forall (λ i, ".." ∉ i) items) as Hitems'
    by (eapply Forall_impl; [done|]; by intros ? []).
  assert (NoDup items) as Hnodup.
  { apply NoDup_fmap_2; [|apply NoDup_listdir].
    intros a b E. apply app_inv_head in E. by injection E. }
  exists (foldl (cleanup_item_guarded s) m items). split; [|split; [|split]].
  - unfold cleanup_directory.
    assert (exists_ m root = true) as ->.
    { unfold exists_, is_dir in *. apply bool_decide_eq_true_2.
      by destruct (stat m root) as [[]|]. }
    simpl. by rewrite iterdir_plain.
  - apply sweep_fold_subseteq.
  - intros q Hq. apply sweep_fold_keeps; [done|].
    intros i (n & -> & Hn)%list_elem_of_fmap Hpre. by apply Hq.
  - intros n Hx Hswept.
    assert (n ≠ "..") as Hn.
    { intros ->. apply Hok in Hx. apply Hx. rewrite elem_of_app. right. by left. }
    apply (sweep_fold_deletes items m (root ++ [n]) (S (length root))); try done.
    + apply list_elem_of_fmap. exists n. split; [done|]. by apply elem_of_listdir.
    + by destruct root.
    + rewrite realpath_child by done. by destruct Hx as [x ->].
Qed.

End sweep_directory.

Section sweep_cycle.
Context (e : env).
Implicit Types (m : fs) (s : sweep_env).

Lemma walk_mono m1 m2 cur (comps : list string) r :
  m1 ⊆ m2 → walk m1 cur comps = Some r → walk m2 cur comps = Some r.
Proof.
  intros Hsub. revert cur. induction comps as [|c comps IH]; intros cur; simpl; [done|].
  destruct (dir_at m1 cur) eqn:Hdir; [|done].
  assert (dir_at m2 cur = true) as ->.
  { unfold dir_at, node_at in *. destruct cur as [|a cur]; [done|].
    destruct (m1 !! (a :: cur)) as [[]|] eqn:E; try done.
    by rewrite (lookup_weaken _ _ _ _ E Hsub). }
  destruct (Str.eqb c ".."); [apply IH|].
  destruct (m1 !! (cur ++ [c])) as [x|] eqn:E; [|done].
  rewrite (lookup_weaken _ _ _ _ E Hsub). apply IH.
Qed.

Lemma stat_mono m1 m2 (p : path) n :
  m1 ⊆ m2 → stat m1 p = Some n → stat m2 p = Some n.
Proof.
  intros Hsub. unfold stat, realpath.
  destruct (walk m1 [] p) as [r|] eqn:Hr; simpl; [|done].
  rewrite (walk_mono _ _ _ _ _ Hsub Hr). simpl.
  unfold node_at. destruct r; [done|]. intros E. by eapply lookup_weaken.
Qed.

Lemma is_file_mono m1 m2 (p : path) :
  m1 ⊆ m2 → is_file m2 p = false → is_file m1 p = false.
Proof.
  intros Hsub. unfold is_file. destruct (stat m1 p) as [[c|]|] eqn:E; try done.
  by rewrite (stat_mono _ _ _ _ Hsub E).
Qed.

(** The sweep of a root never raises unless the root is a regular file. *)
Lemma cleanup_directory_total s (root : path) m :
  is_file m root = false → ∃ m', cleanup_directory s root m = inr m' ∧ m' ⊆ m.
Proof.
  intros Hroot. unfold cleanup_directory.
  destruct (exists_ m root) eqn:Hex; simpl; [|by exists m].
  unfold iterdir, is_file, exists_, stat in *.
  destruct (realpath m root) as [r|]; simpl in *; [|done].
  destruct (node_at m r) as [[]|]; try done.
  eexists. split; [done|]. apply sweep_fold_subseteq.
Qed.

Lemma cleanup_cycle_total s m :
  is_file m (UPLOAD_DIR e) = false → is_file m (CONVERTED_DIR e) = false →
  ∃ m', cleanup_cycle e s m = inr m' ∧ m' ⊆ m.
Proof.
  intros Hup Hconv. unfold cleanup_cycle.
  destruct (cleanup_directory_total s _ m Hup) as (m1 & -> & Hsub1).
  destruct (cleanup_directory_total s (CONVERTED_DIR e) m1) as (m2 & -> & Hsub2).
  { by eapply is_file_mono. }
  exists m2. split; [done|]. by etrans.
Qed.

Lemma cleanup_old_files_total n (s : nat → sweep_env) m :
  is_file m (UPLOAD_DIR e) = false → is_file m (CONVERTED_DIR e) = false →
  ∃ m', cleanup_old_files e n s m = inr m' ∧ m' ⊆ m.
Proof.
  intros Hup Hconv. induction n as [|n (m1 & IH & Hsub)]; simpl; [by exists m|].
  rewrite IH.
  destruct (cleanup_cycle_total (s n) m1) as (m2 & -> & Hsub2);
    [by eapply is_file_mono..|].
  exists m2. split; [done|]. by etrans.
Qed.

Lemma prefixes_same_length {A} (l1 l2 q : list A) :
  l1 `prefix_of` q → l2 `prefix_of` q → length l1 = length l2 → l1 = l2.
Proof.
  intros H1 H2 Hlen.
  destruct (prefix_weak_total _ _ _ H1 H2) as [H|H].
  - apply prefix_length_eq; [done|lia].
  - symmetry. apply prefix_length_eq; [done|lia].
Qed.

Lemma roots_apart (n n' : string) (q : path) :
  UPLOAD_DIR e ++ [n] `prefix_of` q → CONVERTED_DIR e ++ [n'] `prefix_of` q → False.
Proof.
  intros H1 H2. pose proof (prefixes_same_length _ _ _ H1 H2) as E.
  rewrite UPLOAD_DIR_eq, CONVERTED_DIR_eq, <- !app_assoc in E.
  rewrite !length_app in E. specialize (E eq_refl).
  apply app_inv_head in E. discriminate.
Qed.

End sweep_cycle.

Section sweep_theorem.
Context (e : env) (Hbase : ".." ∉ BASE_DIR e).
Implicit Types (m : fs) (s : sweep_env).

Lemma UPLOAD_DIR_no_dotdot : ".." ∉ UPLOAD_DIR e.
Proof.
  rewrite UPLOAD_DIR_eq, elem_of_app, list_elem_of_singleton.
  intros [?|?]; [done|discriminate].
Qed.

Lemma is_dir_agree m1 m2 (p : path) :
  ".." ∉ p → (∀ l, l `prefix_of` p → m1 !! l = m2 !! l) →
  is_dir m2 p = true → is_dir m1 p = true.
Proof.
  intros Hp Hsame. unfold is_dir, stat, realpath.
  rewrite (walk_agree m1 m2 [] p Hp) by (intros l Hl; by apply Hsame).
  destruct (walk m2 [] p) as [r|] eqn:Hr; simpl; [|done].
  apply walk_no_dotdot in Hr as ->; [|done]. simpl.
  unfold node_at. destruct p; [done|]. by rewrite Hsame.
Qed.

(** One turn of the sweeper over two roots that are directories. *)
Lemma cleanup_cycle_spec s m :
  no_dotdot_entries m →
  is_dir m (UPLOAD_DIR e) = true → is_dir m (CONVERTED_DIR e) = true →
  ∃ m', cleanup_cycle e s m = inr m'
    ∧ ∀ root n, root ∈ [UPLOAD_DIR e; CONVERTED_DIR e] →
        is_Some (m !! (root ++ [n])) →
        (swept s (root ++ [n]) = true →
           m' !! (root ++ [n]) = None
           ∧ (m !! (root ++ [n]) = Some Dir →
              ∀ q, root ++ [n] `prefix_of` q → m' !! q = None))
        ∧ (swept s (root ++ [n]) = false →
           ∀ q, root ++ [n] `prefix_of` q → m' !! q = m !! q).
Proof.
  intros Hok Hup Hconv.
  destruct (cleanup_directory_spec s (UPLOAD_DIR e) m UPLOAD_DIR_no_dotdot Hok Hup)
    as (m1 & Hrun1 & Hsub1 & Hkeep1 & Hdel1).
  assert (no_dotdot_entries m1) as Hok1.
  { intros p [x Hp]. apply Hok. exists x. by eapply lookup_weaken. }
  assert (∀ q n, CONVERTED_DIR e ++ [n] `prefix_of` q → m1 !! q = m !! q) as Hconv_same.
  { intros q n Hq. apply Hkeep1. intros n' Hq'. exfalso. by eapply roots_apart. }
  assert (is_dir m1 (CONVERTED_DIR e) = true) as Hconv1.
  { apply (is_dir_agree m1 m); [by apply conv_no_dotdot| |done].
    intros l Hl. apply Hkeep1. intros n' Hq'. exfalso.
    assert (length (UPLOAD_DIR e ++ [n']) ≤ length (CONVERTED_DIR e))%nat as Hlen
      by (apply prefix_length; by etrans).
    rewrite UPLOAD_DIR_eq, CONVERTED_DIR_eq, !length_app in Hlen. simpl in Hlen. lia. }
  destruct (cleanup_directory_spec s (CONVERTED_DIR e) m1 (conv_no_dotdot e Hbase) Hok1 Hconv1)
    as (m2 & Hrun2 & Hsub2 & Hkeep2 & Hdel2).
  exists m2. split; [unfold cleanup_cycle; by rewrite Hrun1|].
  intros root n Hroot Hx.
  apply elem_of_cons in Hroot as [->|Hroot];
    [|apply list_elem_of_singleton in Hroot as ->].
  - (* an entry of the upload root *)
    split.
    + intros Hswept. destruct (Hdel1 n Hx Hswept) as [Hgone Hbelow]. split.
      * by eapply lookup_weaken_None.
      * intros Hd q Hq. eapply lookup_weaken_None; [by apply Hbelow|done].
    + intros Hswept q Hq. rewrite Hkeep2.
      * apply Hkeep1. intros n' Hq'.
        assert (UPLOAD_DIR e ++ [n'] = UPLOAD_DIR e ++ [n]) as E.
        { eapply prefixes_same_length; [done..|]. by rewrite !length_app. }
        by rewrite E.
      * intros n' Hq'. exfalso. by eapply roots_apart.
  - (* an entry of the converted root *)
    assert (m1 !! (CONVERTED_DIR e ++ [n]) = m !! (CONVERTED_DIR e ++ [n])) as Hsame
      by (by eapply Hconv_same).
    split.
    + intros Hswept. destruct (Hdel2 n) as [Hgone Hbelow]; [by rewrite Hsame|done|].
      split; [done|]. intros Hd. apply Hbelow. by rewrite Hsame.
    + intros Hswept q Hq. rewrite Hkeep2.
      * by eapply Hconv_same.
      * intros n' Hq'.
        assert (CONVERTED_DIR e ++ [n'] = CONVERTED_DIR e ++ [n]) as E.
        { eapply prefixes_same_length; [done..|]. by rewrite !length_app. }
        by rewrite E.
Qed.

End sweep_theorem.

(** C9: in one turn of the sweeper over the two roots, a top-level entry
    whose modification time is more than 3600 seconds back is removed
    (with all it contains) unless its deletion is refused; an entry not
    older than the threshold, one whose [stat] raises and one whose
    deletion is refused stay exactly as they were, and none of this
    depends on what happens to the other entries; whatever [stat] and
    the deletions do, no turn raises, so any number of turns completes. *)
Theorem cleanup_sweep e :
  (".." ∉ BASE_DIR e →
   ∀ s m,
     no_dotdot_entries m →
     is_dir m (UPLOAD_DIR e) = true → is_dir m (CONVERTED_DIR e) = true →
     ∃ m', cleanup_cycle e s m = inr m'
       ∧ ∀ root n, root ∈ [UPLOAD_DIR e; CONVERTED_DIR e] →
           let item := root ++ [n] in
           is_Some (m !! item) →
           (∀ mtime, st_mtime s item = Some mtime →
              CLEANUP_AGE_SECONDS < now s - mtime → rm_refused s item = false →
              m' !! item = None
              ∧ (m !! item = Some Dir → ∀ q, item `prefix_of` q → m' !! q = None))
           ∧ (∀ mtime, st_mtime s item = Some mtime →
                now s - mtime ≤ CLEANUP_AGE_SECONDS →
                ∀ q, item `prefix_of` q → m' !! q = m !! q)
           ∧ (st_mtime s item = None ∨ rm_refused s item = true →
              ∀ q, item `prefix_of` q → m' !! q = m !! q))
  ∧ (∀ n (s : nat → sweep_env) m,
       is_file m (UPLOAD_DIR e) = false → is_file m (CONVERTED_DIR e) = false →
       ∃ m', cleanup_old_files e n s m = inr m' ∧ m' ⊆ m).
Proof.
  split; [|intros n s m; apply cleanup_old_files_total].
  intros Hbase s m Hok Hup Hconv.
  destruct (cleanup_cycle_spec e Hbase s m Hok Hup Hconv) as (m' & Hrun & Hspec).
  exists m'. split; [done|]. intros root n Hroot item Hx.
  destruct (Hspec root n Hroot Hx) as [Hdel Hkeep]. fold item in Hdel, Hkeep.
  split; [|split].
  - intros mtime Hst Hold Hrm. apply Hdel. unfold swept. rewrite Hst, Hrm.
    apply Z.ltb_lt in Hold. by rewrite Hold.
  - intros mtime Hst Hyoung. apply Hkeep. unfold swept. rewrite Hst.
    apply Z.ltb_ge in Hyoung. by rewrite Hyoung.
  - intros [Hst|Hrm]; apply Hkeep; unfold swept.
    + by rewrite Hst.
    + destruct (st_mtime s item); [|done]. rewrite Hrm. apply andb_false_r.
Qed.

Section sweep_example.
Import example.

(** [cleanup_sweep] on an installation with an old session, a stale
    archive, a fresh session and an old session whose deletion is refused. *)
Lemma cleanup_sweep_witness :
  ∃ m', cleanup_cycle e0 s0 m3 = inr m'
    ∧ m' !! old_session = None
    ∧ m' !! (old_session ++ ["0a0a0a0a_a.png"]) = None
    ∧ m' !! stale_archive = None
    ∧ m' !! (fresh_session ++ ["0b0b0b0b_b.jpg"])
      = m3 !! (fresh_session ++ ["0b0b0b0b_b.jpg"])
    ∧ m' !! stuck_session = m3 !! stuck_session
    ∧ ∃ m'', cleanup_old_files e0 3 (λ _, s0) m3 = inr m'' ∧ m'' ⊆ m3.
Proof.
  destruct (cleanup_sweep e0) as [Hcycle Hloop].
  destruct (Hcycle ltac:(refine (bool_decide_unpack _ _); vm_compute; exact I) s0 m3)
    as (m' & Hrun & Hspec).
  { apply no_dotdot_entries_checked. refine (bool_decide_unpack _ _).
    vm_compute. exact I. }
  { by_evaluation. }
  { by_evaluation. }
  exists m'. split; [exact Hrun|].
  assert (UPLOAD_DIR e0 ∈ [UPLOAD_DIR e0; CONVERTED_DIR e0]) as Hup by left.
  assert (CONVERTED_DIR e0 ∈ [UPLOAD_DIR e0; CONVERTED_DIR e0]) as Hconv
    by (right; left).
  destruct (Hspec _ "11111111-aaa" Hup) as (Hold & _ & _); [by eexists|].
  pose proof (Hold 1000 ltac:(by_evaluation) ltac:(by_evaluation) ltac:(by_evaluation))
    as [Hgone Hbelow].
  destruct (Hspec _ "FormatWave_11111111-aaa.zip" Hconv) as (Hzip & _ & _); [by eexists|].
  pose proof (Hzip 6399 ltac:(by_evaluation) ltac:(by_evaluation) ltac:(by_evaluation))
    as [Hzgone _].
  destruct (Hspec _ "22222222-bbb" Hconv) as (_ & Hfresh & _); [by eexists|].
  destruct (Hspec _ "33333333-ccc" Hconv) as (_ & _ & Hstuck); [by eexists|].
  split; [exact Hgone|]. split.
  { apply Hbelow; [by_evaluation|]. by apply prefix_app_r. }
  split; [exact Hzgone|]. split.
  { apply (Hfresh 9000 ltac:(by_evaluation)); [by vm_compute|]. by apply prefix_app_r. }
  split.
  { apply Hstuck; [right; by_evaluation|done]. }
  apply Hloop; by_evaluation.
Defined.

End sweep_example.

(** ** File names: stems, suffixes and extensions *)

Section names.
Implicit Types (s t a b : string) (c : ascii).

Lemma string_app_nil_l s : "" +:+ s = s.
Proof. done. Qed.

Lemma string_app_cons c s t : String c s +:+ t = String c (s +:+ t).
Proof. done. Qed.

Lemma string_app_nil_r s : s +:+ "" = s.
Proof.
  induction s as [|x s IH]; [done|]. by rewrite string_app_cons, IH.
Qed.

Lemma rfind_app c a b :
  Str.rfind c (a +:+ b)
  = match Str.rfind c b with
    | Some i => Some (String.length a + i)%nat
    | None => Str.rfind c a
    end.
Proof.
  induction a as [|x a IH].
  - rewrite string_app_nil_l. by destruct (Str.rfind c b).
  - rewrite string_app_cons. cbn [Str.rfind]. rewrite IH.
    by destruct (Str.rfind c b).
Qed.

Lemma rfind_none c s : Str.contains c s = false → Str.rfind c s = None.
Proof.
  induction s as [|x s IH]; simpl; [done|].
  intros [Hx Hs]%orb_false_iff. by rewrite IH, Hx.
Qed.

Lemma take_app_length a b j :
  Str.take (String.length a + j) (a +:+ b) = a +:+ Str.take j b.
Proof.
  unfold Str.take. induction a as [|x a IH]; [done|].
  rewrite !string_app_cons. cbn [String.length Nat.add String.substring].
  by rewrite IH.
Qed.

Lemma substring_app_length a b j k :
  String.substring (String.length a + j) k (a +:+ b) = String.substring j k b.
Proof.
  induction a as [|x a IH]; [done|]. rewrite string_app_cons.
  cbn [String.length Nat.add String.substring]. exact IH.
Qed.

Lemma drop_app_length a b j :
  Str.drop (String.length a + j) (a +:+ b) = Str.drop j b.
Proof.
  unfold Str.drop. rewrite substring_app_length, string_length_app. f_equal. lia.
Qed.

Lemma substring_all s : String.substring 0 (String.length s) s = s.
Proof. induction s as [|x s IH]; simpl; [done|]. by rewrite IH. Qed.

Lemma take_drop s i : Str.take i s +:+ Str.drop i s = s.
Proof.
  unfold Str.take, Str.drop. revert i. induction s as [|x s IH]; intros [|i].
  - done.
  - done.
  - cbn [String.substring]. rewrite string_app_nil_l, Nat.sub_0_r.
    apply (substring_all (String x s)).
  - cbn [String.substring String.length Nat.sub]. by rewrite string_app_cons, IH.
Qed.

(** [Path.stem + Path.suffix == Path.name] *)
Lemma stem_suffix s : stem_of_name s +:+ suffix_of_name s = s.
Proof.
  unfold stem_of_name, suffix_of_name. destruct (Str.rfind "." s) as [i|].
  - destruct (_ && _); [apply take_drop|apply string_app_nil_r].
  - apply string_app_nil_r.
Qed.

Lemma split1_go_first c cur a b :
  Str.contains c a = false →
  Str.split1_go c cur (a +:+ String c b) = [String.rev_app cur a; b].
Proof.
  revert cur. induction a as [|x a IH]; intros cur.
  - intros _. rewrite string_app_nil_l. simpl. by rewrite bool_decide_eq_true_2.
  - intros H. simpl in H. apply orb_false_iff in H as [Hx Hs].
    rewrite string_app_cons. cbn [Str.split1_go]. rewrite Hx. by apply IH.
Qed.

Lemma split1_first c a b :
  Str.contains c a = false → Str.split1 c (a +:+ String c b) = [a; b].
Proof. intros H. unfold Str.split1. by rewrite split1_go_first. Qed.

Lemma lower_ascii_idemp c : Str.lower_ascii (Str.lower_ascii c) = Str.lower_ascii c.
Proof.
  destruct c as [[] [] [] [] [] [] [] []]; vm_compute; reflexivity.
Qed.

Lemma lower_idemp s : Str.lower (Str.lower s) = Str.lower s.
Proof. induction s as [|x s IH]; simpl; [done|]. by rewrite lower_ascii_idemp, IH. Qed.

Lemma lower_app a b : Str.lower (a +:+ b) = Str.lower a +:+ Str.lower b.
Proof.
  induction a as [|x a IH]; [done|].
  rewrite string_app_cons. cbn [Str.lower]. by rewrite string_app_cons, IH.
Qed.

Lemma lower_ascii_dot c : Str.lower_ascii c = "."%char → c = "."%char.
Proof.
  destruct c as [[] [] [] [] [] [] [] []]; vm_compute; intros H; done.
Qed.


End names.

Section display_names.

(** The display name of an output file is its name without the
    [uuid]-token prefix: whatever follows the first underscore. *)
Theorem display_name_strips_token file_name (dir : path) tok rest :
  Str.contains "_" tok = false → Str.contains "." tok = false →
  display_name_of file_name (dir ++ [tok +:+ "_" +:+ rest]) = rest.
Proof.
  intros Hus Hdot. unfold display_name_of. rewrite name_of_snoc.
  set (n := tok +:+ "_" +:+ rest).
  assert (Str.rfind "." n
          = (λ j, (String.length tok + S j)%nat) <$> Str.rfind "." rest) as Hfind.
  { unfold n. rewrite rfind_app. change ("_" +:+ rest) with (String "_" rest).
    cbn [Str.rfind]. destruct (Str.rfind "." rest) as [j|]; [done|]. simpl.
    by apply rfind_none. }
  assert (∀ x, Str.contains "_" (tok +:+ "_" +:+ x) = true
               ∧ Str.split1 "_" (tok +:+ "_" +:+ x) = [tok; x]) as Hsplit.
  { intros x. split; [rewrite contains_app; simpl; by rewrite orb_true_r|].
    by apply split1_first. }
  assert (stem_of_name n = tok +:+ "_" +:+ Str.take 0 rest
          ∧ suffix_of_name n = Str.drop 0 rest ∧ False
          ∨ ∃ x y, stem_of_name n = tok +:+ "_" +:+ x ∧ suffix_of_name n = y
                   ∧ x +:+ y = rest) as [(_ & _ & [])|(x & y & -> & -> & Hxy)].
  { right. unfold stem_of_name, suffix_of_name. rewrite Hfind.
    destruct (Str.rfind "." rest) as [j|]; simpl.
    - destruct (_ && _).
      + exists (Str.take j rest), (Str.drop j rest). split; [|split].
        * unfold n. rewrite take_app_length.
          change ("_" +:+ rest) with (String "_" rest). done.
        * unfold n. rewrite drop_app_length.
          change ("_" +:+ rest) with (String "_" rest).
          unfold Str.drop. cbn [String.substring String.length Nat.sub]. done.
        * apply take_drop.
      + exists rest, "". split; [done|]. split; [done|]. apply string_app_nil_r.
    - exists rest, "". split; [done|]. split; [done|]. apply string_app_nil_r. }
  destruct (Hsplit x) as [-> ->]. done.
Qed.

End display_names.

Section extensions.

(** The extension test looks at the last suffix of the file name only,
    in lower case. *)
Theorem extension_check_ignores_case accepted_exts base ext (content_ : content) :
  Str.contains "/" base = false → Str.contains "/" ext = false →
  Str.contains "." ext = false → base ≠ "" → ext ≠ "" →
  let file := Upload (base +:+ "." +:+ ext) content_ in
  file_ext_of file = Str.lower ext
  ∧ rejected_extension accepted_exts file
    = negb (is_empty accepted_exts)
      && negb (bool_decide (Str.lower ext ∈ accepted_exts)).
Proof.
  intros Hb He Hdot Hbase Hext file.
  assert (file_ext_of file = Str.lower ext) as Hfe.
  { unfold file_ext_of, file. cbn [filename]. set (n := base +:+ "." +:+ ext).
    assert (String.length n = (String.length base + S (String.length ext))%nat) as Hlen
      by (unfold n; by rewrite string_length_app).
    assert (0 < String.length base)%nat as Hb0 by (destruct base; [done|simpl; lia]).
    assert (0 < String.length ext)%nat as He0 by (destruct ext; [done|simpl; lia]).
    assert (name n = n) as Hname.
    { unfold name. rewrite parts_plain; [done| | |].
      - unfold n. rewrite !contains_app, Hb, He. done.
      - intros E. rewrite E in Hlen. simpl in Hlen. lia.
      - intros E. rewrite E in Hlen. simpl in Hlen. lia. }
    unfold suffix. rewrite Hname. unfold suffix_of_name.
    assert (Str.rfind "." n = Some (String.length base + 0)%nat) as ->.
    { unfold n. rewrite rfind_app. change ("." +:+ ext) with (String "." ext).
      cbn [Str.rfind]. by rewrite rfind_none. }
    rewrite Hlen.
    replace ((0 <? String.length base + 0)%nat) with true
      by (symmetry; apply Nat.ltb_lt; lia).
    replace ((String.length base + 0 <? String.length base + S (String.length ext) - 1)%nat)
      with true by (symmetry; apply Nat.ltb_lt; lia).
    cbn [andb]. unfold n. rewrite drop_app_length.
    change ("." +:+ ext) with (String "." ext).
    unfold Str.drop. rewrite Nat.sub_0_r, substring_all.
    cbn [Str.lower]. unfold Str.lstrip_dot. cbn [Str.lstrip_with].
    change (Str.lower_ascii ".") with "."%char.
    rewrite bool_decide_eq_true_2 by done.
    destruct ext as [|c ext]; [done|]. cbn [Str.lower Str.lstrip_with].
    rewrite bool_decide_eq_false_2; [done|]. intros Hc%lower_ascii_dot.
    simpl in Hdot. by rewrite bool_decide_eq_true_2 in Hdot. }
  split; [done|]. unfold rejected_extension. by rewrite Hfe.
Qed.

End extensions.

Section requests.
Context (e : env).


(** Every JSON error answer of [convert_files] has status 400 and is
    given before anything is drawn or written. *)
Theorem convert_files_rejects_without_effect req w status msg w' :
  convert_files e req w = (JsonError status msg, w') → status = 400%nat ∧ w' = w.
Proof.
  unfold convert_files, serve, convert_files_view.
  destruct (resolve_conversion (requested_conversion req)) as [bad|c] eqn:Hres.
  { apply resolve_conversion_bad in Hres as [m ->]. unfold ret.
    by intros [= <- <- <-]. }
  destruct (is_empty _ || forallb _ _); [unfold ret; by intros [= <- <- <-]|].
  destruct (MAX_FILES_PER_BATCH <? _)%nat; [unfold ret; by intros [= <- <- <-]|].
  unfold bind at 1. unfold draw at 1. cbn beta iota.
  unfold bind at 1. destruct (on_fs _ _) as [[?|[]] w1]; [done|].
  unfold bind at 1. destruct (on_fs _ w1) as [[?|[]] w2]; [done|].
  unfold bind at 1. destruct (for_each _ _ _ w2) as [[?|acc] w3]; done.
Qed.

End requests.

Section tables.

(** [get_converter] does not depend on the case of the two formats, and
    what it finds the lookup of [convert_files] finds too. *)
Theorem get_converter_ignores_case from_format to_format :
  get_converter from_format to_format
  = get_converter (Str.lower from_format) (Str.lower to_format)
  ∧ ∀ c, get_converter from_format to_format = Some c →
         lookup_converter (Str.lower from_format) (Str.lower to_format) = Some c.
Proof.
  unfold get_converter. rewrite !lower_idemp. split; [done|].
  intros c H. unfold lookup_converter. by rewrite H.
Qed.

(** The options table and the registry agree: a listed identifier gets
    its own accepted extensions and target extension, it resolves to a
    converter, and the registry holds that converter for every accepted
    extension paired with the target extension; an identifier that is
    not listed gets the empty list and the empty target extension. *)
Theorem options_agree_with_registry :
  (∀ o, o ∈ CONVERSION_OPTIONS →
     get_accepted_extensions (id o) = from_ext o
     ∧ get_target_extension (id o) = to_ext o
     ∧ ∃ c, resolve_conversion (id o) = inr c
            ∧ ∀ ext, ext ∈ from_ext o → CONVERTERS !! (ext, to_ext o) = Some c)
  ∧ (∀ cid, Forall (λ o, id o ≠ cid) CONVERSION_OPTIONS →
       get_accepted_extensions cid = [] ∧ get_target_extension cid = "").
Proof.
  split.
  - intros o Ho. unfold CONVERSION_OPTIONS in Ho.
    repeat (apply elem_of_cons in Ho as [-> | Ho];
            [split; [by_evaluation|]; split; [by_evaluation|];
             eexists; split; [vm_compute; reflexivity|];
             intros ext Hext; cbn [from_ext to_ext] in *;
             repeat (apply elem_of_cons in Hext as [-> | Hext]; [by_evaluation|]);
             by apply elem_of_nil in Hext|]).
    by apply elem_of_nil in Ho.
  - intros cid Hcid.
    assert (List.find (λ o, Str.eqb (id o) cid) CONVERSION_OPTIONS = None) as Hnone.
    { apply find_none_Forall. eapply Forall_impl; [exact Hcid|]. intros o Ho.
      unfold Str.eqb. by apply bool_decide_eq_false_2. }
    unfold get_accepted_extensions, get_target_extension. by rewrite Hnone.
Qed.

End tables.

(** ** What the converters write and raise *)

Section image_outputs.

Lemma handle_transparency_mode target_format img :
  (mode (handle_transparency target_format img) = "RGB"
   ∨ mode (handle_transparency target_format img) = "RGBA")
  ∧ (target_format = "JPEG" → mode (handle_transparency target_format img) = "RGB").
Proof.
  split.
  - unfold handle_transparency.
    repeat match goal with
           | |- context [if ?b then _ else _] => destruct b
           end; auto.
  - intros ->. apply jpeg_policy.
Qed.

Lemma Image_open_reads input_path w :
  (Image_open input_path w).2 = w.
Proof.
  unfold Image_open, bind, get_fs, ret, raise.
  by destruct (read_file (files w) input_path) as [?|[]].
Qed.

Lemma _convert_image_run input_path output_dir target_format target_ext w :
  let output_path :=
    joinpath output_dir (stem_of_name (name_of input_path) +:+ target_ext) in
  let failed e m1 : (exn + list path) * world :=
    (inl (ValueError ("Failed to convert image: " +:+ str_exn e)),
     World m1 (draws w)) in
  _convert_image input_path output_dir target_format target_ext w
  = match mkdir_parents output_dir (files w) with
    | inl e => (inl e, w)
    | inr m1 =>
        match (Image_open input_path (World m1 (draws w))).1 with
        | inl e => failed e m1
        | inr img =>
            match write_file output_path
                    (Picture target_format (handle_transparency target_format img)) m1
            with
            | inl e => failed e m1
            | inr m2 => (inr [output_path], World m2 (draws w))
            end
        end
    end.
Proof.
  intros output_path failed. unfold failed.
  unfold _convert_image. fold output_path.
  unfold bind at 1. unfold on_fs at 1.
  destruct (mkdir_parents output_dir (files w)) as [e|m1]; [done|].
  unfold bind at 1, try_except, bind at 1.
  pose proof (Image_open_reads input_path (World m1 (draws w))) as Hw.
  destruct (Image_open input_path (World m1 (draws w))) as [[e|img] w1];
    simpl in Hw; subst w1; [done|].
  unfold on_fs. cbn [files draws fst].
  by destruct (write_file output_path _ m1).
Qed.

(** A successful image conversion returns one path, [{stem}{ext}] in the
    output directory, and the file there is the decoded source saved in
    the target format with three or four channels (three for JPEG);
    nothing else is drawn.  A failed one raises either the error of
    creating the output directory or a [ValueError] "Failed to convert
    image: ...", and then no output file has been written. *)
Theorem image_converter_outcome input_path output_dir target_format target_ext w :
  let output_path :=
    joinpath output_dir (stem_of_name (name_of input_path) +:+ target_ext) in
  (∀ outs w',
     _convert_image input_path output_dir target_format target_ext w = (inr outs, w') →
     outs = [output_path]
     ∧ draws w' = draws w
     ∧ ∃ m1 img,
         mkdir_parents output_dir (files w) = inr m1
         ∧ Image_open input_path (World m1 (draws w)) = (inr img, World m1 (draws w))
         ∧ stat (files w') output_path
           = Some (File (Picture target_format (handle_transparency target_format img)))
         ∧ (mode (handle_transparency target_format img) = "RGB"
            ∨ mode (handle_transparency target_format img) = "RGBA")
         ∧ (target_format = "JPEG"
            → mode (handle_transparency target_format img) = "RGB"))
  ∧ (∀ ex w',
       _convert_image input_path output_dir target_format target_ext w = (inl ex, w') →
       (mkdir_parents output_dir (files w) = inl ex ∧ w' = w)
       ∨ ∃ m1 cause,
           mkdir_parents output_dir (files w) = inr m1
           ∧ ex = ValueError ("Failed to convert image: " +:+ str_exn cause)
           ∧ w' = World m1 (draws w)).
Proof.
  intros output_path. rewrite _convert_image_run. fold output_path.
  destruct (mkdir_parents output_dir (files w)) as [ex0|m1] eqn:Hmk.
  { split; [done|]. intros ex w' [= <- <-]. by left. }
  pose proof (Image_open_reads input_path (World m1 (draws w))) as Hw.
  destruct (Image_open input_path (World m1 (draws w))) as [[cause|img] w1] eqn:Himg;
    simpl in Hw; subst w1; cbn [fst].
  { split; [done|]. intros ex w' [= <- <-]. right. by exists m1, cause. }
  destruct (write_file output_path _ m1) as [cause|m2] eqn:Hwrite.
  { split; [done|]. intros ex w' [= <- <-]. right. by exists m1, cause. }
  split; [|done]. intros outs w' [= <- <-]. split; [done|]. split; [done|].
  exists m1, img. split; [done|]. split; [done|].
  split; [by apply (stat_after_write _ _ m1)|]. apply handle_transparency_mode.
Qed.

End image_outputs.

Section pdf_failures.



End pdf_failures.

Section read_only_views.
Context (e : env).

(** Preview and download never change the file system; they serve the
    same file and differ only in the attachment flag and name. *)
Theorem preview_and_download_agree sid file_name w :
  (preview_file e sid file_name w).2 = w
  ∧ (download_file e sid file_name w).2 = w
  ∧ (∀ r c a d,
       (preview_file e sid file_name w).1 = FileResponse r c a d →
       a = false ∧ d = None
       ∧ (download_file e sid file_name w).1
         = FileResponse r c true (Some file_name))
  ∧ (∀ r c a d,
       (download_file e sid file_name w).1 = FileResponse r c a d →
       a = true ∧ d = Some file_name
       ∧ (preview_file e sid file_name w).1 = FileResponse r c false None)
  ∧ (∀ status msg,
       (preview_file e sid file_name w).1 = JsonError status msg
       ↔ (download_file e sid file_name w).1 = JsonError status msg).
Proof.
  unfold preview_file, download_file, preview_file_view, download_file_view.
  set (p := joinpath (joinpath (CONVERTED_DIR e) sid) file_name).
  unfold serve, bind, get_fs, send_file, ret, raise.
  destruct (exists_ (files w) p); simpl; [|by repeat split; intros; simplify_eq].
  destruct (read_file (files w) p) as [ex|c], (realpath (files w) p) as [r|]; simpl;
    repeat split; intros; simplify_eq; done.
Qed.

End read_only_views.

(** ** Human-readable sizes *)

Section sizes.

Lemma string_app_assoc (a b c : string) : (a +:+ b) +:+ c = a +:+ (b +:+ c).
Proof.
  induction a as [|x a IH]; [by rewrite !string_app_nil_l|].
  by rewrite !string_app_cons, IH.
Qed.

Lemma fmt_1f_nearest num den :
  0 < den →
  ∃ t, fmt_1f num den = pretty (t / 10) +:+ "." +:+ pretty (t mod 10)
       ∧ Z.abs (10 * num - t * den) * 2 ≤ den.
Proof.
  intros Hden. unfold fmt_1f.
  pose proof (Z.div_mod (10 * num) den ltac:(lia)) as Hdm.
  pose proof (Z.mod_pos_bound (10 * num) den Hden) as Hr.
  set (q := 10 * num / den) in *. set (r := (10 * num) mod den) in *.
  destruct ((den <? 2 * r) || (den =? 2 * r) && Z.odd q) eqn:Hup.
  - exists (q + 1). split; [done|].
    apply orb_true_iff in Hup as [Hup|[Hup _]%andb_true_iff]; lia.
  - exists q. split; [done|].
    apply orb_false_iff in Hup as [Hlt _]. lia.
Qed.

(** [_human_size] prints a size below 2^53 bytes in the smallest unit
    under which it is below 1024 (terabytes at most), rounded to the
    nearest tenth of that unit; a size in bytes is printed exactly. *)
Theorem human_size_rounds num_bytes :
  0 ≤ num_bytes < 2 ^ 53 →
  ∃ (k : nat) (unit : string) (t : Z),
    ["B"; "KB"; "MB"; "GB"; "TB"] !! k = Some unit
    ∧ _human_size num_bytes
      = pretty (t / 10) +:+ "." +:+ pretty (t mod 10) +:+ " " +:+ unit
    ∧ Z.abs (10 * num_bytes - t * 1024 ^ Z.of_nat k) * 2 ≤ 1024 ^ Z.of_nat k
    ∧ (k = 0%nat ∨ 1024 ^ Z.of_nat k ≤ num_bytes)
    ∧ (k = 4%nat ∨ num_bytes < 1024 ^ (Z.of_nat k + 1))
    ∧ (k = 0%nat → t = 10 * num_bytes).
Proof.
  intros Hn. unfold _human_size, human_size_go.
  rewrite (Z.abs_eq num_bytes) by lia.
  assert (∀ k unit den, den = 1024 ^ Z.of_nat k → k ≠ 0%nat →
            ["B"; "KB"; "MB"; "GB"; "TB"] !! k = Some unit →
            1024 ^ Z.of_nat k ≤ num_bytes →
            (k = 4%nat ∨ num_bytes < 1024 ^ (Z.of_nat k + 1)) →
            ∃ (k : nat) (unit' : string) (t : Z),
              ["B"; "KB"; "MB"; "GB"; "TB"] !! k = Some unit'
              ∧ fmt_1f num_bytes den +:+ " " +:+ unit
                = pretty (t / 10) +:+ "." +:+ pretty (t mod 10) +:+ " " +:+ unit'
              ∧ Z.abs (10 * num_bytes - t * 1024 ^ Z.of_nat k) * 2 ≤ 1024 ^ Z.of_nat k
              ∧ (k = 0%nat ∨ 1024 ^ Z.of_nat k ≤ num_bytes)
              ∧ (k = 4%nat ∨ num_bytes < 1024 ^ (Z.of_nat k + 1))
              ∧ (k = 0%nat → t = 10 * num_bytes)) as Hunit.
  { intros k unit den -> Hk Hu Hlo Hhi.
    destruct (fmt_1f_nearest num_bytes (1024 ^ Z.of_nat k)) as (t & Hfmt & Hnear); [lia|].
    exists k, unit, t. rewrite Hfmt, !string_app_assoc.
    repeat split; auto. by intros ->. }
  destruct (num_bytes <? 1024 * 1) eqn:H0.
  { exists 0%nat, "B", (10 * num_bytes). split; [done|]. split.
    - unfold fmt_1f. rewrite !Z.div_1_r, Z.mod_1_r.
      change (1 <? 2 * 0) with false. change (1 =? 2 * 0) with false. cbn [orb andb].
      by rewrite !string_app_assoc.
    - repeat split; auto; lia. }
  destruct (num_bytes <? 1024 * (1 * 1024)) eqn:H1.
  { apply (Hunit 1%nat); [done|done|done|lia|right; lia]. }
  destruct (num_bytes <? 1024 * (1 * 1024 * 1024)) eqn:H2.
  { apply (Hunit 2%nat); [done|done|done|lia|right; lia]. }
  destruct (num_bytes <? 1024 * (1 * 1024 * 1024 * 1024)) eqn:H3.
  { apply (Hunit 3%nat); [done|done|done|lia|right; lia]. }
  apply (Hunit 4%nat); [done|done|done|lia|by left].
Qed.

End sizes.

(** ** What the sweeper leaves alone *)

Section sweep_frame.
Context (e : env) (Hbase : ".." ∉ BASE_DIR e).

Lemma root_not_below_roots (root l : path) n :
  root ∈ [UPLOAD_DIR e; CONVERTED_DIR e] → l `prefix_of` root →
  ¬ UPLOAD_DIR e ++ [n] `prefix_of` l ∧ ¬ CONVERTED_DIR e ++ [n] `prefix_of` l.
Proof.
  intros Hroot Hl.
  assert (length l ≤ length (BASE_DIR e) + 1)%nat as Hlen.
  { apply prefix_length in Hl.
    apply elem_of_cons in Hroot as [->|Hroot];
      [|apply list_elem_of_singleton in Hroot as ->];
      rewrite ?UPLOAD_DIR_eq, ?CONVERTED_DIR_eq, length_app in Hl; simpl in Hl; lia. }
  split; intros Hp%prefix_length;
    rewrite ?UPLOAD_DIR_eq, ?CONVERTED_DIR_eq, !length_app in Hp; simpl in Hp; lia.
Qed.

Lemma cleanup_cycle_frame s m :
  no_dotdot_entries m →
  is_dir m (UPLOAD_DIR e) = true → is_dir m (CONVERTED_DIR e) = true →
  ∃ m', cleanup_cycle e s m = inr m' ∧ m' ⊆ m
    ∧ (∀ q, (∀ n, ¬ UPLOAD_DIR e ++ [n] `prefix_of` q) →
            (∀ n, ¬ CONVERTED_DIR e ++ [n] `prefix_of` q) → m' !! q = m !! q)
    ∧ no_dotdot_entries m'
    ∧ is_dir m' (UPLOAD_DIR e) = true ∧ is_dir m' (CONVERTED_DIR e) = true.
Proof.
  intros Hok Hup Hconv.
  destruct (cleanup_directory_spec s (UPLOAD_DIR e) m (UPLOAD_DIR_no_dotdot e Hbase) Hok Hup)
    as (m1 & Hrun1 & Hsub1 & Hkeep1 & _).
  assert (no_dotdot_entries m1) as Hok1.
  { intros p [x Hp]. apply Hok. exists x. by eapply lookup_weaken. }
  assert (∀ root, root ∈ [UPLOAD_DIR e; CONVERTED_DIR e] →
            ∀ m1 m2, (∀ q, (∀ n, ¬ UPLOAD_DIR e ++ [n] `prefix_of` q) →
                           (∀ n, ¬ CONVERTED_DIR e ++ [n] `prefix_of` q) →
                           m1 !! q = m2 !! q) →
            is_dir m2 root = true → is_dir m1 root = true) as Hroots.
  { intros root Hroot ma mb Hsame. apply is_dir_agree.
    - apply elem_of_cons in Hroot as [->|Hroot];
        [|apply list_elem_of_singleton in Hroot as ->];
        [by apply UPLOAD_DIR_no_dotdot|by apply conv_no_dotdot].
    - intros l Hl. apply Hsame; intros n; by eapply root_not_below_roots. }
  assert (∀ q, (∀ n, ¬ UPLOAD_DIR e ++ [n] `prefix_of` q) → m1 !! q = m !! q) as Hout1.
  { intros q Hq. apply Hkeep1. intros n Hn. by destruct (Hq n). }
  assert (is_dir m1 (CONVERTED_DIR e) = true) as Hconv1.
  { apply (Hroots (CONVERTED_DIR e) ltac:(set_solver) m1 m); [|done]. intros q Hq _. by apply Hout1. }
  destruct (cleanup_directory_spec s (CONVERTED_DIR e) m1 (conv_no_dotdot e Hbase) Hok1 Hconv1)
    as (m2 & Hrun2 & Hsub2 & Hkeep2 & _).
  assert (∀ q, (∀ n, ¬ UPLOAD_DIR e ++ [n] `prefix_of` q) →
               (∀ n, ¬ CONVERTED_DIR e ++ [n] `prefix_of` q) → m2 !! q = m !! q) as Hout.
  { intros q Hq1 Hq2. rewrite Hkeep2; [by apply Hout1|].
    intros n Hn. by destruct (Hq2 n). }
  exists m2. split; [unfold cleanup_cycle; by rewrite Hrun1|].
  split; [by etrans|]. split; [done|]. split.
  { intros p [x Hp]. apply Hok1. exists x. by eapply lookup_weaken. }
  split; [apply (Hroots (UPLOAD_DIR e) ltac:(set_solver) m2 m)
         |apply (Hroots (CONVERTED_DIR e) ltac:(set_solver) m2 m)]; done.
Qed.

(** However long the cleanup thread runs, it never raises and touches
    only what lies strictly below the two roots: the roots stay
    directories, and every entry that is not below an entry of a root
    is as it was. *)
Theorem cleanup_confined_to_roots (n : nat) (s : nat → sweep_env) m :
  no_dotdot_entries m →
  is_dir m (UPLOAD_DIR e) = true → is_dir m (CONVERTED_DIR e) = true →
  ∃ m', cleanup_old_files e n s m = inr m'
    ∧ m' ⊆ m
    ∧ is_dir m' (UPLOAD_DIR e) = true ∧ is_dir m' (CONVERTED_DIR e) = true
    ∧ ∀ q, (∀ name, ¬ UPLOAD_DIR e ++ [name] `prefix_of` q) →
           (∀ name, ¬ CONVERTED_DIR e ++ [name] `prefix_of` q) →
           m' !! q = m !! q.
Proof.
  intros Hok Hup Hconv.
  enough (∃ m', cleanup_old_files e n s m = inr m' ∧ m' ⊆ m
            ∧ (∀ q, (∀ name, ¬ UPLOAD_DIR e ++ [name] `prefix_of` q) →
                    (∀ name, ¬ CONVERTED_DIR e ++ [name] `prefix_of` q) →
                    m' !! q = m !! q)
            ∧ no_dotdot_entries m'
            ∧ is_dir m' (UPLOAD_DIR e) = true ∧ is_dir m' (CONVERTED_DIR e) = true)
    as (m' & ? & ? & ? & ? & ? & ?) by (by exists m').
  induction n as [|n (m1 & Hrun & Hsub & Hout & Hok1 & Hup1 & Hconv1)]; cbn [cleanup_old_files].
  { by exists m. }
  rewrite Hrun.
  destruct (cleanup_cycle_frame (s n) m1 Hok1 Hup1 Hconv1)
    as (m2 & Hrun2 & Hsub2 & Hout2 & Hok2 & Hup2 & Hconv2).
  exists m2. split; [done|]. split; [by etrans|]. split; [|done].
  intros q Hq1 Hq2. rewrite Hout2 by done. by apply Hout.
Qed.

End sweep_frame.

(** ** What a batch result says about the uploads *)

Section entries.
Context (e : env) (converter_ : converter) (accepted_exts : list string)
  (sid : string) (session_upload_dir session_output_dir : path).

Abbreviation acc_ty := (list result_entry * list error_entry)%type.
Abbreviation loop_body := (process_file e converter_ accepted_exts sid
                             session_upload_dir session_output_dir).

(** An entry of [results] made for [file] in session [sid]. *)
Abbreviation entry_of file x :=
  (original_name x = filename file
   ∧ download_url x = "/api/download/" +:+ sid +:+ "/" +:+ file_id x
   ∧ preview_url x
     = (if previewable x
        then Some ("/api/preview/" +:+ sid +:+ "/" +:+ file_id x) else None)
   ∧ size_human x = _human_size (size x)).

Lemma append_results_entries file m outs results results' failure :
  append_results e sid file m outs results = (results', failure) →
  ∃ rs, results' = results ++ rs ∧ Forall (λ x, entry_of file x) rs.
Proof.
  revert results. induction outs as [|o outs IH]; intros results; simpl.
  - intros [= <- <-]. exists []. by rewrite app_nil_r.
  - destruct (stat m o) as [n|].
    + intros (rs & -> & Hrs)%IH. exists (result_of e sid file o n :: rs).
      split; [by rewrite <- app_assoc|]. by constructor.
    + intros [= <- <-]. exists []. by rewrite app_nil_r.
Qed.

Lemma convert_one_entries upload_path file (acc acc' : acc_ty) w w' :
  convert_one e converter_ sid session_output_dir upload_path file acc w
  = (inr acc', w') →
  ∃ rs es, acc' = (acc.1 ++ rs, acc.2 ++ es)
    ∧ Forall (λ x, entry_of file x) rs
    ∧ (es = [] ∨ ∃ msg, es = [Error (filename file) msg]).
Proof.
  unfold convert_one, bind, try_except, ret, get_fs.
  destruct (call converter_ upload_path session_output_dir w) as [[ex|outs] w1].
  - intros [= <- <-]. exists [], [Error (filename file) (str_exn ex)].
    rewrite app_nil_r. split; [done|]. split; [done|]. right. by eexists.
  - destruct (append_results e sid file (files w1) outs acc.1) as [results' failure] eqn:Happ.
    apply append_results_entries in Happ as (rs & -> & Hrs).
    destruct failure as [ex|]; intros [= <- <-].
    + exists rs, [Error (filename file) (str_exn ex)].
      split; [done|]. split; [done|]. right. by eexists.
    + exists rs, []. rewrite app_nil_r. split; [done|]. split; [done|]. by left.
Qed.

Lemma process_file_entries file (acc acc' : acc_ty) w w' :
  loop_body file acc w = (inr acc', w') →
  ∃ rs es, acc' = (acc.1 ++ rs, acc.2 ++ es)
    ∧ Forall (λ x, entry_of file x) rs
    ∧ (es = [] ∨ ∃ msg, es = [Error (filename file) msg])
    ∧ (filename file = "" → rs = [] ∧ es = []).
Proof.
  destruct (decide (filename file = "")) as [Hname|Hname].
  { rewrite process_file_empty by done. intros [= <- <-]. exists [], [].
    rewrite !app_nil_r. split; [by destruct acc|]. split; [done|]. split; [by left|done]. }
  destruct (rejected_extension accepted_exts file) eqn:Hrej.
  { rewrite process_file_rejected by done. intros [= <- <-].
    exists [], [invalid_type_error file accepted_exts]. rewrite app_nil_r.
    split; [done|]. split; [done|]. split; [right; by eexists|done]. }
  destruct (write_file (upload_path_of e session_upload_dir file w) (body file) (files w))
    as [ex|m'] eqn:Hw.
  { by rewrite (process_file_save_failed _ _ _ _ _ _ _ _ _ ex). }
  rewrite (process_file_saved _ _ _ _ _ _ _ _ _ m') by done.
  destruct (MAX_FILE_SIZE <? st_size e (body file)).
  - destruct (unlink _ m'); [done|]. intros [= <- <-].
    exists [], [too_large_error file]. rewrite app_nil_r.
    split; [done|]. split; [done|]. split; [right; by eexists|done].
  - intros (rs & es & -> & Hrs & Hes)%convert_one_entries.
    exists rs, es. by repeat split.
Qed.

Lemma for_each_entries files_ (acc acc' : acc_ty) w w' :
  for_each files_ loop_body acc w = (inr acc', w') →
  ∃ rs es, acc' = (acc.1 ++ rs, acc.2 ++ es)
    ∧ Forall (λ x, ∃ file, file ∈ files_ ∧ filename file ≠ "" ∧ entry_of file x) rs
    ∧ err_filename <$> es `sublist_of` filename <$> files_
    ∧ Forall (λ x, err_filename x ≠ "") es.
Proof.
  revert acc w. induction files_ as [|file files_ IH]; intros acc w; cbn [for_each].
  { intros [= <- <-]. exists [], []. rewrite !app_nil_r. by destruct acc. }
  unfold bind. destruct (loop_body file acc w) as [[ex|acc1] w1] eqn:Hstep; [done|].
  apply process_file_entries in Hstep as (rs1 & es1 & -> & Hrs1 & Hes1 & Hnone).
  intros (rs & es & -> & Hrs & Hsub & Hes)%IH. cbn [fst snd].
  exists (rs1 ++ rs), (es1 ++ es). rewrite !app_assoc. split; [done|].
  assert (filename file ≠ "" ∨ (rs1 = [] ∧ es1 = [])) as Hnamed.
  { destruct (decide (filename file = "")); [right|left]; auto. }
  split; [|split].
  - apply Forall_app. split.
    + destruct Hnamed as [Hname|[-> _]]; [|done].
      eapply Forall_impl; [exact Hrs1|]. intros x Hx. exists file.
      split; [by left|done].
    + eapply Forall_impl; [exact Hrs|]. intros x (f & Hf & Hx). exists f.
      split; [by right|done].
  - rewrite fmap_app, fmap_cons.
    destruct Hes1 as [->|[msg ->]]; simpl.
    + by apply sublist_cons.
    + by apply sublist_skip.
  - apply Forall_app. split; [|done].
    destruct Hnamed as [Hname|[_ ->]]; [|done].
    destruct Hes1 as [->|[msg ->]]; [done|]. by repeat constructor.
Qed.

End entries.

Section batch_entries.
Context (e : env).

(** In a batch result the session is the one drawn for the request;
    every result is made for a named upload of the request and carries
    the preview and download links of its own file in that session;
    the errors name uploads of the request in upload order, each at
    most once; the archive link is present exactly when there is a
    result. *)
Theorem batch_entries_name_uploads req w r w' :
  convert_files e req w = (JsonBatch r, w') →
  session_id r = session_id_of (uuid4_hex e (draws w))
  ∧ Forall (λ x, original_name x ≠ ""
                 ∧ original_name x ∈ filename <$> request_files req
                 ∧ download_url x
                   = "/api/download/" +:+ session_id r +:+ "/" +:+ file_id x
                 ∧ preview_url x
                   = (if previewable x
                      then Some ("/api/preview/" +:+ session_id r +:+ "/" +:+ file_id x)
                      else None)
                 ∧ size_human x = _human_size (size x)) (results r)
  ∧ err_filename <$> errors r `sublist_of` filename <$> request_files req
  ∧ Forall (λ x, err_filename x ≠ "") (errors r)
  ∧ (download_all_url r = None ↔ results r = []).
Proof.
  intros (c & acc & w1 & Hc & Hloop & ->)%convert_files_batch.
  apply for_each_entries in Hloop as (rs & es & -> & Hrs & Hsub & Hes).
  cbn [batch_of session_id results errors download_all_url fst snd app].
  split; [done|]. split; [|split; [done|split; [done|]]].
  - eapply Forall_impl; [exact Hrs|].
    intros x (file & Hfile & Hname & Horig & Hurl & Hprev & Hsize).
    rewrite Horig. split; [done|]. split; [|done].
    apply list_elem_of_fmap. by exists file.
  - by destruct rs.
Qed.

End batch_entries.

(** ** An archive request for something that is not a session *)

Section archive_of_a_file.
Context (e : env) (sid : string).
Context (Hbase : ".." ∉ BASE_DIR e) (Hsid : plain_name sid).


End archive_of_a_file.

(** ** Conversion identifiers *)

Section identifiers.

Lemma split_go_no_hyphen cur s :
  Str.contains "-" s = false → Str.split_go "-to-" 0 cur s = [String.rev_app cur s].
Proof.
  revert cur. induction s as [|a s IH]; intros cur; simpl; [done|].
  intros [Ha Hs]%orb_false_iff. apply bool_decide_eq_false in Ha.
  rewrite bool_decide_eq_false_2 by congruence. simpl. by rewrite IH.
Qed.

Lemma split_go_hyphenated cur from_part to_part :
  Str.contains "-" from_part = false → Str.contains "-" to_part = false →
  Str.split_go "-to-" 0 cur (from_part +:+ "-to-" +:+ to_part)
  = [String.rev_app cur from_part; to_part].
Proof.
  intros Hfrom Hto. revert cur Hfrom.
  induction from_part as [|a s IH]; intros cur Hfrom.
  - rewrite string_app_nil_l. rewrite !string_app_cons, string_app_nil_l.
    cbn. by rewrite split_go_no_hyphen.
  - simpl in Hfrom. apply orb_false_iff in Hfrom as [Ha Hs].
    apply bool_decide_eq_false in Ha.
    rewrite string_app_cons. cbn [Str.split_go Str.starts_with].
    rewrite bool_decide_eq_false_2 by congruence. cbn [andb].
    by rewrite IH.
Qed.

Lemma split_hyphenated from_part to_part :
  Str.contains "-" from_part = false → Str.contains "-" to_part = false →
  Str.split "-to-" (from_part +:+ "-to-" +:+ to_part) = [from_part; to_part].
Proof. intros. unfold Str.split. by rewrite split_go_hyphenated. Qed.

Lemma lower_ascii_hyphen c : Str.lower_ascii c = "-"%char ↔ c = "-"%char.
Proof.
  split; [|by intros ->].
  destruct c as [[] [] [] [] [] [] [] []]; by vm_compute.
Qed.

Lemma contains_hyphen_lower s :
  Str.contains "-" (Str.lower s) = Str.contains "-" s.
Proof.
  induction s as [|a s IH]; [done|]. cbn [Str.lower Str.contains]. rewrite IH.
  f_equal. apply bool_decide_ext, lower_ascii_hyphen.
Qed.

Lemma resolve_hyphenated from_part to_part :
  Str.contains "-" from_part = false → Str.contains "-" to_part = false →
  resolve_conversion (from_part +:+ "-to-" +:+ to_part)
  = match lookup_converter (Str.lower from_part) (Str.lower to_part) with
    | Some c => inr c
    | None =>
        inl (JsonError 400
               ("Unsupported conversion: " +:+ Str.lower from_part +:+ " → "
                  +:+ Str.lower to_part))
    end.
Proof.
  intros Hfrom Hto. unfold resolve_conversion.
  rewrite split_hyphenated by done.
  unfold Str.eqb. rewrite bool_decide_eq_false_2; [done|].
  intros E. apply (f_equal String.length) in E.
  rewrite !string_length_app in E. simpl in E. lia.
Qed.

(** An identifier [a-to-b] whose two parts hold no hyphen is resolved
    by the lower-cased pair alone, while the accepted extensions are
    looked up under the identifier as written: an identifier that
    differs from a listed one only in case selects the same converter
    but gets no accepted extensions; an identifier without a hyphen is
    answered "Invalid conversion_id". *)
Theorem conversion_id_case from_part to_part :
  Str.contains "-" from_part = false → Str.contains "-" to_part = false →
  let cid := from_part +:+ "-to-" +:+ to_part in
  resolve_conversion cid = resolve_conversion (Str.lower cid)
  ∧ (∀ o, o ∈ CONVERSION_OPTIONS → Str.lower cid = id o → cid ≠ id o →
       get_accepted_extensions cid = []
       ∧ get_accepted_extensions (Str.lower cid) = from_ext o)
  ∧ (from_part ≠ "" →
     resolve_conversion from_part
     = inl (JsonError 400 ("Invalid conversion_id: " +:+ from_part))).
Proof.
  intros Hfrom Hto cid. split; [|split].
  - unfold cid. rewrite !lower_app.
    change (Str.lower "-to-") with "-to-".
    rewrite !resolve_hyphenated by (by rewrite ?contains_hyphen_lower).
    by rewrite !lower_idemp.
  - intros o Ho Hlow Hne. split.
    + assert (List.find (λ o', Str.eqb (id o') cid) CONVERSION_OPTIONS = None) as Hnone.
      { apply find_none_Forall. apply Forall_forall. intros o' Ho'.
        unfold Str.eqb. apply bool_decide_eq_false_2. intros E.
        apply Hne. rewrite <- Hlow, <- E.
        clear -Ho'. unfold CONVERSION_OPTIONS in Ho'.
        repeat (apply elem_of_cons in Ho' as [-> | Ho']; [by_evaluation|]).
        by apply elem_of_nil in Ho'. }
      unfold get_accepted_extensions. by rewrite Hnone.
    + rewrite Hlow. clear -Ho. unfold CONVERSION_OPTIONS in Ho.
      repeat (apply elem_of_cons in Ho as [-> | Ho]; [by_evaluation|]).
      by apply elem_of_nil in Ho.
  - intros Hne. unfold resolve_conversion, Str.eqb.
    rewrite bool_decide_eq_false_2 by done.
    unfold Str.split. by rewrite split_go_no_hyphen.
Qed.

End identifiers.

(** ** The extension of what a registered converter writes *)

Section output_names.

Lemma suffix_of_name_app stem ext :
  stem ≠ "" → Str.contains "." ext = false → ext ≠ "" →
  suffix_of_name (stem +:+ "." +:+ ext) = "." +:+ ext.
Proof.
  intros Hstem Hext Hne. unfold suffix_of_name.
  rewrite rfind_app. rewrite string_app_cons, string_app_nil_l.
  cbn [Str.rfind]. rewrite (rfind_none _ _ Hext).
  rewrite bool_decide_eq_true_2 by done.
  rewrite string_length_app. cbn [String.length].
  assert (0 < String.length stem)%nat as Hlen by (destruct stem; [done|simpl; lia]).
  assert (0 < String.length ext)%nat as Hlen' by (destruct ext; [done|simpl; lia]).
  rewrite (proj2 (Nat.ltb_lt _ _)) by lia.
  rewrite (proj2 (Nat.ltb_lt _ _)) by lia. cbn [andb].
  rewrite drop_app_length.
  unfold Str.drop. rewrite Nat.sub_0_r.
  apply substring_all.
Qed.

Lemma registry_entries from_format to_format c :
  CONVERTERS !! (from_format, to_format) = Some c →
  (to_format = "png"
   ∧ c ∈ [Convert_pdf_to_png; Convert_webp_to_png; Convert_jpg_to_png;
          Convert_bmp_to_png; Convert_tiff_to_png])
  ∨ (to_format = "webp" ∧ c = Convert_png_to_webp)
  ∨ (to_format = "jpg" ∧ c = Convert_png_to_jpg).
Proof.
  unfold CONVERTERS. intros H%elem_of_list_to_map_2.
  repeat (apply elem_of_cons in H as [[= -> -> ->] | H];
          [first [left; split; [done|set_solver]
                 |right; left; by split
                 |right; right; by split]|]).
  by apply elem_of_nil in H.
Qed.

Lemma image_output_name input_path output_dir tf ext w outs w' :
  Str.contains "/" (name_of input_path) = false →
  stem_of_name (name_of input_path) ≠ "" →
  Str.contains "." ext = false → Str.contains "/" ext = false → ext ≠ "" →
  _convert_image input_path output_dir tf ("." +:+ ext) w = (inr outs, w') →
  Forall (λ p, suffix_of_name (name_of p) = "." +:+ ext) outs.
Proof.
  intros Hname Hstem Hdot Hslash Hext Hrun.
  rewrite _convert_image_run in Hrun.
  destruct (mkdir_parents output_dir (files w)) as [?|m1]; [done|].
  destruct (Image_open input_path _).1 as [?|img]; [done|].
  destruct (write_file _ _ m1) as [?|m2]; [done|]. injection Hrun as <- <-.
  repeat constructor. rewrite joinpath_plain.
  - rewrite name_of_snoc. by apply suffix_of_name_app.
  - rewrite !contains_app, Hslash. rewrite stem_of_name_plain by done. done.
  - intros E. apply (f_equal String.length) in E.
    rewrite !string_length_app in E. simpl in E. lia.
  - intros E. apply (f_equal String.length) in E.
    rewrite !string_length_app in E. destruct ext; [done|]. simpl in E. lia.
Qed.

Lemma stem_of_name_nonempty n : n ≠ "" → stem_of_name n ≠ "".
Proof.
  intros Hn. unfold stem_of_name.
  destruct (Str.rfind "." n) as [i|]; [|done].
  destruct (_ && _)%nat eqn:Hi; [|done].
  apply andb_true_iff in Hi as [Hi%Nat.ltb_lt _].
  destruct n as [|a n]; [done|]. destruct i as [|i]; [lia|]. done.
Qed.

Lemma suffix_of_page_filename stem k :
  suffix_of_name (page_filename stem k) = ".png".
Proof.
  unfold page_filename.
  rewrite <- !string_app_assoc.
  change ((stem +:+ "_page_") +:+ Str.fmt_03d (k + 1) +:+ ".png")
    with (((stem +:+ "_page_") +:+ Str.fmt_03d (k + 1)) +:+ "." +:+ "png").
  apply suffix_of_name_app; [|done..].
  intros E. apply (f_equal String.length) in E.
  rewrite !string_length_app in E. simpl in E. lia.
Qed.

(** What a registered converter writes carries the target extension
    of its registry key, and with it is previewable: for an input with
    a name, every path returned by the converter registered for
    [(from_format, to_format)] has the suffix [.to_format], one of the
    suffixes [convert_files] offers a preview for. *)
Theorem registered_output_previewable from_format to_format c
    input_path output_dir w outs w' :
  CONVERTERS !! (from_format, to_format) = Some c →
  Str.contains "/" (name_of input_path) = false → name_of input_path ≠ "" →
  call c input_path output_dir w = (inr outs, w') →
  Forall (λ p, suffix_of_name (name_of p) = "." +:+ to_format
               ∧ is_previewable_path p = true) outs.
Proof.
  intros Hreg Hname Hne Hcall.
  pose proof (stem_of_name_nonempty _ Hne) as Hstem.
  assert (∀ ext, ext ∈ ["png"; "webp"; "jpg"] →
            Forall (λ p, suffix_of_name (name_of p) = "." +:+ ext) outs →
            Forall (λ p, suffix_of_name (name_of p) = "." +:+ ext
                         ∧ is_previewable_path p = true) outs) as Hprev.
  { intros ext Hext Hall. eapply Forall_impl; [exact Hall|]. intros p Hp.
    cbn beta in Hp |- *. split; [done|].
    unfold is_previewable_path. rewrite Hp. clear -Hext.
    repeat (apply elem_of_cons in Hext as [-> | Hext]; [by_evaluation|]).
    by apply elem_of_nil in Hext. }
  apply registry_entries in Hreg as [[-> Hc]|[[-> ->]|[-> ->]]].
  - apply Hprev; [set_solver|].
    apply elem_of_cons in Hc as [-> | Hc].
    { cbn [call] in Hcall. unfold convert_pdf_to_png, convert_pdf_to_png_dpi in Hcall.
      unfold bind at 1 in Hcall.
      destruct (on_fs (mkdir_parents output_dir) w) as [[?|[]] w1]; [done|].
      unfold bind at 1 in Hcall.
      destruct (try_except _ _ w1) as [[?|doc] w2]; [done|].
      apply render_loop in Hcall as (-> & _); [|by apply stem_of_name_plain].
      cbn [app].
      apply Forall_fmap, Forall_forall. intros k _. unfold compose. cbn beta.
      rewrite name_of_snoc. apply suffix_of_page_filename. }
    repeat (apply elem_of_cons in Hc as [-> | Hc];
            [by apply (image_output_name input_path output_dir "PNG" "png" w outs w')|]).
    by apply elem_of_nil in Hc.
  - apply Hprev; [set_solver|].
    by apply (image_output_name input_path output_dir "WEBP" "webp" w outs w').
  - apply Hprev; [set_solver|].
    by apply (image_output_name input_path output_dir "JPEG" "jpg" w outs w').
Qed.

End output_names.

(** ** Pages written before a PDF conversion fails *)

Section partial_rendering.
Context (doc : list bool) (stem : string) (output_dir : path) (zoom : QArith_base.Q).
Context (Hstem : Str.contains "/" stem = false).

Abbreviation page_at k := (output_dir ++ [page_filename stem k]).

Abbreviation render_one :=
  (λ (page_num : nat) (converted_files : list path),
     pix ← get_pixmap doc page_num zoom;
     let output_filename := page_filename stem page_num in
     let output_path := joinpath output_dir output_filename in
     on_fs (write_file output_path pix);;
     ret (converted_files ++ [output_path])).




End partial_rendering.

Section pdf_partial_output.


End pdf_partial_output.

(** ** The links of a batch result *)

Section directories.
Implicit Types (m : fs) (p cur : path).

Lemma node_at_snoc m p (n : string) : node_at m (p ++ [n]) = m !! (p ++ [n]).
Proof. unfold node_at. by destruct p. Qed.

Lemma dir_at_mono m1 m2 cur : m1 ⊆ m2 → dir_at m1 cur = true → dir_at m2 cur = true.
Proof.
  intros Hsub. unfold dir_at, node_at. destruct cur as [|a cur]; [done|].
  destruct (m1 !! (a :: cur)) as [[]|] eqn:E; try done.
  by rewrite (lookup_weaken _ _ _ _ E Hsub).
Qed.

(** [mkdir(parents=True, exist_ok=True)] on a directory that exists
    changes nothing. *)
Lemma mkdir_go_existing m (comps : list string) : ∀ cur r,
  ".." ∉ comps → walk m cur comps = Some r → dir_at m r = true →
  mkdir_go cur comps m = inr m.
Proof.
  induction comps as [|c comps IH]; intros cur r Hdd; simpl; [done|].
  apply not_elem_of_cons in Hdd as [Hc Hdd].
  destruct (dir_at m cur); [|done].
  unfold Str.eqb. rewrite bool_decide_eq_false_2 by done.
  destruct (m !! (cur ++ [c])) as [x|] eqn:Hx; [|done].
  intros Hwalk Hdir.
  assert (x = Dir) as ->.
  { destruct comps as [|c' comps].
    - simpl in Hwalk. injection Hwalk as <-. unfold dir_at, node_at in Hdir.
      destruct (cur ++ [c]) eqn:E; [by destruct cur|]. rewrite Hx in Hdir.
      by destruct x.
    - simpl in Hwalk. unfold dir_at at 1, node_at in Hwalk.
      destruct (cur ++ [c]) eqn:E; [by destruct cur|]. rewrite Hx in Hwalk.
      by destruct x. }
  by eapply IH.
Qed.

Lemma mkdir_parents_existing m p :
  ".." ∉ p → is_dir m p = true → mkdir_parents p m = inr m.
Proof.
  intros Hp Hdir. destruct (is_dir_plain m p Hp Hdir) as [Hr Hd].
  by apply (mkdir_go_existing m p [] p).
Qed.

(** ... and otherwise creates what is missing, leaving every entry
    there is as it is. *)
Lemma mkdir_go_creates (comps : list string) : ∀ m cur m',
  ".." ∉ comps → dir_at m cur = true → mkdir_go cur comps m = inr m' →
  walk m' cur comps = Some (cur ++ comps) ∧ dir_at m' (cur ++ comps) = true ∧ m ⊆ m'.
Proof.
  induction comps as [|c comps IH]; intros m cur m' Hdd Hcur; simpl.
  { intros [= <-]. by rewrite app_nil_r. }
  apply not_elem_of_cons in Hdd as [Hc Hdd].
  unfold Str.eqb. rewrite bool_decide_eq_false_2 by done.
  assert (∀ m1, m ⊆ m1 → m1 !! (cur ++ [c]) = Some Dir →
            mkdir_go (cur ++ [c]) comps m1 = inr m' →
            (if dir_at m' cur
             then match m' !! (cur ++ [c]) with
                  | Some _ => walk m' (cur ++ [c]) comps
                  | None => None
                  end
             else None) = Some (cur ++ c :: comps)
            ∧ dir_at m' (cur ++ c :: comps) = true ∧ m ⊆ m') as Hstep.
  { intros m1 Hsub Hnew Hgo.
    destruct (IH m1 (cur ++ [c]) m' Hdd) as (Hwalk & Hdir & Hsub'); [|done|].
    { unfold dir_at, node_at. destruct (cur ++ [c]) eqn:E; [by destruct cur|].
      by rewrite Hnew. }
    rewrite <- app_assoc in Hwalk, Hdir. cbn [app] in Hwalk, Hdir.
    rewrite (dir_at_mono m m' cur) by (done || by etrans).
    rewrite (lookup_weaken _ _ _ _ Hnew Hsub').
    split; [done|]. split; [done|by etrans]. }
  destruct (m !! (cur ++ [c])) as [[x|]|] eqn:Hx.
  - intros Hgo. discriminate Hgo.
  - by apply Hstep.
  - apply Hstep; [by apply insert_subseteq|by rewrite lookup_insert_eq].
Qed.

Lemma mkdir_parents_creates m p m' :
  ".." ∉ p → mkdir_parents p m = inr m' → is_dir m' p = true ∧ m ⊆ m'.
Proof.
  intros Hp Hmk. destruct (mkdir_go_creates p m [] m' Hp eq_refl Hmk) as (Hw & Hd & Hsub).
  split; [|done]. unfold is_dir, stat, realpath. rewrite Hw.
  cbn [app mbind option_bind] in Hd |- *.
  unfold dir_at in Hd. by destruct (node_at m' p) as [[]|].
Qed.

Lemma is_dir_mono m1 m2 p : m1 ⊆ m2 → is_dir m1 p = true → is_dir m2 p = true.
Proof.
  intros Hsub. unfold is_dir. destruct (stat m1 p) as [[]|] eqn:E; try done.
  by rewrite (stat_mono _ _ _ _ Hsub E).
Qed.

End directories.

Section session_files.
Context (e : env) (sid : string).
Context (Hbase : ".." ∉ BASE_DIR e) (Hsid : plain_name sid).
Implicit Types (m : fs) (n : string).

Abbreviation up_dir := (UPLOAD_DIR e ++ [sid]).
Abbreviation out_dir := (session_dir_of e sid).

(** Both directories of the session are in place. *)
Abbreviation in_place m := (is_dir m up_dir = true ∧ is_dir m out_dir = true).

(** From [m] to [m']: the session directories and what leads to them
    are untouched, and what is a file of the output directory still is. *)
Abbreviation carried m m' :=
  ((∀ l, l `prefix_of` up_dir ∨ l `prefix_of` out_dir → m' !! l = m !! l)
   ∧ (∀ n, (∃ c, m !! (out_dir ++ [n]) = Some (File c)) →
           ∃ c, m' !! (out_dir ++ [n]) = Some (File c))).

Lemma up_dir_no_dotdot : ".." ∉ up_dir.
Proof.
  destruct Hsid as (_ & _ & _ & Hdd).
  rewrite elem_of_app, list_elem_of_singleton.
  intros [?|?]; [by apply (UPLOAD_DIR_no_dotdot e Hbase)|done].
Qed.

Lemma joinpath_up : joinpath (UPLOAD_DIR e) sid = up_dir.
Proof. destruct Hsid as (? & ? & ? & ?). by apply joinpath_plain. Qed.

Lemma session_dirs_apart n n' : up_dir ++ [n] ≠ out_dir ++ [n'].
Proof.
  unfold session_dir_of. rewrite UPLOAD_DIR_eq, CONVERTED_DIR_eq.
  intros [[[_ E]%app_inj_tail _]%app_inj_tail _]%app_inj_tail. discriminate.
Qed.

Lemma session_dirs_length :
  length up_dir = (length (BASE_DIR e) + 2)%nat
  ∧ length out_dir = (length (BASE_DIR e) + 2)%nat.
Proof.
  unfold session_dir_of. rewrite UPLOAD_DIR_eq, CONVERTED_DIR_eq, !length_app.
  simpl. lia.
Qed.

Lemma not_above_session (d : path) n l :
  d = up_dir ∨ d = out_dir → l `prefix_of` up_dir ∨ l `prefix_of` out_dir →
  l ≠ d ++ [n].
Proof.
  destruct session_dirs_length as [Hup Hout].
  intros Hd Hl ->.
  assert (length (d ++ [n]) ≤ length (BASE_DIR e) + 2)%nat as Hlen.
  { destruct Hl as [Hl%prefix_length|Hl%prefix_length]; lia. }
  rewrite length_app in Hlen. simpl in Hlen. destruct Hd as [->| ->]; lia.
Qed.

Lemma carried_refl m : carried m m.
Proof. done. Qed.

Lemma carried_trans m1 m2 m3 : carried m1 m2 → carried m2 m3 → carried m1 m3.
Proof.
  intros [Hd1 Hf1] [Hd2 Hf2]. split.
  - intros l Hl. by rewrite Hd2, Hd1.
  - intros n Hn. by apply Hf2, Hf1.
Qed.

Lemma in_place_carried m m' : in_place m → carried m m' → in_place m'.
Proof.
  intros [Hup Hout] [Hd _]. split.
  - apply (is_dir_agree m' m); [apply up_dir_no_dotdot| |done].
    intros l Hl. apply Hd. by left.
  - apply (is_dir_agree m' m); [by apply sdir_no_dotdot| |done].
    intros l Hl. apply Hd. by right.
Qed.

Lemma carried_write m (d : path) n c :
  d = up_dir ∨ d = out_dir → m !! (d ++ [n]) ≠ Some Dir →
  carried m (<[d ++ [n] := File c]> m).
Proof.
  intros Hd Hn. split.
  - intros l Hl. rewrite lookup_insert_ne; [done|].
    apply not_eq_sym. by apply not_above_session.
  - intros n' [c' Hc'].
    destruct (decide (d ++ [n] = out_dir ++ [n'])) as [E|E].
    + rewrite E, lookup_insert_eq. by eexists.
    + rewrite lookup_insert_ne by done. by eexists.
Qed.

Lemma carried_delete m n :
  carried m (delete (up_dir ++ [n]) m).
Proof.
  split.
  - intros l Hl. rewrite lookup_delete_ne; [done|].
    apply not_eq_sym. apply not_above_session; [by left|done].
  - intros n' [c' Hc']. rewrite lookup_delete_ne by apply session_dirs_apart.
    by eexists.
Qed.

(** Writing a file under a plain name in a directory of the session. *)
Lemma write_in_session m (d : path) n c m' :
  in_place m → d = up_dir ∨ d = out_dir →
  Str.contains "/" n = false → n ≠ "" → n ≠ "." →
  write_file (joinpath d n) c m = inr m' →
  m' = <[d ++ [n] := File c]> m ∧ carried m m' ∧ n ≠ "..".
Proof.
  intros [Hup Hout] Hd Hn1 Hn2 Hn3. rewrite joinpath_plain by done.
  intros (d' & _ & Hr & _ & Hdd & Hnot & ->)%write_file_inv.
  rewrite parent_snoc in Hr. rewrite name_of_snoc in Hdd, Hnot |- *.
  assert (realpath m d = Some d) as Hd'.
  { destruct Hd as [->| ->]; apply is_dir_plain;
      (done || apply up_dir_no_dotdot || by apply sdir_no_dotdot). }
  rewrite Hd' in Hr. injection Hr as <-.
  split; [done|]. split; [by apply carried_write|done].
Qed.

End session_files.

Section converter_effects.
Context (e : env) (sid : string).
Context (Hbase : ".." ∉ BASE_DIR e) (Hsid : plain_name sid).
Implicit Types (m : fs) (w : world).

Abbreviation up := (UPLOAD_DIR e ++ [sid]).
Abbreviation out := (session_dir_of e sid).
Abbreviation placed m := (is_dir m up = true ∧ is_dir m out = true).
Abbreviation kept m m' :=
  ((∀ l, l `prefix_of` up ∨ l `prefix_of` out → m' !! l = m !! l)
   ∧ (∀ n, (∃ c, m !! (out ++ [n]) = Some (File c)) →
           ∃ c, m' !! (out ++ [n]) = Some (File c))).

(** A path of the output directory under a plain name, holding a file. *)
Abbreviation written m p :=
  (∃ n c, p = out ++ [n] ∧ Str.contains "/" n = false ∧ n ≠ "" ∧ n ≠ "."
          ∧ n ≠ ".." ∧ m !! p = Some (File c)).

Lemma image_in_session input_path tf ext w res w' :
  placed (files w) →
  Str.contains "/" (name_of input_path) = false →
  Str.contains "/" ext = false → (3 ≤ String.length ext)%nat →
  _convert_image input_path out tf ext w = (res, w') →
  kept (files w) (files w') ∧ draws w' = draws w
  ∧ (∀ q, (∀ n, q ≠ out ++ [n]) → files w' !! q = files w !! q)
  ∧ ∀ outs, res = inr outs → Forall (λ p, written (files w') p) outs.
Proof.
  intros Hin Hname Hext Hlen. rewrite _convert_image_run.
  rewrite (mkdir_parents_existing (files w) out) by (by apply sdir_no_dotdot || apply Hin).
  destruct (Image_open input_path _).1 as [?|img].
  { intros [= <- <-]. by repeat split. }
  set (name := stem_of_name (name_of input_path) +:+ ext).
  assert (Str.contains "/" name = false) as Hn1.
  { unfold name. by rewrite contains_app, stem_of_name_plain, Hext. }
  assert (3 ≤ String.length name)%nat as Hn2.
  { unfold name. rewrite string_length_app. lia. }
  assert (name ≠ "" ∧ name ≠ "." ∧ name ≠ "..") as (Hn3 & Hn4 & Hn5).
  { repeat split; intros E; rewrite E in Hn2; simpl in Hn2; lia. }
  destruct (write_file _ _ (files w)) as [?|m2] eqn:Hw.
  { intros [= <- <-]. by repeat split. }
  apply (write_in_session e sid Hbase Hsid) in Hw as (-> & Hkept & _);
    [|done|by right|done..].
  intros [= <- <-]. cbn [files draws]. split; [done|]. split; [done|].
  split; [intros q Hq; by rewrite lookup_insert_ne|].
  intros outs [= <-]. repeat constructor.
  exists name. eexists. rewrite joinpath_plain by done.
  repeat split; try done. by rewrite lookup_insert_eq.
Qed.

Lemma render_in_session doc stem zoom (n : nat) :
  Str.contains "/" stem = false →
  ∀ a acc w res w',
  placed (files w) →
  for_each (seq a n)
    (λ (page_num : nat) (converted_files : list path),
       pix ← get_pixmap doc page_num zoom;
       let output_filename := page_filename stem page_num in
       let output_path := joinpath out output_filename in
       on_fs (write_file output_path pix);;
       ret (converted_files ++ [output_path])) acc w = (res, w') →
  kept (files w) (files w') ∧ draws w' = draws w
  ∧ (∀ q, (∀ n, q ≠ out ++ [n]) → files w' !! q = files w !! q)
  ∧ ∀ outs, res = inr outs →
      ∃ new, outs = acc ++ new ∧ Forall (λ p, written (files w') p) new.
Proof.
  intros Hstem. induction n as [|n IH]; intros a acc w res w' Hin.
  { cbn [seq for_each]. unfold ret. intros [= <- <-]. split; [done|]. split; [done|].
    split; [done|]. intros outs [= <-]. exists []. by rewrite app_nil_r. }
  cbn [seq for_each]. unfold bind at 1. unfold bind at 1, get_pixmap at 1.
  destruct (doc !! a) as [[]|]; unfold raise; try (intros [= <- <-]; by repeat split).
  unfold ret at 1. unfold bind at 1, on_fs at 1.
  destruct (page_filename_proper stem a) as (Hp1 & Hp2 & Hp3).
  pose proof (page_filename_plain stem Hstem a) as Hp0.
  destruct (write_file _ _ (files w)) as [?|m1] eqn:Hw.
  { intros [= <- <-]. by repeat split. }
  apply (write_in_session e sid Hbase Hsid) in Hw as (-> & Hkept & _);
    [|done|by right|done..].
  unfold ret at 1. intros Hrest.
  apply IH in Hrest as (Hkept' & Hdraws & Hframe & Houts).
  2:{ cbn [files]. by apply (in_place_carried e sid Hbase Hsid (files w)). }
  cbn [files draws] in *.
  split; [by eapply (carried_trans e sid)|]. split; [done|].
  split; [intros q Hq; rewrite Hframe by done; by rewrite lookup_insert_ne|].
  intros outs Hres. destruct (Houts outs Hres) as (new & -> & Hnew).
  exists (joinpath out (page_filename stem a) :: new).
  split; [by rewrite <- app_assoc|]. constructor; [|done].
  rewrite joinpath_plain by done.
  destruct Hkept' as [_ Hfiles].
  destruct (Hfiles (page_filename stem a)) as [c Hc].
  { eexists. by rewrite lookup_insert_eq. }
  exists (page_filename stem a), c. by repeat split.
Qed.

Lemma pdf_in_session input_path dpi w res w' :
  placed (files w) →
  Str.contains "/" (name_of input_path) = false →
  convert_pdf_to_png_dpi input_path out dpi w = (res, w') →
  kept (files w) (files w') ∧ draws w' = draws w
  ∧ (∀ q, (∀ n, q ≠ out ++ [n]) → files w' !! q = files w !! q)
  ∧ ∀ outs, res = inr outs → Forall (λ p, written (files w') p) outs.
Proof.
  intros Hin Hname. unfold convert_pdf_to_png_dpi.
  unfold bind at 1, on_fs at 1.
  rewrite (mkdir_parents_existing (files w) out) by (by apply sdir_no_dotdot || apply Hin).
  unfold bind at 1, try_except, fitz_open, bind at 1, get_fs, raise, ret. cbn [files].
  destruct (read_file (files w) input_path) as [?|[doc| | | |]];
    try (intros [= <- <-]; by repeat split).
  intros Hloop.
  apply (render_in_session doc _ _ _ (stem_of_name_plain _ Hname)) in Hloop
    as (Hkept & Hdraws & Hframe & Houts); [|done].
  cbn [files draws] in *. split; [done|]. split; [done|]. split; [done|].
  intros outs Hres. by destruct (Houts outs Hres) as (new & -> & Hnew).
Qed.

Lemma call_in_session c input_path w res w' :
  placed (files w) →
  Str.contains "/" (name_of input_path) = false →
  call c input_path out w = (res, w') →
  kept (files w) (files w') ∧ draws w' = draws w
  ∧ (∀ q, (∀ n, q ≠ out ++ [n]) → files w' !! q = files w !! q)
  ∧ ∀ outs, res = inr outs → Forall (λ p, written (files w') p) outs.
Proof.
  intros Hin Hname.
  destruct c; cbn [call];
    [by apply pdf_in_session
    |unfold convert_webp_to_png, convert_png_to_webp, convert_png_to_jpg,
       convert_jpg_to_png, convert_bmp_to_png, convert_tiff_to_png;
     apply image_in_session; (done || (simpl; lia))..].
Qed.

End converter_effects.

Section batch_links.
Context (e : env) (sid : string).
Context (Hbase : ".." ∉ BASE_DIR e) (Hsid : plain_name sid).
Context (Hhex : ∀ k, Str.contains "/" (uuid4_hex e k) = false).
Context (converter_ : converter) (accepted_exts : list string).
Implicit Types (m : fs) (w : world).

Abbreviation up_ := (UPLOAD_DIR e ++ [sid]).
Abbreviation out_ := (session_dir_of e sid).
Abbreviation placed_ m := (is_dir m up_ = true ∧ is_dir m out_ = true).

(** The file a result entry points to is a file of the session's
    output directory, under a plain name. *)
Abbreviation served m x :=
  (∃ c, m !! (out_ ++ [file_id x]) = Some (File c)
        ∧ Str.contains "/" (file_id x) = false
        ∧ file_id x ≠ "" ∧ file_id x ≠ "." ∧ file_id x ≠ "..").

Lemma served_kept m m' results :
  (∀ n, (∃ c, m !! (out_ ++ [n]) = Some (File c)) →
        ∃ c, m' !! (out_ ++ [n]) = Some (File c)) →
  Forall (λ x, served m x) results → Forall (λ x, served m' x) results.
Proof.
  intros Hfiles Hall. eapply Forall_impl; [exact Hall|]. intros x (c & Hc & Hplain).
  destruct (Hfiles (file_id x)) as [c' Hc']; [by eexists|]. by exists c'.
Qed.

Lemma append_results_served file m outs : ∀ results results' failure,
  Forall (λ p, ∃ n c, p = out_ ++ [n] ∧ Str.contains "/" n = false ∧ n ≠ "" ∧ n ≠ "."
                      ∧ n ≠ ".." ∧ m !! p = Some (File c)) outs →
  append_results e sid file m outs results = (results', failure) →
  Forall (λ x, served m x) results → Forall (λ x, served m x) results'.
Proof.
  induction outs as [|o outs IH]; intros results results' failure Houts; simpl.
  { by intros [= <- <-]. }
  apply Forall_cons in Houts as [(n & c & -> & Hn1 & Hn2 & Hn3 & Hn4 & Hc) Houts].
  destruct (stat m (out_ ++ [n])) as [nd|]; [|by intros [= <- <-]].
  intros Happ Hres. eapply IH; [done|exact Happ|].
  apply Forall_app. split; [done|]. repeat constructor.
  cbn [result_of file_id]. rewrite name_of_snoc. by exists c.
Qed.

Lemma convert_one_served upload_path file acc w acc' w' :
  placed_ (files w) → Str.contains "/" (name_of upload_path) = false →
  Forall (λ x, served (files w) x) acc.1 →
  convert_one e converter_ sid out_ upload_path file acc w = (inr acc', w') →
  placed_ (files w') ∧ Forall (λ x, served (files w') x) acc'.1.
Proof.
  intros Hin Hname Hacc. unfold convert_one, bind, try_except, ret, get_fs.
  destruct (call converter_ upload_path out_ w) as [res w1] eqn:Hcall.
  apply (call_in_session e sid Hbase Hsid) in Hcall as (Hkept & _ & _ & Houts); [|done..].
  assert (placed_ (files w1)) as Hin1
    by (by apply (in_place_carried e sid Hbase Hsid (files w))).
  assert (Forall (λ x, served (files w1) x) acc.1) as Hacc1
    by (eapply served_kept; [apply Hkept|done]).
  destruct res as [ex|outs].
  { by intros [= <- <-]. }
  destruct (append_results e sid file (files w1) outs acc.1) as [results' failure] eqn:Happ.
  apply append_results_served in Happ; [|by apply Houts|done].
  destruct failure; by intros [= <- <-].
Qed.

Lemma upload_name_plain file k :
  Str.contains "/" (filename file) = false → filename file ≠ "" →
  let safe := Str.take 8 (uuid4_hex e k) +:+ "_" +:+ filename file in
  Str.contains "/" safe = false ∧ safe ≠ "" ∧ safe ≠ ".".
Proof.
  intros Hname Hne safe.
  assert (2 ≤ String.length safe)%nat as Hlen.
  { unfold safe. rewrite !string_length_app. simpl.
    destruct (filename file); [done|]. simpl. lia. }
  split; [|split; intros E; rewrite E in Hlen; simpl in Hlen; lia].
  unfold safe. rewrite !contains_app, contains_take by done. by rewrite Hname.
Qed.

Lemma process_file_served file acc w acc' w' :
  placed_ (files w) → Str.contains "/" (filename file) = false →
  Forall (λ x, served (files w) x) acc.1 →
  process_file e converter_ accepted_exts sid up_ out_ file acc w = (inr acc', w') →
  placed_ (files w') ∧ Forall (λ x, served (files w') x) acc'.1.
Proof.
  intros Hin Hname Hacc.
  destruct (decide (filename file = "")) as [Hempty|Hne].
  { rewrite process_file_empty by done. by intros [= <- <-]. }
  destruct (rejected_extension accepted_exts file) eqn:Hrej.
  { rewrite process_file_rejected by done. by intros [= <- <-]. }
  destruct (upload_name_plain file (draws w) Hname Hne) as (Hs1 & Hs2 & Hs3).
  destruct (write_file (upload_path_of e up_ file w) (body file) (files w))
    as [ex|m'] eqn:Hw.
  { by rewrite (process_file_save_failed _ _ _ _ _ _ _ _ _ ex). }
  rewrite (process_file_saved _ _ _ _ _ _ _ _ _ m') by done.
  unfold upload_path_of in Hw |- *.
  apply (write_in_session e sid Hbase Hsid) in Hw as (-> & Hkept & Hs4);
    [|done|by left|done..].
  set (safe := Str.take 8 (uuid4_hex e (draws w)) +:+ "_" +:+ filename file) in *.
  set (m' := <[up_ ++ [safe] := File (body file)]> (files w)) in *.
  assert (placed_ m') as Hin' by (by apply (in_place_carried e sid Hbase Hsid (files w))).
  assert (Forall (λ x, served m' x) acc.1) as Hacc'
    by (eapply served_kept; [apply Hkept|done]).
  rewrite joinpath_plain by done.
  destruct (MAX_FILE_SIZE <? st_size e (body file)).
  - unfold unlink.
    destruct Hin' as [Hup' Hout'].
    destruct (is_dir_plain m' up_ (up_dir_no_dotdot e sid Hbase Hsid) Hup') as [Hr Hd].
    assert (m' !! (up_ ++ [safe]) = Some (File (body file))) as Hm
      by (unfold m'; apply lookup_insert_eq).
    rewrite realpath_child by done. rewrite Hm.
    cbn [mbind option_bind]. rewrite node_at_snoc, Hm.
    intros [= <- <-]. cbn [files fst].
    pose proof (carried_delete e sid m' safe) as Hdel.
    split; [by apply (in_place_carried e sid Hbase Hsid m')|].
    eapply served_kept; [apply Hdel|done].
  - apply convert_one_served; [done| |done]. by rewrite name_of_snoc.
Qed.

Lemma for_each_served files_ : ∀ acc w acc' w',
  placed_ (files w) →
  Forall (λ f, Str.contains "/" (filename f) = false) files_ →
  Forall (λ x, served (files w) x) acc.1 →
  for_each files_ (process_file e converter_ accepted_exts sid up_ out_) acc w
  = (inr acc', w') →
  placed_ (files w') ∧ Forall (λ x, served (files w') x) acc'.1.
Proof.
  induction files_ as [|file files_ IH]; intros acc w acc' w' Hin Hnames Hacc;
    cbn [for_each].
  { by intros [= <- <-]. }
  apply Forall_cons in Hnames as [Hname Hnames].
  unfold bind.
  destruct (process_file e converter_ accepted_exts sid up_ out_ file acc w)
    as [[ex|acc1] w1] eqn:Hstep; [done|].
  apply process_file_served in Hstep as [Hin1 Hacc1]; [|done..].
  by apply IH.
Qed.

(** A file of the session's output directory is what both views serve. *)
Lemma served_by_views m k n c :
  placed_ m → m !! (out_ ++ [n]) = Some (File c) →
  Str.contains "/" n = false → n ≠ "" → n ≠ "." → n ≠ ".." →
  download_file e sid n (World m k)
  = (FileResponse (out_ ++ [n]) c true (Some n), World m k)
  ∧ preview_file e sid n (World m k)
    = (FileResponse (out_ ++ [n]) c false None, World m k).
Proof.
  intros [_ Hout] Hc Hn1 Hn2 Hn3 Hn4.
  destruct (is_dir_plain m out_ (sdir_no_dotdot e sid Hbase Hsid) Hout) as [Hr Hd].
  unfold download_file, preview_file, download_file_view, preview_file_view, serve.
  rewrite (joinpath_session e sid Hsid), joinpath_plain by done.
  unfold bind, get_fs. cbn [files].
  assert (stat m (out_ ++ [n]) = Some (File c)) as Hstat
    by (by rewrite stat_child).
  unfold exists_. rewrite Hstat.
  rewrite bool_decide_eq_true_2 by done. cbn [negb].
  unfold send_file, read_file. rewrite Hstat.
  rewrite realpath_child by done. rewrite Hc. done.
Qed.

End batch_links.

Section retention.
Context (e : env) (sid : string).
Context (Hbase : ".." ∉ BASE_DIR e) (Hsid : plain_name sid).

(** In a session whose directories are in place, a named upload that
    passes the extension and size checks is processed without an
    exception, whatever the converter does with it, and its persisted
    copy is still in the session's upload directory afterwards: only
    the cleanup thread removes it. *)
Theorem upload_copy_is_kept converter_ accepted_exts file acc w :
  is_dir (files w) (UPLOAD_DIR e ++ [sid]) = true →
  is_dir (files w) (session_dir_of e sid) = true →
  Str.contains "/" (uuid4_hex e (draws w)) = false →
  Str.contains "/" (filename file) = false → filename file ≠ "" →
  rejected_extension accepted_exts file = false →
  st_size e (body file) ≤ MAX_FILE_SIZE →
  let safe_filename := Str.take 8 (uuid4_hex e (draws w)) +:+ "_" +:+ filename file in
  files w !! (UPLOAD_DIR e ++ [sid; safe_filename]) ≠ Some Dir →
  ∃ acc' w',
    process_file e converter_ accepted_exts sid
      (joinpath (UPLOAD_DIR e) sid) (joinpath (CONVERTED_DIR e) sid) file acc w
    = (inr acc', w')
    ∧ files w' !! (UPLOAD_DIR e ++ [sid; safe_filename]) = Some (File (body file))
    ∧ draws w' = S (draws w).
Proof.
  intros Hup Hout Hhex Hname Hne Hrej Hsize safe Hfree.
  rewrite (joinpath_up e sid Hsid), (joinpath_session e sid Hsid).
  assert (2 ≤ String.length safe)%nat as Hlen.
  { unfold safe. rewrite !string_length_app. simpl.
    destruct (filename file); [done|]. simpl. lia. }
  assert (Str.contains "/" safe = false) as Hs1.
  { unfold safe. rewrite !contains_app, contains_take by done. by rewrite Hname. }
  assert (safe ≠ "" ∧ safe ≠ "." ∧ safe ≠ "..") as (Hs2 & Hs3 & Hs4).
  { assert (Str.contains "_" safe = true) as Hus.
    { unfold safe. rewrite !contains_app. simpl. by rewrite orb_true_r. }
    repeat split; intros E; rewrite E in Hus; discriminate. }
  replace (UPLOAD_DIR e ++ [sid; safe]) with ((UPLOAD_DIR e ++ [sid]) ++ [safe]) in *
    by (by rewrite <- app_assoc).
  destruct (is_dir_plain _ _ (up_dir_no_dotdot e sid Hbase Hsid) Hup) as [Hr Hd].
  assert (write_file (upload_path_of e (UPLOAD_DIR e ++ [sid]) file w) (body file) (files w)
          = inr (<[(UPLOAD_DIR e ++ [sid]) ++ [safe] := File (body file)]> (files w)))
    as Hw.
  { unfold upload_path_of. fold safe. rewrite joinpath_plain by done.
    by apply write_file_child. }
  rewrite (process_file_saved _ _ _ _ _ _ _ _ _ _ Hne Hrej Hw).
  rewrite (proj2 (Z.ltb_ge _ _)) by done.
  set (m' := <[(UPLOAD_DIR e ++ [sid]) ++ [safe] := File (body file)]> (files w)).
  assert (is_dir m' (UPLOAD_DIR e ++ [sid]) = true
          ∧ is_dir m' (session_dir_of e sid) = true) as Hin'.
  { apply (in_place_carried e sid Hbase Hsid (files w)); [done|].
    apply carried_write; [by left|done]. }
  unfold convert_one, bind, try_except, ret, get_fs.
  destruct (call converter_ _ (session_dir_of e sid) (World m' (S (draws w))))
    as [res w1] eqn:Hcall.
  apply (call_in_session e sid Hbase Hsid) in Hcall as (_ & Hdraws & Hframe & _);
    [|done|].
  2:{ unfold upload_path_of. fold safe. rewrite joinpath_plain by done.
      by rewrite name_of_snoc. }
  cbn [files draws] in *.
  assert (files w1 !! ((UPLOAD_DIR e ++ [sid]) ++ [safe]) = Some (File (body file)))
    as Hkept.
  { rewrite Hframe by (intros n; apply session_dirs_apart).
    unfold m'. by rewrite lookup_insert_eq. }
  destruct res as [ex|outs]; [by eexists _, _|].
  destruct (append_results e sid file (files w1) outs acc.1) as [results' [ex|]];
    by eexists _, _.
Qed.

End retention.

Section links_theorem.
Context (e : env).

Lemma convert_files_batch_dirs req w r w' :
  convert_files e req w = (JsonBatch r, w') →
  ∃ c acc m1 m2,
    let sid := session_id_of (uuid4_hex e (draws w)) in
    mkdir_parents (joinpath (UPLOAD_DIR e) sid) (files w) = inr m1
    ∧ mkdir_parents (joinpath (CONVERTED_DIR e) sid) m1 = inr m2
    ∧ for_each (request_files req)
        (process_file e c (get_accepted_extensions (requested_conversion req)) sid
           (joinpath (UPLOAD_DIR e) sid) (joinpath (CONVERTED_DIR e) sid))
        ([], []) (World m2 (S (draws w))) = (inr acc, w')
    ∧ r = batch_of sid acc.
Proof.
  unfold convert_files, serve, convert_files_view.
  destruct (resolve_conversion (requested_conversion req)) as [bad|c] eqn:Hres.
  { apply resolve_conversion_bad in Hres as [msg ->]. done. }
  destruct (is_empty (request_files req) || forallb _ (request_files req)); [done|].
  destruct (MAX_FILES_PER_BATCH <? length (request_files req))%nat; [done|].
  unfold bind at 1. unfold draw at 1. cbn beta iota.
  unfold bind at 1, on_fs at 1. cbn [files draws].
  destruct (mkdir_parents _ (files w)) as [?|m1] eqn:Hmk1; [done|].
  unfold bind at 1, on_fs at 1. cbn [files draws].
  destruct (mkdir_parents _ m1) as [?|m2] eqn:Hmk2; [done|].
  unfold bind at 1.
  destruct (for_each _ _ _ _) as [[?|acc] w3] eqn:Hloop; [done|].
  unfold ret. intros [= <- <-]. by exists c, acc, m1, m2.
Qed.

(** The links of a batch result work: when the installation path has
    no [..], the identifiers drawn hold no separator and no uploaded
    filename holds one, the two directories of the session exist after
    the request, and every result of the batch points to a file of the
    session's output directory, which [download_file] and
    [preview_file], asked under the result's session and file
    identifiers, serve right after the request. *)
Theorem batch_links_are_served req w r w' :
  ".." ∉ BASE_DIR e →
  (∀ k, Str.contains "/" (uuid4_hex e k) = false) →
  Forall (λ f, Str.contains "/" (filename f) = false) (request_files req) →
  convert_files e req w = (JsonBatch r, w') →
  is_dir (files w') (UPLOAD_DIR e ++ [session_id r]) = true
  ∧ is_dir (files w') (CONVERTED_DIR e ++ [session_id r]) = true
  ∧ Forall (λ x, ∃ c,
            files w' !! (CONVERTED_DIR e ++ [session_id r; file_id x]) = Some (File c)
            ∧ download_file e (session_id r) (file_id x) w'
              = (FileResponse (CONVERTED_DIR e ++ [session_id r; file_id x]) c
                   true (Some (file_id x)), w')
            ∧ preview_file e (session_id r) (file_id x) w'
              = (FileResponse (CONVERTED_DIR e ++ [session_id r; file_id x]) c
                   false None, w'))
         (results r).
Proof.
  intros Hbase Hhex Hnames (c & acc & m1 & m2 & Hmk1 & Hmk2 & Hloop & ->)%convert_files_batch_dirs.
  set (sid := session_id_of (uuid4_hex e (draws w))) in *.
  assert (plain_name sid) as Hsid by (by apply session_id_plain).
  rewrite (joinpath_up e sid Hsid) in Hmk1, Hloop.
  rewrite (joinpath_session e sid Hsid) in Hmk2, Hloop.
  apply mkdir_parents_creates in Hmk1 as [Hup1 Hsub1];
    [|by apply up_dir_no_dotdot].
  apply mkdir_parents_creates in Hmk2 as [Hout2 Hsub2];
    [|by apply sdir_no_dotdot].
  apply (for_each_served e sid Hbase Hsid Hhex) in Hloop as [Hin Hserved];
    [|split; [by eapply is_dir_mono|done]|done|done].
  cbn [batch_of session_id results fst].
  split; [apply Hin|]. split; [apply Hin|].
  eapply Forall_impl; [exact Hserved|]. intros x Hx. cbn beta in Hx.
  destruct w' as [m' k']. cbn [files] in *.
  destruct Hx as (c' & Hc' & Hn1 & Hn2 & Hn3 & Hn4).
  destruct (served_by_views e sid Hbase Hsid m' k' (file_id x) c' Hin Hc' Hn1 Hn2 Hn3 Hn4)
    as [Hdown Hprev].
  exists c'. unfold session_dir_of in *. rewrite <- !app_assoc in *. cbn [app] in *.
  done.
Qed.

End links_theorem.

(** ** The properties above, on the example installation *)

Section more_examples.
Import example.

(** [display_name_strips_token] on the second page of a converted PDF. *)
Lemma display_name_strips_token_witness :
  display_name_of "doc.pdf" (session_outputs ++ ["00000001_doc_page_002.png"])
  = "doc_page_002.png".
Proof.
  apply (display_name_strips_token "doc.pdf" session_outputs "00000001"
           "doc_page_002.png"); by_evaluation.
Defined.

(** [extension_check_ignores_case] on an upper-case file name. *)
Lemma extension_check_ignores_case_witness :
  file_ext_of (Upload "PHOTO.PNG" rgba_png) = "png"
  ∧ rejected_extension ["png"] (Upload "PHOTO.PNG" rgba_png) = false.
Proof.
  destruct (extension_check_ignores_case ["png"] "PHOTO" "PNG" rgba_png
              ltac:(by_evaluation) ltac:(by_evaluation) ltac:(by_evaluation)
              ltac:(discriminate) ltac:(discriminate)) as [Hext Hrej].
  split; [exact Hext|]. etrans; [exact Hrej|by_evaluation].
Defined.


(** [convert_files_rejects_without_effect] on a batch without names. *)
Lemma convert_files_rejects_without_effect_witness :
  (convert_files e0 unnamed_batch w0).2 = w0.
Proof.
  destruct (convert_files_rejects_without_effect e0 unnamed_batch w0 400%nat
              "No files uploaded" (convert_files e0 unnamed_batch w0).2
              ltac:(by_evaluation)) as [_ H].
  exact H.
Defined.

(** [get_converter_ignores_case] on upper-case formats. *)
Lemma get_converter_ignores_case_witness :
  get_converter "PNG" "JPG" = get_converter (Str.lower "PNG") (Str.lower "JPG")
  ∧ lookup_converter (Str.lower "PNG") (Str.lower "JPG") = Some Convert_png_to_jpg.
Proof.
  destruct (get_converter_ignores_case "PNG" "JPG") as [H1 H2].
  split; [exact H1|]. apply H2. by_evaluation.
Defined.

(** [options_agree_with_registry] on the option for JPG sources and on
    an identifier that is not listed. *)
Lemma options_agree_with_registry_witness :
  get_accepted_extensions "jpg-to-png" = ["jpg"; "jpeg"]
  ∧ get_target_extension "jpg-to-png" = "png"
  ∧ get_accepted_extensions "jpeg-to-png" = [].
Proof.
  destruct options_agree_with_registry as [Hlisted Hunlisted].
  destruct (Hlisted jpg_option) as (Hexts & Hto & _).
  { unfold CONVERSION_OPTIONS, jpg_option. by repeat constructor. }
  destruct (Hunlisted "jpeg-to-png") as [Hnone _].
  { repeat constructor; discriminate. }
  split; [exact Hexts|]. split; [exact Hto|exact Hnone].
Defined.

(** [image_converter_outcome] on a PNG with an alpha channel sent to JPEG. *)
Lemma image_converter_outcome_witness :
  let run := _convert_image a_png_path session_outputs "JPEG" ".jpg" w_png in
  outputs_of run = [session_outputs ++ ["00000001_a.jpg"]]
  ∧ draws run.2 = draws w_png.
Proof.
  intros run.
  destruct (image_converter_outcome a_png_path session_outputs "JPEG" ".jpg" w_png)
    as [Hok _].
  destruct (Hok (outputs_of run) run.2 ltac:(by_evaluation))
    as (Houts & Hdraws & _).
  split; [|exact Hdraws]. etrans; [exact Houts|by_evaluation].
Defined.


(** [preview_and_download_agree] on a converted file of the example
    session. *)
Lemma preview_and_download_agree_witness :
  (download_file e0 session "00000001_a.jpg" w2).1
  = FileResponse (session_outputs ++ ["00000001_a.jpg"]) a_jpg true
      (Some "00000001_a.jpg").
Proof.
  destruct (preview_and_download_agree e0 session "00000001_a.jpg" w2)
    as (_ & _ & Hsame & _).
  destruct (Hsame (session_outputs ++ ["00000001_a.jpg"]) a_jpg false None
              ltac:(by_evaluation)) as (_ & _ & H).
  exact H.
Defined.

(** [human_size_rounds] on a kilobyte and a half. *)
Lemma human_size_rounds_witness :
  ∃ (k : nat) (unit : string) (t : Z),
    ["B"; "KB"; "MB"; "GB"; "TB"] !! k = Some unit
    ∧ _human_size 1536
      = pretty (t / 10) +:+ "." +:+ pretty (t mod 10) +:+ " " +:+ unit
    ∧ Z.abs (10 * 1536 - t * 1024 ^ Z.of_nat k) * 2 ≤ 1024 ^ Z.of_nat k
    ∧ (k = 0%nat ∨ 1024 ^ Z.of_nat k ≤ 1536)
    ∧ (k = 4%nat ∨ 1536 < 1024 ^ (Z.of_nat k + 1))
    ∧ (k = 0%nat → t = 10 * 1536).
Proof. apply (human_size_rounds 1536). split; [lia|reflexivity]. Defined.

(** [cleanup_confined_to_roots] on the example installation: two turns
    of the thread leave the application's own file in place. *)
Lemma cleanup_confined_to_roots_witness :
  ∃ m', cleanup_old_files e0 2 (λ _, s0) m3 = inr m'
    ∧ is_dir m' (UPLOAD_DIR e0) = true
    ∧ m' !! ["srv"; "formatwave"; "app.py"] = m3 !! ["srv"; "formatwave"; "app.py"].
Proof.
  destruct (cleanup_confined_to_roots e0
              ltac:(refine (bool_decide_unpack _ _); vm_compute; exact I)
              2 (λ _, s0) m3)
    as (m' & Hrun & _ & Hup & _ & Hout).
  { apply no_dotdot_entries_checked. refine (bool_decide_unpack _ _).
    vm_compute. exact I. }
  { by_evaluation. }
  { by_evaluation. }
  exists m'. split; [exact Hrun|]. split; [exact Hup|].
  apply Hout; intros name Hp%prefix_length;
    rewrite length_app in Hp; vm_compute in Hp; lia.
Defined.

(** [batch_entries_name_uploads] on a batch with a converted, an
    unnamed, a rejected, a too large and an undecodable entry. *)
Lemma batch_entries_name_uploads_witness :
  ∃ r w', convert_files e0 mixed_batch w0 = (JsonBatch r, w')
    ∧ err_filename <$> errors r `sublist_of` filename <$> request_files mixed_batch
    ∧ (download_all_url r = None ↔ results r = []).
Proof.
  assert (convert_files e0 mixed_batch w0
          = (JsonBatch (batch_in (convert_files e0 mixed_batch w0)),
             (convert_files e0 mixed_batch w0).2)) as H
    by (by_evaluation).
  eexists _, _. split; [exact H|].
  destruct (batch_entries_name_uploads e0 mixed_batch w0 _ _ H)
    as (_ & _ & Hsub & _ & Hzip).
  split; [exact Hsub|exact Hzip].
Defined.


End more_examples.

Section further_examples.
Import example.

(** [conversion_id_case] on the identifier of a listed conversion
    written in upper case. *)
Lemma conversion_id_case_witness :
  resolve_conversion ("PNG" +:+ "-to-" +:+ "JPG")
  = resolve_conversion (Str.lower ("PNG" +:+ "-to-" +:+ "JPG"))
  ∧ get_accepted_extensions ("PNG" +:+ "-to-" +:+ "JPG") = []
  ∧ get_accepted_extensions (Str.lower ("PNG" +:+ "-to-" +:+ "JPG")) = ["png"].
Proof.
  destruct (conversion_id_case "PNG" "JPG" ltac:(by_evaluation) ltac:(by_evaluation))
    as (Hsame & Hexts & _).
  destruct (Hexts png_option) as [Hnone Hlisted].
  { unfold CONVERSION_OPTIONS, png_option. by repeat constructor. }
  { by_evaluation. }
  { intros E. apply (f_equal (Str.contains "P")) in E. vm_compute in E. discriminate. }
  split; [exact Hsame|]. split; [exact Hnone|exact Hlisted].
Defined.

(** [registered_output_previewable] on the converter registered for
    (png, jpg). *)
Lemma registered_output_previewable_witness :
  Forall (λ p, suffix_of_name (name_of p) = "." +:+ "jpg"
               ∧ is_previewable_path p = true)
    (outputs_of (call Convert_png_to_jpg a_png_path session_outputs w_png)).
Proof.
  apply (registered_output_previewable "png" "jpg" Convert_png_to_jpg
           a_png_path session_outputs w_png _
           (call Convert_png_to_jpg a_png_path session_outputs w_png).2).
  - by_evaluation.
  - by_evaluation.
  - intros E. apply (f_equal String.length) in E. vm_compute in E. discriminate.
  - by_evaluation.
Defined.


(** [batch_links_are_served] on a batch with one converted entry. *)
Lemma batch_links_are_served_witness :
  ∃ r w', convert_files e0 mixed_batch w0 = (JsonBatch r, w')
    ∧ is_dir (files w') (CONVERTED_DIR e0 ++ [session_id r]) = true
    ∧ Forall (λ x, ∃ c,
                download_file e0 (session_id r) (file_id x) w'
                = (FileResponse (CONVERTED_DIR e0 ++ [session_id r; file_id x]) c
                     true (Some (file_id x)), w'))
        (results r).
Proof.
  assert (convert_files e0 mixed_batch w0
          = (JsonBatch (batch_in (convert_files e0 mixed_batch w0)),
             (convert_files e0 mixed_batch w0).2)) as H
    by (by_evaluation).
  eexists _, _. split; [exact H|].
  assert (∀ k, Str.contains "/" (uuid4_hex e0 k) = false) as Hhex.
  { intros k. unfold e0, hex_of. cbn [uuid4_hex].
    rewrite !contains_app, pretty_nat_plain. by_evaluation. }
  assert (Forall (λ f, Str.contains "/" (filename f) = false)
            (request_files mixed_batch)) as Hnames.
  { unfold mixed_batch. cbn [request_files]. repeat constructor. }
  destruct (batch_links_are_served e0 mixed_batch w0 _ _
              ltac:(refine (bool_decide_unpack _ _); vm_compute; exact I)
              Hhex Hnames H)
    as (_ & Hout & Hlinks).
  split; [exact Hout|].
  eapply Forall_impl; [exact Hlinks|]. intros x (c & _ & Hdown & _). by exists c.
Defined.

(** [upload_copy_is_kept] on a PNG upload converted to JPG. *)
Lemma upload_copy_is_kept_witness :
  ∃ acc' w',
    process_file e0 Convert_png_to_jpg ["png"] session
      (joinpath (UPLOAD_DIR e0) session) (joinpath (CONVERTED_DIR e0) session)
      small_png ([], []) w1 = (inr acc', w')
    ∧ files w' !! (UPLOAD_DIR e0 ++ [session; "00000001_a.png"]) = Some (File rgba_png)
    ∧ draws w' = 2%nat.
Proof.
  apply (upload_copy_is_kept e0 session
           ltac:(refine (bool_decide_unpack _ _); vm_compute; exact I)
           ltac:(split; [by_evaluation|by repeat split])
           Convert_png_to_jpg ["png"] small_png ([], []) w1);
    try by_evaluation.
  - discriminate.
  - vm_compute. discriminate.
  - intros E. vm_compute in E. discriminate.
Defined.

End further_examples.

(** ** The transparency handling, target by target *)

Section transparency_by_target.


End transparency_by_target.

Section transparency_example.
Import example.


End transparency_example.
